(** * The client-side reply engine of Squid ([src/client_side_reply.cc])

    A shallow embedding of [clientReplyContext]: the per-transaction state,
    the callbacks the store and the access checks deliver to it, the header
    builder and the stream status.  The collaborators that live in other
    files (the store, forwarding, the access lists, the header class) are
    met through the calls made on them, which are recorded in a trace, and
    through the answers they give, which are read from an environment. *)

From Stdlib Require Import ZArith List String Ascii Bool Lia.
Import ListNotations.
Local Open Scope string_scope.
Local Open Scope list_scope.
Local Open Scope Z_scope.

(** Records have definitional eta: a record whose fields are all read back
    from [x] is [x]. *)
Set Primitive Projections.

(** ** Plain data *)

(** [Http::StatusCode], an [int]-valued enumeration. *)
Definition StatusCode : Type := Z.
Definition scNone : StatusCode := 0.
Definition scOkay : StatusCode := 200.
Definition scNotModified : StatusCode := 304.
Definition scForbidden : StatusCode := 403.
Definition scNotFound : StatusCode := 404.
Definition scProxyAuthenticationRequired : StatusCode := 407.
Definition scUnauthorized : StatusCode := 401.
Definition scPreconditionFailed : StatusCode := 412.
Definition scInternalServerError : StatusCode := 500.
Definition scGatewayTimeout : StatusCode := 504.

Inductive ProtocolType : Type := PROTO_NONE | PROTO_HTTP | PROTO_HTTPS | PROTO_FTP | PROTO_ICY.

Definition is_PROTO_HTTP (p : ProtocolType) : bool :=
  match p with PROTO_HTTP => true | _ => false end.
Definition is_PROTO_HTTPS (p : ProtocolType) : bool :=
  match p with PROTO_HTTPS => true | _ => false end.

(** [Http::ProtocolVersion(major, minor)]; the comparison is the
    lexicographic one on the two numbers. *)
Definition ProtocolVersion : Type := (Z * Z)%type.
Definition ProtocolVersion_ge (a b : ProtocolVersion) : bool :=
  (fst b <? fst a) || ((fst a =? fst b) && (snd b <=? snd a)).
(** [Http::ProtocolVersion()] is the version the proxy speaks, 1.1. *)
Definition ProtocolVersion_default : ProtocolVersion := (1, 1).

Inductive MethodType : Type :=
| METHOD_NONE | METHOD_GET | METHOD_POST | METHOD_PUT | METHOD_HEAD
| METHOD_CONNECT | METHOD_TRACE | METHOD_OPTIONS | METHOD_DELETE
| METHOD_PURGE | METHOD_OTHER.

Definition MethodType_eqb (a b : MethodType) : bool :=
  match a, b with
  | METHOD_NONE, METHOD_NONE | METHOD_GET, METHOD_GET | METHOD_POST, METHOD_POST
  | METHOD_PUT, METHOD_PUT | METHOD_HEAD, METHOD_HEAD | METHOD_CONNECT, METHOD_CONNECT
  | METHOD_TRACE, METHOD_TRACE | METHOD_OPTIONS, METHOD_OPTIONS
  | METHOD_DELETE, METHOD_DELETE | METHOD_PURGE, METHOD_PURGE
  | METHOD_OTHER, METHOD_OTHER => true
  | _, _ => false
  end.

(** The methods in the order of the enumeration, [METHOD_NONE] up to (not
    including) [METHOD_ENUM_END]. *)
Definition all_methods : list MethodType :=
  [METHOD_NONE; METHOD_GET; METHOD_POST; METHOD_PUT; METHOD_HEAD; METHOD_CONNECT;
   METHOD_TRACE; METHOD_OPTIONS; METHOD_DELETE; METHOD_PURGE; METHOD_OTHER].

Inductive HdrType : Type :=
| AGE | CACHE_STATUS | CONNECTION | CONTENT_LENGTH | DATE | EXPIRES
| IF_MATCH | IF_MODIFIED_SINCE | IF_NONE_MATCH | KEEP_ALIVE | MAX_FORWARDS
| PROXY_AUTHENTICATE | PROXY_AUTHORIZATION | PROXY_CONNECTION | PROXY_SUPPORT
| SET_COOKIE | SURROGATE_CAPABILITY | SURROGATE_CONTROL | TE | TRAILER
| TRANSFER_ENCODING | UPGRADE | VIA | WWW_AUTHENTICATE | OTHER.

Definition HdrType_eqb (a b : HdrType) : bool :=
  match a, b with
  | AGE, AGE | CACHE_STATUS, CACHE_STATUS | CONNECTION, CONNECTION
  | CONTENT_LENGTH, CONTENT_LENGTH | DATE, DATE | EXPIRES, EXPIRES
  | IF_MATCH, IF_MATCH | IF_MODIFIED_SINCE, IF_MODIFIED_SINCE
  | IF_NONE_MATCH, IF_NONE_MATCH | KEEP_ALIVE, KEEP_ALIVE
  | MAX_FORWARDS, MAX_FORWARDS | PROXY_AUTHENTICATE, PROXY_AUTHENTICATE
  | PROXY_AUTHORIZATION, PROXY_AUTHORIZATION | PROXY_CONNECTION, PROXY_CONNECTION
  | PROXY_SUPPORT, PROXY_SUPPORT | SET_COOKIE, SET_COOKIE
  | SURROGATE_CAPABILITY, SURROGATE_CAPABILITY | SURROGATE_CONTROL, SURROGATE_CONTROL
  | TE, TE | TRAILER, TRAILER | TRANSFER_ENCODING, TRANSFER_ENCODING
  | UPGRADE, UPGRADE | VIA, VIA | WWW_AUTHENTICATE, WWW_AUTHENTICATE
  | OTHER, OTHER => true
  | _, _ => false
  end.

(** A header value as it is handed to the header class, before it is
    written out: a string ([putStr], [putExt]), a time ([putTime]) or a
    number ([putInt]). *)
Inductive HdrValue : Type :=
| VStr (s : string)
| VTime (t : Z)
| VInt (n : Z).

(** [HttpHeaderEntry]: the id, the name (of use for [OTHER] entries only)
    and the value. *)
Record HttpHeaderEntry : Type := mkEntry {
  id : HdrType;
  name : string;
  value : HdrValue
}.

Definition HttpHeader : Type := list HttpHeaderEntry.

(** [LogTags_ot], the tags this file sets or tests. *)
Inductive LogTags_ot : Type :=
| LOG_TAG_NONE | LOG_TCP_HIT | LOG_TCP_MISS | LOG_TCP_REFRESH_UNMODIFIED
| LOG_TCP_REFRESH_FAIL_OLD | LOG_TCP_REFRESH_FAIL_ERR | LOG_TCP_REFRESH_MODIFIED
| LOG_TCP_REFRESH | LOG_TCP_CLIENT_REFRESH_MISS | LOG_TCP_IMS_HIT | LOG_TCP_INM_HIT
| LOG_TCP_SWAPFAIL_MISS | LOG_TCP_NEGATIVE_HIT | LOG_TCP_MEM_HIT | LOG_TCP_DENIED
| LOG_TCP_DENIED_REPLY | LOG_TCP_OFFLINE_HIT | LOG_TCP_REDIRECT.

Definition LogTags_eqb (a b : LogTags_ot) : bool :=
  match a, b with
  | LOG_TAG_NONE, LOG_TAG_NONE | LOG_TCP_HIT, LOG_TCP_HIT | LOG_TCP_MISS, LOG_TCP_MISS
  | LOG_TCP_REFRESH_UNMODIFIED, LOG_TCP_REFRESH_UNMODIFIED
  | LOG_TCP_REFRESH_FAIL_OLD, LOG_TCP_REFRESH_FAIL_OLD
  | LOG_TCP_REFRESH_FAIL_ERR, LOG_TCP_REFRESH_FAIL_ERR
  | LOG_TCP_REFRESH_MODIFIED, LOG_TCP_REFRESH_MODIFIED
  | LOG_TCP_REFRESH, LOG_TCP_REFRESH
  | LOG_TCP_CLIENT_REFRESH_MISS, LOG_TCP_CLIENT_REFRESH_MISS
  | LOG_TCP_IMS_HIT, LOG_TCP_IMS_HIT | LOG_TCP_INM_HIT, LOG_TCP_INM_HIT
  | LOG_TCP_SWAPFAIL_MISS, LOG_TCP_SWAPFAIL_MISS
  | LOG_TCP_NEGATIVE_HIT, LOG_TCP_NEGATIVE_HIT | LOG_TCP_MEM_HIT, LOG_TCP_MEM_HIT
  | LOG_TCP_DENIED, LOG_TCP_DENIED | LOG_TCP_DENIED_REPLY, LOG_TCP_DENIED_REPLY
  | LOG_TCP_OFFLINE_HIT, LOG_TCP_OFFLINE_HIT | LOG_TCP_REDIRECT, LOG_TCP_REDIRECT => true
  | _, _ => false
  end.

(** The role of the context in a collapsed revalidation. *)
Inductive crState : Type := crNone | crInitiator | crSlave.

Definition is_crSlave (r : crState) : bool :=
  match r with crSlave => true | _ => false end.
Definition is_crNone (r : crState) : bool :=
  match r with crNone => true | _ => false end.

Inductive clientStream_status_t : Type :=
| STREAM_NONE | STREAM_COMPLETE | STREAM_UNPLANNED_COMPLETE | STREAM_FAILED.

Inductive store_status_t : Type := STORE_OK | STORE_PENDING.
Inductive mem_status_t : Type := NOT_IN_MEMORY | IN_MEMORY.
Inductive KeyScope : Type := ksDefault | ksRevalidation.
Inductive vary_result : Type := VARY_NONE | VARY_MATCH | VARY_OTHER | VARY_CANCEL.
Inductive err_type : Type :=
| ERR_NONE | ERR_ACCESS_DENIED | ERR_ONLY_IF_CACHED_MISS | ERR_PRECONDITION_FAILED
| ERR_TOO_BIG | ERR_CONFIGURED (page : nat).
Inductive htcp_clr_reason : Type := HTCP_CLR_PURGE | HTCP_CLR_INVALIDATION.

(** Addresses of store entries and of store clients. *)
Definition EntryId : Type := nat.
Definition ScId : Type := nat.

(** Where the bytes of a [StoreIOBuffer] live. *)
Inductive BufRef : Type := buf_null | buf_tempbuf | buf_readBuffer.

Definition BufRef_eqb (a b : BufRef) : bool :=
  match a, b with
  | buf_null, buf_null | buf_tempbuf, buf_tempbuf | buf_readBuffer, buf_readBuffer => true
  | _, _ => false
  end.

Record StoreIOBuffer : Type := mkStoreIOBuffer {
  buf_error : bool;
  buf_length : Z;
  buf_offset : Z;
  buf_data : BufRef
}.

(** [StoreIOBuffer(length, offset, data)] and the default constructor. *)
Definition StoreIOBuffer_make (len off : Z) (d : BufRef) : StoreIOBuffer :=
  mkStoreIOBuffer false len off d.
Definition StoreIOBuffer_empty : StoreIOBuffer := mkStoreIOBuffer false 0 0 buf_null.

Definition HTTP_REQBUF_SZ : Z := 4096.

(** RequestFlags: the bits of [HttpRequest::flags] this engine reads or writes
    ([noCacheHack] stands for the result of the method of that name). *)
Record RequestFlags : Type := mkRequestFlags {
  noCache : bool;
  internal : bool;
  refresh : bool;
  needValidation : bool;
  chunkedReply : bool;
  accelerated : bool;
  intercepted : bool;
  loopDetected : bool;
  failOnValidationError : bool;
  flags_ims : bool;
  staleIfHit : bool;
  proxyKeepalive : bool;
  mustKeepalive : bool;
  connectionAuth : bool;
  connectionAuthDisabled : bool;
  sslBumped : bool;
  streamError : bool;
  cachable : bool;
  noCacheHack : bool
}.

Definition set_refresh (v : bool) (x : RequestFlags) : RequestFlags :=
  {| noCache := noCache x; internal := internal x; refresh := v;
     needValidation := needValidation x; chunkedReply := chunkedReply x;
     accelerated := accelerated x; intercepted := intercepted x;
     loopDetected := loopDetected x; failOnValidationError := failOnValidationError x;
     flags_ims := flags_ims x; staleIfHit := staleIfHit x;
     proxyKeepalive := proxyKeepalive x; mustKeepalive := mustKeepalive x;
     connectionAuth := connectionAuth x;
     connectionAuthDisabled := connectionAuthDisabled x; sslBumped := sslBumped x;
     streamError := streamError x; cachable := cachable x;
     noCacheHack := noCacheHack x |}.

Definition set_needValidation (v : bool) (x : RequestFlags) : RequestFlags :=
  {| noCache := noCache x; internal := internal x; refresh := refresh x;
     needValidation := v; chunkedReply := chunkedReply x; accelerated := accelerated x;
     intercepted := intercepted x; loopDetected := loopDetected x;
     failOnValidationError := failOnValidationError x; flags_ims := flags_ims x;
     staleIfHit := staleIfHit x; proxyKeepalive := proxyKeepalive x;
     mustKeepalive := mustKeepalive x; connectionAuth := connectionAuth x;
     connectionAuthDisabled := connectionAuthDisabled x; sslBumped := sslBumped x;
     streamError := streamError x; cachable := cachable x;
     noCacheHack := noCacheHack x |}.

Definition set_chunkedReply (v : bool) (x : RequestFlags) : RequestFlags :=
  {| noCache := noCache x; internal := internal x; refresh := refresh x;
     needValidation := needValidation x; chunkedReply := v; accelerated := accelerated x;
     intercepted := intercepted x; loopDetected := loopDetected x;
     failOnValidationError := failOnValidationError x; flags_ims := flags_ims x;
     staleIfHit := staleIfHit x; proxyKeepalive := proxyKeepalive x;
     mustKeepalive := mustKeepalive x; connectionAuth := connectionAuth x;
     connectionAuthDisabled := connectionAuthDisabled x; sslBumped := sslBumped x;
     streamError := streamError x; cachable := cachable x;
     noCacheHack := noCacheHack x |}.

Definition set_flags_ims (v : bool) (x : RequestFlags) : RequestFlags :=
  {| noCache := noCache x; internal := internal x; refresh := refresh x;
     needValidation := needValidation x; chunkedReply := chunkedReply x;
     accelerated := accelerated x; intercepted := intercepted x;
     loopDetected := loopDetected x; failOnValidationError := failOnValidationError x;
     flags_ims := v; staleIfHit := staleIfHit x; proxyKeepalive := proxyKeepalive x;
     mustKeepalive := mustKeepalive x; connectionAuth := connectionAuth x;
     connectionAuthDisabled := connectionAuthDisabled x; sslBumped := sslBumped x;
     streamError := streamError x; cachable := cachable x;
     noCacheHack := noCacheHack x |}.

Definition set_staleIfHit (v : bool) (x : RequestFlags) : RequestFlags :=
  {| noCache := noCache x; internal := internal x; refresh := refresh x;
     needValidation := needValidation x; chunkedReply := chunkedReply x;
     accelerated := accelerated x; intercepted := intercepted x;
     loopDetected := loopDetected x; failOnValidationError := failOnValidationError x;
     flags_ims := flags_ims x; staleIfHit := v; proxyKeepalive := proxyKeepalive x;
     mustKeepalive := mustKeepalive x; connectionAuth := connectionAuth x;
     connectionAuthDisabled := connectionAuthDisabled x; sslBumped := sslBumped x;
     streamError := streamError x; cachable := cachable x;
     noCacheHack := noCacheHack x |}.

Definition set_proxyKeepalive (v : bool) (x : RequestFlags) : RequestFlags :=
  {| noCache := noCache x; internal := internal x; refresh := refresh x;
     needValidation := needValidation x; chunkedReply := chunkedReply x;
     accelerated := accelerated x; intercepted := intercepted x;
     loopDetected := loopDetected x; failOnValidationError := failOnValidationError x;
     flags_ims := flags_ims x; staleIfHit := staleIfHit x; proxyKeepalive := v;
     mustKeepalive := mustKeepalive x; connectionAuth := connectionAuth x;
     connectionAuthDisabled := connectionAuthDisabled x; sslBumped := sslBumped x;
     streamError := streamError x; cachable := cachable x;
     noCacheHack := noCacheHack x |}.

Definition set_mustKeepalive (v : bool) (x : RequestFlags) : RequestFlags :=
  {| noCache := noCache x; internal := internal x; refresh := refresh x;
     needValidation := needValidation x; chunkedReply := chunkedReply x;
     accelerated := accelerated x; intercepted := intercepted x;
     loopDetected := loopDetected x; failOnValidationError := failOnValidationError x;
     flags_ims := flags_ims x; staleIfHit := staleIfHit x;
     proxyKeepalive := proxyKeepalive x; mustKeepalive := v;
     connectionAuth := connectionAuth x;
     connectionAuthDisabled := connectionAuthDisabled x; sslBumped := sslBumped x;
     streamError := streamError x; cachable := cachable x;
     noCacheHack := noCacheHack x |}.

Definition set_streamError (v : bool) (x : RequestFlags) : RequestFlags :=
  {| noCache := noCache x; internal := internal x; refresh := refresh x;
     needValidation := needValidation x; chunkedReply := chunkedReply x;
     accelerated := accelerated x; intercepted := intercepted x;
     loopDetected := loopDetected x; failOnValidationError := failOnValidationError x;
     flags_ims := flags_ims x; staleIfHit := staleIfHit x;
     proxyKeepalive := proxyKeepalive x; mustKeepalive := mustKeepalive x;
     connectionAuth := connectionAuth x;
     connectionAuthDisabled := connectionAuthDisabled x; sslBumped := sslBumped x;
     streamError := v; cachable := cachable x; noCacheHack := noCacheHack x |}.

(** HttpReply: status line, header list and the parsed fields used here. *)
Record HttpReply : Type := mkHttpReply {
  sline_status : StatusCode;
  sline_protocol : ProtocolType;
  sline_version : ProtocolVersion;
  header : HttpHeader;
  hdr_sz : Z;
  content_length : Z;
  keep_alive : bool;
  date : Z
}.

Definition set_sline_version (v : ProtocolVersion) (x : HttpReply) : HttpReply :=
  {| sline_status := sline_status x; sline_protocol := sline_protocol x;
     sline_version := v; header := header x; hdr_sz := hdr_sz x;
     content_length := content_length x; keep_alive := keep_alive x; date := date x |}.

Definition set_header (v : HttpHeader) (x : HttpReply) : HttpReply :=
  {| sline_status := sline_status x; sline_protocol := sline_protocol x;
     sline_version := sline_version x; header := v; hdr_sz := hdr_sz x;
     content_length := content_length x; keep_alive := keep_alive x; date := date x |}.

(** HttpRequest.  [range] is the number of range specs when a Range is
    present; [pinnedConnection] and [auth_user_request] say whether the
    pointer of that name is set. *)
Record HttpRequest : Type := mkHttpRequest {
  method : MethodType;
  flags : RequestFlags;
  lastmod : Z;
  etag : string;
  ims : Z;
  imslen : Z;
  req_header : HttpHeader;
  vary_headers : string;
  http_ver : ProtocolVersion;
  peer_login : option string;
  range : option nat;
  pinnedConnection : bool;
  auth_user_request : bool;
  url_scheme : ProtocolType;
  req_storeId : string;
  clientConnectionManager : option nat
}.

Definition set_flags (v : RequestFlags) (x : HttpRequest) : HttpRequest :=
  {| method := method x; flags := v; lastmod := lastmod x; etag := etag x; ims := ims x;
     imslen := imslen x; req_header := req_header x; vary_headers := vary_headers x;
     http_ver := http_ver x; peer_login := peer_login x; range := range x;
     pinnedConnection := pinnedConnection x; auth_user_request := auth_user_request x;
     url_scheme := url_scheme x; req_storeId := req_storeId x;
     clientConnectionManager := clientConnectionManager x |}.

Definition set_lastmod (v : Z) (x : HttpRequest) : HttpRequest :=
  {| method := method x; flags := flags x; lastmod := v; etag := etag x; ims := ims x;
     imslen := imslen x; req_header := req_header x; vary_headers := vary_headers x;
     http_ver := http_ver x; peer_login := peer_login x; range := range x;
     pinnedConnection := pinnedConnection x; auth_user_request := auth_user_request x;
     url_scheme := url_scheme x; req_storeId := req_storeId x;
     clientConnectionManager := clientConnectionManager x |}.

Definition set_etag (v : string) (x : HttpRequest) : HttpRequest :=
  {| method := method x; flags := flags x; lastmod := lastmod x; etag := v; ims := ims x;
     imslen := imslen x; req_header := req_header x; vary_headers := vary_headers x;
     http_ver := http_ver x; peer_login := peer_login x; range := range x;
     pinnedConnection := pinnedConnection x; auth_user_request := auth_user_request x;
     url_scheme := url_scheme x; req_storeId := req_storeId x;
     clientConnectionManager := clientConnectionManager x |}.

Definition set_ims (v : Z) (x : HttpRequest) : HttpRequest :=
  {| method := method x; flags := flags x; lastmod := lastmod x; etag := etag x; ims := v;
     imslen := imslen x; req_header := req_header x; vary_headers := vary_headers x;
     http_ver := http_ver x; peer_login := peer_login x; range := range x;
     pinnedConnection := pinnedConnection x; auth_user_request := auth_user_request x;
     url_scheme := url_scheme x; req_storeId := req_storeId x;
     clientConnectionManager := clientConnectionManager x |}.

Definition set_imslen (v : Z) (x : HttpRequest) : HttpRequest :=
  {| method := method x; flags := flags x; lastmod := lastmod x; etag := etag x;
     ims := ims x; imslen := v; req_header := req_header x; vary_headers := vary_headers x;
     http_ver := http_ver x; peer_login := peer_login x; range := range x;
     pinnedConnection := pinnedConnection x; auth_user_request := auth_user_request x;
     url_scheme := url_scheme x; req_storeId := req_storeId x;
     clientConnectionManager := clientConnectionManager x |}.

Definition set_req_header (v : HttpHeader) (x : HttpRequest) : HttpRequest :=
  {| method := method x; flags := flags x; lastmod := lastmod x; etag := etag x;
     ims := ims x; imslen := imslen x; req_header := v; vary_headers := vary_headers x;
     http_ver := http_ver x; peer_login := peer_login x; range := range x;
     pinnedConnection := pinnedConnection x; auth_user_request := auth_user_request x;
     url_scheme := url_scheme x; req_storeId := req_storeId x;
     clientConnectionManager := clientConnectionManager x |}.

Definition set_vary_headers (v : string) (x : HttpRequest) : HttpRequest :=
  {| method := method x; flags := flags x; lastmod := lastmod x; etag := etag x;
     ims := ims x; imslen := imslen x; req_header := req_header x; vary_headers := v;
     http_ver := http_ver x; peer_login := peer_login x; range := range x;
     pinnedConnection := pinnedConnection x; auth_user_request := auth_user_request x;
     url_scheme := url_scheme x; req_storeId := req_storeId x;
     clientConnectionManager := clientConnectionManager x |}.

Definition set_range (v : option nat) (x : HttpRequest) : HttpRequest :=
  {| method := method x; flags := flags x; lastmod := lastmod x; etag := etag x;
     ims := ims x; imslen := imslen x; req_header := req_header x;
     vary_headers := vary_headers x; http_ver := http_ver x; peer_login := peer_login x;
     range := v; pinnedConnection := pinnedConnection x;
     auth_user_request := auth_user_request x; url_scheme := url_scheme x;
     req_storeId := req_storeId x;
     clientConnectionManager := clientConnectionManager x |}.

(** ConnStateData, as far as the reply engine looks at it. *)
Record ConnStateData : Type := mkConnStateData {
  conn_addr : nat;
  isOpen : bool;
  pinning_zeroReply : bool;
  port_actAsOrigin : bool;
  port_listenConn_open : bool
}.

(** ClientHttpRequest ([http] in the source).  [logType] is
    [al->cache.code.oldType], [err_ignored] is [al->cache.code.err.ignored];
    [al_reply] says that [al->reply] points at the context's reply. *)
Record ClientHttpRequest : Type := mkClientHttpRequest {
  storeEntry : option EntryId;
  request : HttpRequest;
  http_internal : bool;
  done_copying : bool;
  http_accel : bool;
  out_offset : Z;
  out_size : Z;
  out_headers_sz : Z;
  redirect_status : StatusCode;
  logType : LogTags_ot;
  err_ignored : bool;
  al_http_code : StatusCode;
  al_reply : bool;
  getConn : option ConnStateData;
  onlyIfCached : bool;
  requestSatisfactionMode : bool
}.

Definition set_storeEntry (v : option EntryId) (x : ClientHttpRequest) : ClientHttpRequest :=
  {| storeEntry := v; request := request x; http_internal := http_internal x;
     done_copying := done_copying x; http_accel := http_accel x;
     out_offset := out_offset x; out_size := out_size x;
     out_headers_sz := out_headers_sz x; redirect_status := redirect_status x;
     logType := logType x; err_ignored := err_ignored x; al_http_code := al_http_code x;
     al_reply := al_reply x; getConn := getConn x; onlyIfCached := onlyIfCached x;
     requestSatisfactionMode := requestSatisfactionMode x |}.

Definition set_request (v : HttpRequest) (x : ClientHttpRequest) : ClientHttpRequest :=
  {| storeEntry := storeEntry x; request := v; http_internal := http_internal x;
     done_copying := done_copying x; http_accel := http_accel x;
     out_offset := out_offset x; out_size := out_size x;
     out_headers_sz := out_headers_sz x; redirect_status := redirect_status x;
     logType := logType x; err_ignored := err_ignored x; al_http_code := al_http_code x;
     al_reply := al_reply x; getConn := getConn x; onlyIfCached := onlyIfCached x;
     requestSatisfactionMode := requestSatisfactionMode x |}.

Definition set_done_copying (v : bool) (x : ClientHttpRequest) : ClientHttpRequest :=
  {| storeEntry := storeEntry x; request := request x; http_internal := http_internal x;
     done_copying := v; http_accel := http_accel x; out_offset := out_offset x;
     out_size := out_size x; out_headers_sz := out_headers_sz x;
     redirect_status := redirect_status x; logType := logType x;
     err_ignored := err_ignored x; al_http_code := al_http_code x; al_reply := al_reply x;
     getConn := getConn x; onlyIfCached := onlyIfCached x;
     requestSatisfactionMode := requestSatisfactionMode x |}.

Definition set_logType (v : LogTags_ot) (x : ClientHttpRequest) : ClientHttpRequest :=
  {| storeEntry := storeEntry x; request := request x; http_internal := http_internal x;
     done_copying := done_copying x; http_accel := http_accel x;
     out_offset := out_offset x; out_size := out_size x;
     out_headers_sz := out_headers_sz x; redirect_status := redirect_status x;
     logType := v; err_ignored := err_ignored x; al_http_code := al_http_code x;
     al_reply := al_reply x; getConn := getConn x; onlyIfCached := onlyIfCached x;
     requestSatisfactionMode := requestSatisfactionMode x |}.

Definition set_err_ignored (v : bool) (x : ClientHttpRequest) : ClientHttpRequest :=
  {| storeEntry := storeEntry x; request := request x; http_internal := http_internal x;
     done_copying := done_copying x; http_accel := http_accel x;
     out_offset := out_offset x; out_size := out_size x;
     out_headers_sz := out_headers_sz x; redirect_status := redirect_status x;
     logType := logType x; err_ignored := v; al_http_code := al_http_code x;
     al_reply := al_reply x; getConn := getConn x; onlyIfCached := onlyIfCached x;
     requestSatisfactionMode := requestSatisfactionMode x |}.

Definition set_al_http_code (v : StatusCode) (x : ClientHttpRequest) : ClientHttpRequest :=
  {| storeEntry := storeEntry x; request := request x; http_internal := http_internal x;
     done_copying := done_copying x; http_accel := http_accel x;
     out_offset := out_offset x; out_size := out_size x;
     out_headers_sz := out_headers_sz x; redirect_status := redirect_status x;
     logType := logType x; err_ignored := err_ignored x; al_http_code := v;
     al_reply := al_reply x; getConn := getConn x; onlyIfCached := onlyIfCached x;
     requestSatisfactionMode := requestSatisfactionMode x |}.

Definition set_al_reply (v : bool) (x : ClientHttpRequest) : ClientHttpRequest :=
  {| storeEntry := storeEntry x; request := request x; http_internal := http_internal x;
     done_copying := done_copying x; http_accel := http_accel x;
     out_offset := out_offset x; out_size := out_size x;
     out_headers_sz := out_headers_sz x; redirect_status := redirect_status x;
     logType := logType x; err_ignored := err_ignored x; al_http_code := al_http_code x;
     al_reply := v; getConn := getConn x; onlyIfCached := onlyIfCached x;
     requestSatisfactionMode := requestSatisfactionMode x |}.

(** [ErrorState], as built by [clientBuildError]. *)
Record ErrorState : Type := mkErrorState {
  page_id : err_type;
  httpStatus : StatusCode
}.

(** The handlers a store copy can be asked to call back. *)
Inductive StoreCallback : Type := cb_SendMoreData | cb_HandleIMSReply | cb_CacheHit.

(** The calls the engine makes on its collaborators, each named after the
    function called. *)
Inductive Event : Type :=
| EvStoreGetPublicByRequest (ks : KeyScope)
| EvStoreGetPublicByRequestMethod (m : MethodType)
| EvStoreGetPublic (m : MethodType)
| EvStoreCreateEntry (e : EntryId) (f : RequestFlags) (m : MethodType)
| EvAllowCollapsing (e : EntryId)
| EvLock (e : EntryId)
| EvUnlock (e : EntryId)
| EvEnsureMemObject (e : EntryId)
| EvStoreClientListAdd (e : EntryId) (s : ScId)
| EvSetDelayId (s : ScId)
| EvStoreUnregister (s : option ScId) (e : EntryId)
| EvStoreClientCopy (s : option ScId) (e : option EntryId) (b : StoreIOBuffer)
    (cb : StoreCallback)
| EvFwdStart (e : EntryId)
| EvUpdateOnNotModified (old new : EntryId)
| EvClearPublicKeyScope (e : EntryId)
| EvAbandon (e : EntryId)
| EvRelease (e : EntryId)
| EvReleaseRequest (e : EntryId)
| EvReplaceHttpReply (e : EntryId) (st : StatusCode)
| EvReplaceHttpReply304 (e : EntryId) (of_entry : EntryId)
| EvComplete (e : EntryId)
| EvTimestampsSet (e : EntryId)
| EvSetTimestamp (e : EntryId) (t : Z)
| EvErrorAppendEntry (e : EntryId) (err : ErrorState)
| EvDump (e : EntryId)
| EvEvictIfFound (m : MethodType)
| EvHtcpClear (e : option EntryId) (m : MethodType) (why : htcp_clr_reason)
| EvIpcacheInvalidate
| EvIpcacheInvalidateNegative
| EvQosLocalHit
| EvQosLocalMiss
| EvMemcpy (len : Z)
| EvMakeThisHead
| EvLoggingEntry (e : option EntryId)
| EvNonBlockingCheck
| EvClientStreamCallback (rep : option HttpReply) (b : StoreIOBuffer)
| EvBugNoDate.

(** clientReplyContext: the per-transaction state of the engine. *)
Record clientReplyContext : Type := mkClientReplyContext {
  purgeStatus : StatusCode;
  headers_sz : Z;
  sc : option ScId;
  reqsize : Z;
  reqofs : Z;
  ourNode : bool;
  reply : option HttpReply;
  old_entry : option EntryId;
  old_sc : option ScId;
  old_lastmod : Z;
  old_etag : string;
  old_reqofs : Z;
  old_reqsize : Z;
  deleting : bool;
  collapsedRevalidation : crState;
  flags_storelogiccomplete : bool;
  flags_complete : bool;
  flags_headersSent : bool;
  firstStoreLookup_ : option string
}.

Definition set_purgeStatus (v : StatusCode) (x : clientReplyContext) : clientReplyContext :=
  {| purgeStatus := v; headers_sz := headers_sz x; sc := sc x; reqsize := reqsize x;
     reqofs := reqofs x; ourNode := ourNode x; reply := reply x; old_entry := old_entry x;
     old_sc := old_sc x; old_lastmod := old_lastmod x; old_etag := old_etag x;
     old_reqofs := old_reqofs x; old_reqsize := old_reqsize x; deleting := deleting x;
     collapsedRevalidation := collapsedRevalidation x;
     flags_storelogiccomplete := flags_storelogiccomplete x;
     flags_complete := flags_complete x; flags_headersSent := flags_headersSent x;
     firstStoreLookup_ := firstStoreLookup_ x |}.

Definition set_headers_sz (v : Z) (x : clientReplyContext) : clientReplyContext :=
  {| purgeStatus := purgeStatus x; headers_sz := v; sc := sc x; reqsize := reqsize x;
     reqofs := reqofs x; ourNode := ourNode x; reply := reply x; old_entry := old_entry x;
     old_sc := old_sc x; old_lastmod := old_lastmod x; old_etag := old_etag x;
     old_reqofs := old_reqofs x; old_reqsize := old_reqsize x; deleting := deleting x;
     collapsedRevalidation := collapsedRevalidation x;
     flags_storelogiccomplete := flags_storelogiccomplete x;
     flags_complete := flags_complete x; flags_headersSent := flags_headersSent x;
     firstStoreLookup_ := firstStoreLookup_ x |}.

Definition set_sc (v : option ScId) (x : clientReplyContext) : clientReplyContext :=
  {| purgeStatus := purgeStatus x; headers_sz := headers_sz x; sc := v;
     reqsize := reqsize x; reqofs := reqofs x; ourNode := ourNode x; reply := reply x;
     old_entry := old_entry x; old_sc := old_sc x; old_lastmod := old_lastmod x;
     old_etag := old_etag x; old_reqofs := old_reqofs x; old_reqsize := old_reqsize x;
     deleting := deleting x; collapsedRevalidation := collapsedRevalidation x;
     flags_storelogiccomplete := flags_storelogiccomplete x;
     flags_complete := flags_complete x; flags_headersSent := flags_headersSent x;
     firstStoreLookup_ := firstStoreLookup_ x |}.

Definition set_reqsize (v : Z) (x : clientReplyContext) : clientReplyContext :=
  {| purgeStatus := purgeStatus x; headers_sz := headers_sz x; sc := sc x; reqsize := v;
     reqofs := reqofs x; ourNode := ourNode x; reply := reply x; old_entry := old_entry x;
     old_sc := old_sc x; old_lastmod := old_lastmod x; old_etag := old_etag x;
     old_reqofs := old_reqofs x; old_reqsize := old_reqsize x; deleting := deleting x;
     collapsedRevalidation := collapsedRevalidation x;
     flags_storelogiccomplete := flags_storelogiccomplete x;
     flags_complete := flags_complete x; flags_headersSent := flags_headersSent x;
     firstStoreLookup_ := firstStoreLookup_ x |}.

Definition set_reqofs (v : Z) (x : clientReplyContext) : clientReplyContext :=
  {| purgeStatus := purgeStatus x; headers_sz := headers_sz x; sc := sc x;
     reqsize := reqsize x; reqofs := v; ourNode := ourNode x; reply := reply x;
     old_entry := old_entry x; old_sc := old_sc x; old_lastmod := old_lastmod x;
     old_etag := old_etag x; old_reqofs := old_reqofs x; old_reqsize := old_reqsize x;
     deleting := deleting x; collapsedRevalidation := collapsedRevalidation x;
     flags_storelogiccomplete := flags_storelogiccomplete x;
     flags_complete := flags_complete x; flags_headersSent := flags_headersSent x;
     firstStoreLookup_ := firstStoreLookup_ x |}.

Definition set_ourNode (v : bool) (x : clientReplyContext) : clientReplyContext :=
  {| purgeStatus := purgeStatus x; headers_sz := headers_sz x; sc := sc x;
     reqsize := reqsize x; reqofs := reqofs x; ourNode := v; reply := reply x;
     old_entry := old_entry x; old_sc := old_sc x; old_lastmod := old_lastmod x;
     old_etag := old_etag x; old_reqofs := old_reqofs x; old_reqsize := old_reqsize x;
     deleting := deleting x; collapsedRevalidation := collapsedRevalidation x;
     flags_storelogiccomplete := flags_storelogiccomplete x;
     flags_complete := flags_complete x; flags_headersSent := flags_headersSent x;
     firstStoreLookup_ := firstStoreLookup_ x |}.

Definition set_reply (v : option HttpReply) (x : clientReplyContext) : clientReplyContext :=
  {| purgeStatus := purgeStatus x; headers_sz := headers_sz x; sc := sc x;
     reqsize := reqsize x; reqofs := reqofs x; ourNode := ourNode x; reply := v;
     old_entry := old_entry x; old_sc := old_sc x; old_lastmod := old_lastmod x;
     old_etag := old_etag x; old_reqofs := old_reqofs x; old_reqsize := old_reqsize x;
     deleting := deleting x; collapsedRevalidation := collapsedRevalidation x;
     flags_storelogiccomplete := flags_storelogiccomplete x;
     flags_complete := flags_complete x; flags_headersSent := flags_headersSent x;
     firstStoreLookup_ := firstStoreLookup_ x |}.

Definition set_old_entry (v : option EntryId) (x : clientReplyContext) : clientReplyContext :=
  {| purgeStatus := purgeStatus x; headers_sz := headers_sz x; sc := sc x;
     reqsize := reqsize x; reqofs := reqofs x; ourNode := ourNode x; reply := reply x;
     old_entry := v; old_sc := old_sc x; old_lastmod := old_lastmod x;
     old_etag := old_etag x; old_reqofs := old_reqofs x; old_reqsize := old_reqsize x;
     deleting := deleting x; collapsedRevalidation := collapsedRevalidation x;
     flags_storelogiccomplete := flags_storelogiccomplete x;
     flags_complete := flags_complete x; flags_headersSent := flags_headersSent x;
     firstStoreLookup_ := firstStoreLookup_ x |}.

Definition set_old_sc (v : option ScId) (x : clientReplyContext) : clientReplyContext :=
  {| purgeStatus := purgeStatus x; headers_sz := headers_sz x; sc := sc x;
     reqsize := reqsize x; reqofs := reqofs x; ourNode := ourNode x; reply := reply x;
     old_entry := old_entry x; old_sc := v; old_lastmod := old_lastmod x;
     old_etag := old_etag x; old_reqofs := old_reqofs x; old_reqsize := old_reqsize x;
     deleting := deleting x; collapsedRevalidation := collapsedRevalidation x;
     flags_storelogiccomplete := flags_storelogiccomplete x;
     flags_complete := flags_complete x; flags_headersSent := flags_headersSent x;
     firstStoreLookup_ := firstStoreLookup_ x |}.

Definition set_old_lastmod (v : Z) (x : clientReplyContext) : clientReplyContext :=
  {| purgeStatus := purgeStatus x; headers_sz := headers_sz x; sc := sc x;
     reqsize := reqsize x; reqofs := reqofs x; ourNode := ourNode x; reply := reply x;
     old_entry := old_entry x; old_sc := old_sc x; old_lastmod := v;
     old_etag := old_etag x; old_reqofs := old_reqofs x; old_reqsize := old_reqsize x;
     deleting := deleting x; collapsedRevalidation := collapsedRevalidation x;
     flags_storelogiccomplete := flags_storelogiccomplete x;
     flags_complete := flags_complete x; flags_headersSent := flags_headersSent x;
     firstStoreLookup_ := firstStoreLookup_ x |}.

Definition set_old_etag (v : string) (x : clientReplyContext) : clientReplyContext :=
  {| purgeStatus := purgeStatus x; headers_sz := headers_sz x; sc := sc x;
     reqsize := reqsize x; reqofs := reqofs x; ourNode := ourNode x; reply := reply x;
     old_entry := old_entry x; old_sc := old_sc x; old_lastmod := old_lastmod x;
     old_etag := v; old_reqofs := old_reqofs x; old_reqsize := old_reqsize x;
     deleting := deleting x; collapsedRevalidation := collapsedRevalidation x;
     flags_storelogiccomplete := flags_storelogiccomplete x;
     flags_complete := flags_complete x; flags_headersSent := flags_headersSent x;
     firstStoreLookup_ := firstStoreLookup_ x |}.

Definition set_old_reqofs (v : Z) (x : clientReplyContext) : clientReplyContext :=
  {| purgeStatus := purgeStatus x; headers_sz := headers_sz x; sc := sc x;
     reqsize := reqsize x; reqofs := reqofs x; ourNode := ourNode x; reply := reply x;
     old_entry := old_entry x; old_sc := old_sc x; old_lastmod := old_lastmod x;
     old_etag := old_etag x; old_reqofs := v; old_reqsize := old_reqsize x;
     deleting := deleting x; collapsedRevalidation := collapsedRevalidation x;
     flags_storelogiccomplete := flags_storelogiccomplete x;
     flags_complete := flags_complete x; flags_headersSent := flags_headersSent x;
     firstStoreLookup_ := firstStoreLookup_ x |}.

Definition set_old_reqsize (v : Z) (x : clientReplyContext) : clientReplyContext :=
  {| purgeStatus := purgeStatus x; headers_sz := headers_sz x; sc := sc x;
     reqsize := reqsize x; reqofs := reqofs x; ourNode := ourNode x; reply := reply x;
     old_entry := old_entry x; old_sc := old_sc x; old_lastmod := old_lastmod x;
     old_etag := old_etag x; old_reqofs := old_reqofs x; old_reqsize := v;
     deleting := deleting x; collapsedRevalidation := collapsedRevalidation x;
     flags_storelogiccomplete := flags_storelogiccomplete x;
     flags_complete := flags_complete x; flags_headersSent := flags_headersSent x;
     firstStoreLookup_ := firstStoreLookup_ x |}.

Definition set_deleting (v : bool) (x : clientReplyContext) : clientReplyContext :=
  {| purgeStatus := purgeStatus x; headers_sz := headers_sz x; sc := sc x;
     reqsize := reqsize x; reqofs := reqofs x; ourNode := ourNode x; reply := reply x;
     old_entry := old_entry x; old_sc := old_sc x; old_lastmod := old_lastmod x;
     old_etag := old_etag x; old_reqofs := old_reqofs x; old_reqsize := old_reqsize x;
     deleting := v; collapsedRevalidation := collapsedRevalidation x;
     flags_storelogiccomplete := flags_storelogiccomplete x;
     flags_complete := flags_complete x; flags_headersSent := flags_headersSent x;
     firstStoreLookup_ := firstStoreLookup_ x |}.

Definition set_collapsedRevalidation (v : crState) (x : clientReplyContext) : clientReplyContext :=
  {| purgeStatus := purgeStatus x; headers_sz := headers_sz x; sc := sc x;
     reqsize := reqsize x; reqofs := reqofs x; ourNode := ourNode x; reply := reply x;
     old_entry := old_entry x; old_sc := old_sc x; old_lastmod := old_lastmod x;
     old_etag := old_etag x; old_reqofs := old_reqofs x; old_reqsize := old_reqsize x;
     deleting := deleting x; collapsedRevalidation := v;
     flags_storelogiccomplete := flags_storelogiccomplete x;
     flags_complete := flags_complete x; flags_headersSent := flags_headersSent x;
     firstStoreLookup_ := firstStoreLookup_ x |}.

Definition set_flags_storelogiccomplete (v : bool) (x : clientReplyContext) : clientReplyContext :=
  {| purgeStatus := purgeStatus x; headers_sz := headers_sz x; sc := sc x;
     reqsize := reqsize x; reqofs := reqofs x; ourNode := ourNode x; reply := reply x;
     old_entry := old_entry x; old_sc := old_sc x; old_lastmod := old_lastmod x;
     old_etag := old_etag x; old_reqofs := old_reqofs x; old_reqsize := old_reqsize x;
     deleting := deleting x; collapsedRevalidation := collapsedRevalidation x;
     flags_storelogiccomplete := v; flags_complete := flags_complete x;
     flags_headersSent := flags_headersSent x;
     firstStoreLookup_ := firstStoreLookup_ x |}.

Definition set_flags_complete (v : bool) (x : clientReplyContext) : clientReplyContext :=
  {| purgeStatus := purgeStatus x; headers_sz := headers_sz x; sc := sc x;
     reqsize := reqsize x; reqofs := reqofs x; ourNode := ourNode x; reply := reply x;
     old_entry := old_entry x; old_sc := old_sc x; old_lastmod := old_lastmod x;
     old_etag := old_etag x; old_reqofs := old_reqofs x; old_reqsize := old_reqsize x;
     deleting := deleting x; collapsedRevalidation := collapsedRevalidation x;
     flags_storelogiccomplete := flags_storelogiccomplete x; flags_complete := v;
     flags_headersSent := flags_headersSent x;
     firstStoreLookup_ := firstStoreLookup_ x |}.

Definition set_flags_headersSent (v : bool) (x : clientReplyContext) : clientReplyContext :=
  {| purgeStatus := purgeStatus x; headers_sz := headers_sz x; sc := sc x;
     reqsize := reqsize x; reqofs := reqofs x; ourNode := ourNode x; reply := reply x;
     old_entry := old_entry x; old_sc := old_sc x; old_lastmod := old_lastmod x;
     old_etag := old_etag x; old_reqofs := old_reqofs x; old_reqsize := old_reqsize x;
     deleting := deleting x; collapsedRevalidation := collapsedRevalidation x;
     flags_storelogiccomplete := flags_storelogiccomplete x;
     flags_complete := flags_complete x; flags_headersSent := v;
     firstStoreLookup_ := firstStoreLookup_ x |}.

Definition set_firstStoreLookup_ (v : option string) (x : clientReplyContext) : clientReplyContext :=
  {| purgeStatus := purgeStatus x; headers_sz := headers_sz x; sc := sc x;
     reqsize := reqsize x; reqofs := reqofs x; ourNode := ourNode x; reply := reply x;
     old_entry := old_entry x; old_sc := old_sc x; old_lastmod := old_lastmod x;
     old_etag := old_etag x; old_reqofs := old_reqofs x; old_reqsize := old_reqsize x;
     deleting := deleting x; collapsedRevalidation := collapsedRevalidation x;
     flags_storelogiccomplete := flags_storelogiccomplete x;
     flags_complete := flags_complete x; flags_headersSent := flags_headersSent x;
     firstStoreLookup_ := v |}.

(** The state one callback runs in: the context, the request handle it
    points to, the next stream node's read buffer, the calls made so far on
    the collaborators and the next unused object address. *)
Record World : Type := mkWorld {
  me : clientReplyContext;
  http : ClientHttpRequest;
  readBuffer : StoreIOBuffer;
  trace : list Event;
  fresh : nat
}.

Definition set_me (v : clientReplyContext) (x : World) : World :=
  {| me := v; http := http x; readBuffer := readBuffer x; trace := trace x;
     fresh := fresh x |}.

Definition set_http (v : ClientHttpRequest) (x : World) : World :=
  {| me := me x; http := v; readBuffer := readBuffer x; trace := trace x;
     fresh := fresh x |}.

Definition set_readBuffer (v : StoreIOBuffer) (x : World) : World :=
  {| me := me x; http := http x; readBuffer := v; trace := trace x; fresh := fresh x |}.

Definition set_trace (v : list Event) (x : World) : World :=
  {| me := me x; http := http x; readBuffer := readBuffer x; trace := v;
     fresh := fresh x |}.

Definition set_fresh (v : nat) (x : World) : World :=
  {| me := me x; http := http x; readBuffer := readBuffer x; trace := trace x;
     fresh := v |}.

(** ** The store and the rest of the environment *)

(** Bit numbers of [StoreEntry::flags] (the enumeration in [enums.h]) and
    the test macro. *)
Definition ENTRY_SPECIAL : Z := 0.
Definition ENTRY_BAD_LENGTH : Z := 11.
Definition ENTRY_ABORTED : Z := 12.
Definition EBIT_TEST (flags bit : Z) : bool := Z.testbit flags bit.

(** What the engine can see of a [StoreEntry].  The last five fields stand
    for the results of the methods of those names. *)
Record StoreEntry : Type := mkStoreEntry {
  e_flags : Z;
  store_status : store_status_t;
  mem_status : mem_status_t;
  timestamp : Z;
  lastModified : Z;
  expires : Z;
  objectLen : Z;
  mem_obj : bool;
  mem_storeId : string;
  baseReply : HttpReply;
  freshestReply : HttpReply;
  validToSend : bool;
  mayStartHitting : bool;
  hittingRequiresCollapsing : bool;
  checkNegativeHit : bool;
  hasEtag : option (string * bool)
}.

(** Everything the engine reads but does not own: configuration, build
    options, globals, the store's answers and the helpers of other classes. *)
Record Env : Type := mkEnv {
  Config_onoff_offline : bool;
  Config_onoff_collapsed_forwarding : bool;
  Config_onoff_error_pconns : bool;
  Config_onoff_client_pconns : bool;
  Config2_onoff_enable_purge : bool;
  Config_accessList_reply : bool;
  Config_accessList_sendHit : bool;
  USE_HTCP : bool;
  USE_AUTH : bool;
  USE_DELAY_POOLS : bool;
  USE_ADAPTATION : bool;
  squid_curtime : Z;
  shutting_down : bool;
  fdUsageHigh : bool;
  SmpAware : bool;
  isHitTosActive : bool;
  isHitNfmarkActive : bool;
  entries : EntryId -> StoreEntry;
  storeGetPublicByRequest : HttpRequest -> KeyScope -> option EntryId;
  storeGetPublicByRequestMethod : HttpRequest -> MethodType -> option EntryId;
  storeGetPublic : HttpRequest -> MethodType -> option EntryId;
  allowCollapsing : EntryId -> bool;
  startCollapsingOn : EntryId -> bool -> bool;
  mayInitiateCollapsing : bool;
  hasIfMatchEtag : EntryId -> HttpRequest -> bool;
  hasIfNoneMatchEtag : EntryId -> HttpRequest -> bool;
  modifiedSince : EntryId -> Z -> Z -> bool;
  refreshCheckHTTP : EntryId -> HttpRequest -> bool;
  varyEvaluateMatch : EntryId -> HttpRequest -> vary_result * string;
  bodySize : HttpReply -> MethodType -> Z;
  persistent : HttpReply -> bool;
  olderThan : HttpReply -> HttpReply -> bool;
  expectedBodyTooLarge : HttpReply -> HttpRequest -> bool;
  receivedBodyTooLarge : HttpReply -> HttpRequest -> Z -> bool;
  ProhibitsContentLength : StatusCode -> bool;
  isTcpHit : LogTags_ot -> bool;
  cacheStatusSource : LogTags_ot -> option string;
  uniqueHostname : string;
  respMaybeCacheable : MethodType -> bool;
  storeLookupString : bool -> string;
  sendHit_allowed : ClientHttpRequest -> HttpReply -> bool;
  aclGetDenyInfoPage : err_type;
  AddReplyAuthHeader : HttpHeader -> HttpRequest -> bool -> bool -> HttpHeader;
  httpHdrMangleList : HttpHeader -> HttpRequest -> HttpHeader
}.

(** ** A state and failure monad

    A callback runs on a [World] and either finishes in a new one or stops
    the process (a failed [assert], a null dereference). *)
Definition M (A : Type) : Type := World -> option (A * World).

Definition ret {A : Type} (a : A) : M A := fun w => Some (a, w).

Definition bind {A B : Type} (m : M A) (k : A -> M B) : M B :=
  fun w => match m w with
           | Some (a, w') => k a w'
           | None => None
           end.

Definition crash {A : Type} : M A := fun _ => None.
Definition xassert (b : bool) : M unit := if b then ret tt else crash.
Definition get : M World := fun w => Some (w, w).
Definition modify (f : World -> World) : M unit := fun w => Some (tt, f w).
Definition when (b : bool) (m : M unit) : M unit := if b then m else ret tt.

Declare Scope engine_scope.
Delimit Scope engine_scope with engine.
Notation "x <- m ;; k" := (bind m (fun x => k))
  (at level 61, m at next level, right associativity) : engine_scope.
Notation "m ;; k" := (bind m (fun _ => k))
  (at level 61, right associativity) : engine_scope.
Local Open Scope engine_scope.
Bind Scope engine_scope with M.

Definition emit (e : Event) : M unit :=
  modify (fun w => set_trace (trace w ++ [e]) w).
Definition upd_me (f : clientReplyContext -> clientReplyContext) : M unit :=
  modify (fun w => set_me (f (me w)) w).
Definition upd_http (f : ClientHttpRequest -> ClientHttpRequest) : M unit :=
  modify (fun w => set_http (f (http w)) w).
Definition upd_request (f : HttpRequest -> HttpRequest) : M unit :=
  upd_http (fun h => set_request (f (request h)) h).
Definition upd_flags (f : RequestFlags -> RequestFlags) : M unit :=
  upd_request (fun r => set_flags (f (flags r)) r).

(** A new object address. *)
Definition alloc : M nat :=
  w <- get ;; modify (set_fresh (S (fresh w))) ;; ret (fresh w).

(** The entry must be there to be dereferenced. *)
Definition deref {A : Type} (p : option A) : M A :=
  match p with Some a => ret a | None => crash end.

Definition isSome {A : Type} (p : option A) : bool :=
  match p with Some _ => true | None => false end.

(** Modelled from the spec: [ClientHttpRequest::updateLoggingTags] is
    declared elsewhere; the engine "tags" the transaction with it, and the
    tag is what [loggingTags().oldType] reads back. *)
Definition updateLoggingTags (t : LogTags_ot) : M unit := upd_http (set_logType t).

(** ** The context: construction and store references *)

(** The constructor. *)
Definition clientReplyContext_new : clientReplyContext :=
  {| purgeStatus := scNone; headers_sz := 0; sc := None; reqsize := 0; reqofs := 0;
     ourNode := false; reply := None; old_entry := None; old_sc := None;
     old_lastmod := -1; old_etag := ""; old_reqofs := 0; old_reqsize := 0;
     deleting := false; collapsedRevalidation := crNone;
     flags_storelogiccomplete := false; flags_complete := false;
     flags_headersSent := false; firstStoreLookup_ := None |}.

Definition removeStoreReference (scp : option ScId) (ep : option EntryId)
  : M (option ScId * option EntryId) :=
  match ep with
  | Some e =>
      emit (EvStoreUnregister scp e) ;;
      emit (EvUnlock e) ;;
      ret (None, None)
  | None => ret (scp, ep)
  end.

Definition removeClientStoreReference : M unit :=
  w <- get ;;
  r <- removeStoreReference (sc (me w)) (storeEntry (http w)) ;;
  upd_me (set_sc (fst r)) ;;
  upd_http (set_storeEntry (snd r)).

Definition saveState : M unit :=
  w <- get ;;
  xassert (negb (isSome (old_sc (me w)))) ;;
  upd_me (set_old_entry (storeEntry (http w))) ;;
  upd_me (set_old_sc (sc (me w))) ;;
  upd_me (set_old_lastmod (lastmod (request (http w)))) ;;
  upd_me (set_old_etag (etag (request (http w)))) ;;
  upd_me (set_old_reqsize (reqsize (me w))) ;;
  upd_me (set_old_reqofs (reqofs (me w))) ;;
  (* Prevent accessing the now saved entries *)
  upd_http (set_storeEntry None) ;;
  upd_me (set_sc None) ;;
  upd_me (set_reqsize 0) ;;
  upd_me (set_reqofs 0).

Definition restoreState : M unit :=
  w <- get ;;
  xassert (isSome (old_sc (me w))) ;;
  removeClientStoreReference ;;
  upd_http (set_storeEntry (old_entry (me w))) ;;
  upd_me (set_sc (old_sc (me w))) ;;
  upd_me (set_reqsize (old_reqsize (me w))) ;;
  upd_me (set_reqofs (old_reqofs (me w))) ;;
  upd_request (set_lastmod (old_lastmod (me w))) ;;
  upd_request (set_etag (old_etag (me w))) ;;
  (* Prevent accessed the old saved entries *)
  upd_me (set_old_entry None) ;;
  upd_me (set_old_sc None) ;;
  upd_me (set_old_lastmod (-1)) ;;
  upd_me (set_old_etag "") ;;
  upd_me (set_old_reqsize 0) ;;
  upd_me (set_old_reqofs 0).

(** ** The header list

    The [HttpHeader] class is defined elsewhere; its operations are modelled
    on a list of entries kept in the order they were added. *)

Definition has (i : HdrType) (h : HttpHeader) : bool :=
  existsb (fun e => HdrType_eqb (id e) i) h.

Definition delById (i : HdrType) (h : HttpHeader) : HttpHeader :=
  filter (fun e => negb (HdrType_eqb (id e) i)) h.

Definition findEntry (i : HdrType) (h : HttpHeader) : option HttpHeaderEntry :=
  find (fun e => HdrType_eqb (id e) i) h.

Definition putStr (i : HdrType) (v : string) (h : HttpHeader) : HttpHeader :=
  h ++ [mkEntry i "" (VStr v)].

Definition putTime (i : HdrType) (t : Z) (h : HttpHeader) : HttpHeader :=
  h ++ [mkEntry i "" (VTime t)].

Definition putInt (i : HdrType) (n : Z) (h : HttpHeader) : HttpHeader :=
  h ++ [mkEntry i "" (VInt n)].

Definition putExt (n : string) (v : HdrValue) (h : HttpHeader) : HttpHeader :=
  h ++ [mkEntry OTHER n v].

(** [getInt64]: the number an entry holds, -1 when there is none. *)
Definition getInt64 (i : HdrType) (h : HttpHeader) : Z :=
  match findEntry i h with
  | Some e => match value e with VInt n => n | _ => -1 end
  | None => -1
  end.

(** Modelled from the spec: [HttpHeader::removeHopByHopEntries] is defined
    elsewhere; "Strip all hop-by-hop entries", a hop-by-hop header being one
    "scoped to a single transport hop and not forwarded by intermediaries". *)
Definition isHopByHop (i : HdrType) : bool :=
  match i with
  | CONNECTION | KEEP_ALIVE | PROXY_AUTHORIZATION | PROXY_CONNECTION
  | TE | TRAILER | TRANSFER_ENCODING | UPGRADE => true
  | _ => false
  end.

Definition removeHopByHopEntries (h : HttpHeader) : HttpHeader :=
  filter (fun e => negb (isHopByHop (id e))) h.

(** Modelled from the spec: [HttpHeader::addVia] is defined elsewhere;
    "Append Via". *)
Definition addVia (host : string) (h : HttpHeader) : HttpHeader :=
  putStr VIA host h.

(** *** The test for a connection-oriented authentication scheme

    [strncasecmp(value, scheme, n) == 0 && (value[n] == 0 || value[n] == ' ')]. *)
Definition tolower (c : ascii) : ascii :=
  let n := nat_of_ascii c in
  if (Nat.leb 65 n && Nat.leb n 90)%bool then ascii_of_nat (n + 32) else c.

Fixpoint strncasecmp_eq (scheme v : string) : bool :=
  match scheme with
  | EmptyString => true
  | String a scheme' =>
      match v with
      | EmptyString => false
      | String b v' => Ascii.eqb (tolower a) (tolower b) && strncasecmp_eq scheme' v'
      end
  end.

Definition schemeIs (scheme v : string) : bool :=
  strncasecmp_eq scheme v &&
  match String.get (String.length scheme) v with
  | None => true
  | Some c => Ascii.eqb c " "%char
  end.

Definition isConnectionAuthScheme (v : HdrValue) : bool :=
  match v with
  | VStr s => schemeIs "NTLM" s || schemeIs "Negotiate" s || schemeIs "Kerberos" s
  | _ => false
  end.

(** The loop over the entries in [buildReplyHeader]: an entry that offers a
    connection-oriented scheme is deleted when the client has such
    authentication disabled ([delAt], [continue]); otherwise the first one
    stops the loop ([break]) and the result says so. *)
Fixpoint scanWwwAuthenticate (disabled : bool) (h : HttpHeader) : HttpHeader * bool :=
  match h with
  | [] => ([], false)
  | e :: rest =>
      if HdrType_eqb (id e) WWW_AUTHENTICATE && isConnectionAuthScheme (value e) then
        if disabled then scanWwwAuthenticate disabled rest
        else (e :: rest, true)
      else
        let r := scanWwwAuthenticate disabled rest in
        (e :: fst r, snd r)
  end.

(** [HttpRequest::multipartRangeRequest] and [HttpRequest::conditional] are
    one-line accessors of the request class: more than one range spec; an
    If-Modified-Since time, an If-Match or an If-None-Match. *)
Definition multipartRangeRequest (r : HttpRequest) : bool :=
  match range r with
  | Some n => Nat.ltb 1 n
  | None => false
  end.

Definition conditional (r : HttpRequest) : bool :=
  flags_ims (flags r) || has IF_MATCH (req_header r) || has IF_NONE_MATCH (req_header r).

(** [RequestFlags()], all bits clear. *)
Definition RequestFlags_default : RequestFlags :=
  mkRequestFlags false false false false false false false false false false
                 false false false false false false false false false.

(** Modelled from the spec: [ClientHttpRequest::gotEnough] is defined
    elsewhere; the stream is cut short when "the client received less than
    the expected body size". *)
Definition gotEnough (h : ClientHttpRequest) (expectedBodySize : Z) : bool :=
  expectedBodySize <=? out_offset h.

Definition clientBuildError (page : err_type) (status : StatusCode) : ErrorState :=
  mkErrorState page status.

(** ** The engine *)

Section Engine.

Variable env : Env.

(** *** Calls on the store *)

Definition storeClientListAdd (e : EntryId) : M ScId :=
  s <- alloc ;;
  emit (EvStoreClientListAdd e s) ;;
  ret s.

Definition setDelayId (s : ScId) : M unit :=
  when (USE_DELAY_POOLS env) (emit (EvSetDelayId s)).

Definition storeCreateEntry (f : RequestFlags) (m : MethodType) : M EntryId :=
  e <- alloc ;;
  emit (EvStoreCreateEntry e f m) ;;
  ret e.

Definition storeClientCopy (s : option ScId) (e : option EntryId) (b : StoreIOBuffer)
    (cb : StoreCallback) : M unit :=
  emit (EvStoreClientCopy s e b cb).

Definition clientStreamCallback (rep : option HttpReply) (b : StoreIOBuffer) : M unit :=
  emit (EvClientStreamCallback rep b).

Definition errorAppendEntry (err : ErrorState) : M unit :=
  w <- get ;;
  e <- deref (storeEntry (http w)) ;;
  emit (EvErrorAppendEntry e err).

(** *** Private entries for replies the engine makes itself *)

Definition createStoreEntry (m : MethodType) (reqFlags : RequestFlags) : M unit :=
  e <- storeCreateEntry reqFlags m ;;
  (* Make entry collapsible ASAP, to increase collapsing chances for others *)
  when (cachable reqFlags && negb (needValidation reqFlags) &&
        (MethodType_eqb m METHOD_GET || MethodType_eqb m METHOD_HEAD) &&
        mayInitiateCollapsing env)
       (emit (EvAllowCollapsing e)) ;;
  s <- storeClientListAdd e ;;
  upd_me (set_sc (Some s)) ;;
  setDelayId s ;;
  upd_me (set_reqofs 0) ;;
  upd_me (set_reqsize 0) ;;
  (* So, we mark the store logic as complete *)
  upd_me (set_flags_storelogiccomplete true) ;;
  upd_http (set_storeEntry (Some e)).

Definition triggerInitialStoreRead : M unit :=
  w <- get ;;
  xassert (reqofs (me w) =? 0) ;;
  storeClientCopy (sc (me w)) (storeEntry (http w))
    (StoreIOBuffer_make (buf_length (readBuffer w)) 0 (buf_data (readBuffer w)))
    cb_SendMoreData.

Definition startError (err : ErrorState) : M unit :=
  w <- get ;;
  createStoreEntry (method (request (http w))) RequestFlags_default ;;
  triggerInitialStoreRead ;;
  errorAppendEntry err.

(** [HTTPMSGUNLOCK(reply)]: the pointer is cleared. *)
Definition HTTPMSGUNLOCK_reply : M unit := upd_me (set_reply None).

Definition processOnlyIfCachedMiss : M unit :=
  upd_http (set_al_http_code scGatewayTimeout) ;;
  let err := clientBuildError ERR_ONLY_IF_CACHED_MISS scGatewayTimeout in
  removeClientStoreReference ;;
  startError err.

(** *** Purging *)

Fixpoint purgeEntriesByUrl_from (ms : list MethodType) : M unit :=
  match ms with
  | [] => ret tt
  | m :: rest =>
      when (respMaybeCacheable env m)
           (when (USE_HTCP env) (emit (EvHtcpClear None m HTCP_CLR_INVALIDATION)) ;;
            emit (EvEvictIfFound m)) ;;
      purgeEntriesByUrl_from rest
  end.

Definition purgeEntriesByUrl : M unit := purgeEntriesByUrl_from all_methods.

Definition purgeAllCached : M unit := purgeEntriesByUrl.

Definition detailStoreLookup (detail : string) : M unit :=
  w <- get ;;
  match firstStoreLookup_ (me w) with
  | None => upd_me (set_firstStoreLookup_ (Some detail))
  | Some _ => ret tt
  end.

Definition purgeEntry (entry : EntryId) (methodType : MethodType) : M bool :=
  when (USE_HTCP env) (emit (EvHtcpClear (Some entry) methodType HTCP_CLR_PURGE)) ;;
  emit (EvRelease entry) ;;
  upd_me (set_purgeStatus scOkay) ;;
  ret true.

Definition purgeDoPurge : M unit :=
  w <- get ;;
  let r := request (http w) in
  emit (EvStoreGetPublicByRequestMethod METHOD_GET) ;;
  (* [None]: the function has returned; [Some firstFound]: it goes on *)
  first <- match storeGetPublicByRequestMethod env r METHOD_GET with
           | Some entry =>
               (* special entries are only METHOD_GET entries without variance *)
               if EBIT_TEST (e_flags (entries env entry)) ENTRY_SPECIAL then
                 updateLoggingTags LOG_TCP_DENIED ;;
                 let err := clientBuildError ERR_ACCESS_DENIED scForbidden in
                 startError err ;;
                 emit (EvAbandon entry) ;;
                 ret None
               else
                 ok <- purgeEntry entry METHOD_GET ;;
                 ret (if ok then Some true else None)
           | None => ret (Some false)
           end ;;
  match first with
  | None => ret tt
  | Some firstFound =>
      detailStoreLookup (storeLookupString env firstFound) ;;
      emit (EvStoreGetPublicByRequestMethod METHOD_HEAD) ;;
      ok <- match storeGetPublicByRequestMethod env r METHOD_HEAD with
            | Some entry => purgeEntry entry METHOD_HEAD
            | None => ret true
            end ;;
      if negb ok then ret tt else
      (* And for Vary, release the base URI if none of the headers was
         included in the request *)
      ok <- (if negb (String.eqb (vary_headers r) "") &&
                isSome (index 0 "=" (vary_headers r))
             then
               emit (EvStoreGetPublic METHOD_GET) ;;
               ok1 <- match storeGetPublic env r METHOD_GET with
                      | Some entry => purgeEntry entry METHOD_GET
                      | None => ret true
                      end ;;
               if negb ok1 then ret false else
               emit (EvStoreGetPublic METHOD_HEAD) ;;
               match storeGetPublic env r METHOD_HEAD with
               | Some entry => purgeEntry entry METHOD_HEAD
               | None => ret true
               end
             else ret true) ;;
      if negb ok then ret tt else
      w1 <- get ;;
      when (purgeStatus (me w1) =? scNone) (upd_me (set_purgeStatus scNotFound)) ;;
      (* Make a new entry to hold the reply to be written to the client. *)
      createStoreEntry (method r) RequestFlags_default ;;
      triggerInitialStoreRead ;;
      w2 <- get ;;
      e <- deref (storeEntry (http w2)) ;;
      emit (EvReplaceHttpReply e (purgeStatus (me w2))) ;;
      emit (EvComplete e)
  end.

Definition purgeRequest : M unit :=
  if negb (Config2_onoff_enable_purge env) then
    updateLoggingTags LOG_TCP_DENIED ;;
    let err := clientBuildError ERR_ACCESS_DENIED scForbidden in
    startError err
  else
    (* Release both IP cache *)
    emit EvIpcacheInvalidate ;;
    purgeDoPurge.


(** *** The header builder

    [buildReplyHeader] is one long function; its blocks are given names here,
    in the order of the source, and put together below. *)

(** Set-Cookie on hits and for collapsed slaves, Proxy-Authenticate unless
    the peer passes logins through, hop-by-hop entries, and a Content-Length
    that the status forbids ([removeIrrelevantContentLength]). *)
Definition buildReplyHeader_strip (is_hit : bool) (role : crState) (request : HttpRequest)
    (satisfaction : bool) (status : StatusCode) (hdr : HttpHeader) : HttpHeader :=
  let hdr := if is_hit || is_crSlave role then delById SET_COOKIE hdr else hdr in
  let hdr :=
    if match peer_login request with
       | None => true
       | Some l => negb (String.eqb l "PASS") && negb (String.eqb l "PASSTHRU")
       end
    then
      if USE_ADAPTATION env && satisfaction then hdr
      else delById PROXY_AUTHENTICATE hdr
    else hdr in
  let hdr := removeHopByHopEntries hdr in
  if ProhibitsContentLength env status then delById CONTENT_LENGTH hdr else hdr.

(** The estimated Age on cache hits. *)
Definition buildReplyHeader_age (e : StoreEntry) (conn : option ConnStateData)
    (hdr : HttpHeader) : HttpHeader :=
  let now := squid_curtime env in
  let hdr := delById AGE hdr in
  if EBIT_TEST (e_flags e) ENTRY_SPECIAL then
    putTime DATE now (delById DATE hdr)
  else if match conn with Some c => port_actAsOrigin c | None => false end then
    (* Swap the Date: header to current time if we are simulating an origin *)
    let hdr := match findEntry DATE hdr with
               | Some h => putExt "X-Origin-Date" (value h) hdr
               | None => hdr
               end in
    let hdr := putTime DATE now (delById DATE hdr) in
    let hdr := match findEntry EXPIRES hdr with
               | Some h =>
                   if 0 <=? expires e then
                     putTime EXPIRES (now + expires e - timestamp e)
                       (delById EXPIRES (putExt "X-Origin-Expires" (value h) hdr))
                   else hdr
               | None => hdr
               end in
    if timestamp e <=? now then putExt "X-Cache-Age" (VInt (now - timestamp e)) hdr
    else hdr
  else if timestamp e <=? now then putInt AGE (now - timestamp e) hdr
  else hdr.

(** Filter unproxyable authentication types.  The second component says
    that [mustKeepalive] is to be set. *)
Definition buildReplyHeader_wwwauth (tag : LogTags_ot) (request : HttpRequest)
    (hdr : HttpHeader) : HttpHeader * bool :=
  if negb (LogTags_eqb tag LOG_TCP_DENIED) && has WWW_AUTHENTICATE hdr then
    let r := scanWwwAuthenticate (connectionAuthDisabled (flags request)) hdr in
    if snd r then
      if negb (accelerated (flags request)) && negb (intercepted (flags request)) then
        (putStr CONNECTION "Proxy-support"
           (putStr PROXY_SUPPORT "Session-Based-Authentication" (fst r)), true)
      else (fst r, true)
    else (fst r, false)
  else (hdr, false).

(** Handle authentication headers (built with [USE_AUTH] only). *)
Definition buildReplyHeader_auth (tag : LogTags_ot) (status : StatusCode)
    (request : HttpRequest) (accel : bool) (hdr : HttpHeader) : HttpHeader :=
  if USE_AUTH env then
    if LogTags_eqb tag LOG_TCP_DENIED &&
       ((status =? scProxyAuthenticationRequired) || (status =? scUnauthorized))
    then AddReplyAuthHeader env hdr request false true
    else if auth_user_request request then AddReplyAuthHeader env hdr request accel false
    else hdr
  else hdr.

Definition buildReplyHeader_cacheStatus (tag : LogTags_ot) (detail : option string)
    : string :=
  (uniqueHostname env
   ++ match cacheStatusSource env tag with Some hitOrFwd => hitOrFwd | None => "" end
   ++ match detail with Some d => ";detail=" ++ d | None => "" end)%string.

Definition maySendChunkedReply (request : HttpRequest) (rep : HttpReply) : bool :=
  negb (multipartRangeRequest request) &&
  is_PROTO_HTTP (sline_protocol rep) &&
  ProtocolVersion_ge (http_ver request) (1, 1).

(** Check whether we should send keep-alive: the value [proxyKeepalive] has
    after the chain of tests. *)
Definition buildReplyHeader_keepalive (request : HttpRequest) (rep : HttpReply)
    (conn : option ConnStateData) : bool :=
  let f := flags request in
  if negb (Config_onoff_error_pconns env) && (400 <=? sline_status rep) &&
     negb (mustKeepalive f) then false
  else if negb (Config_onoff_client_pconns env) && negb (mustKeepalive f) then false
  else if proxyKeepalive f && shutting_down env then false
  else if connectionAuth f && negb (keep_alive rep) then false
  else if (bodySize env rep (method request) <? 0) &&
          negb (maySendChunkedReply request rep) then false
  else if fdUsageHigh env && negb (mustKeepalive f) then false
  else if sslBumped f && negb (persistent env rep) then false
  else if pinnedConnection request && negb (persistent env rep) then false
  else match conn with
       | Some c => if negb (port_listenConn_open c) then false else proxyKeepalive f
       | None => proxyKeepalive f
       end.

(** Surrogate-Control requires Surrogate-Capability from upstream. *)
Definition buildReplyHeader_surrogate (request : HttpRequest) (hdr : HttpHeader)
    : HttpHeader :=
  if has SURROGATE_CONTROL hdr then
    if negb (has SURROGATE_CAPABILITY (req_header request))
    then delById SURROGATE_CONTROL hdr
    else hdr
  else hdr.

Definition Connection_value (keepalive : bool) : string :=
  if keepalive then "keep-alive" else "close".

(** The methods [bodySize], [persistent] and the field [keep_alive] read
    what was parsed from the stored reply, not the header list being edited,
    so they are asked of the reply as it was cloned. *)
Definition buildReplyHeader : M unit :=
  w <- get ;;
  rep <- deref (reply (me w)) ;;
  let hdr := header rep in
  let is_hit := isTcpHit env (logType (http w)) in
  let hdr := buildReplyHeader_strip is_hit (collapsedRevalidation (me w))
               (request (http w)) (requestSatisfactionMode (http w))
               (sline_status rep) hdr in
  hdr <- (if is_hit then
            e <- deref (storeEntry (http w)) ;;
            ret (buildReplyHeader_age (entries env e) (getConn (http w)) hdr)
          else ret hdr) ;;
  (* Add a Date: header if missing. *)
  hdr <- (if has DATE hdr then ret hdr
          else match storeEntry (http w) with
               | None => ret (putTime DATE (squid_curtime env) hdr)
               | Some e =>
                   if 0 <? timestamp (entries env e)
                   then ret (putTime DATE (timestamp (entries env e)) hdr)
                   else emit EvBugNoDate ;; emit (EvDump e) ;; ret hdr
               end) ;;
  let a := buildReplyHeader_wwwauth (logType (http w)) (request (http w)) hdr in
  when (snd a) (upd_flags (set_mustKeepalive true)) ;;
  w1 <- get ;;
  let request := request (http w1) in
  let hdr := buildReplyHeader_auth (logType (http w)) (sline_status rep) request
               (http_accel (http w)) (fst a) in
  let hdr := putStr CACHE_STATUS
               (buildReplyHeader_cacheStatus (logType (http w))
                  (firstStoreLookup_ (me w))) hdr in
  let keepalive := buildReplyHeader_keepalive request rep (getConn (http w)) in
  upd_flags (set_proxyKeepalive keepalive) ;;
  (* Decide if we send chunked reply *)
  let chunked := maySendChunkedReply request rep &&
                 (bodySize env rep (method request) <? 0) in
  when chunked (upd_flags (set_chunkedReply true)) ;;
  let hdr := if chunked then putStr TRANSFER_ENCODING "chunked" hdr else hdr in
  let hdr := addVia (uniqueHostname env) hdr in
  (* Signal keep-alive or close explicitly *)
  let hdr := putStr CONNECTION (Connection_value keepalive) hdr in
  let hdr := buildReplyHeader_surrogate request hdr in
  let hdr := httpHdrMangleList env hdr request in
  upd_me (set_reply (Some (set_header hdr rep))).

Definition cloneReply : M unit :=
  w <- get ;;
  xassert (negb (isSome (reply (me w)))) ;;
  e <- deref (storeEntry (http w)) ;;
  let rep := freshestReply (entries env e) in
  upd_http (set_al_reply true) ;;
  (* RFC 2616 requires us to advertise our version (but only on real HTTP
     traffic) *)
  let rep := if is_PROTO_HTTP (sline_protocol rep)
             then set_sline_version ProtocolVersion_default rep
             else rep in
  upd_me (set_reply (Some rep)) ;;
  (* do header conversions *)
  buildReplyHeader.

(** *** Reply access and the streaming pump *)

Definition alwaysAllowResponse (sline : StatusCode) : bool :=
  (sline =? 100) || (sline =? 101) || (sline =? 102) || (sline =? 204) ||
  (sline =? scNotModified).

Definition processReplyAccessResult (accessAllowed : bool) : M unit :=
  if negb accessAllowed then
    let page := aclGetDenyInfoPage env in
    updateLoggingTags LOG_TCP_DENIED_REPLY ;;
    let page := match page with ERR_NONE => ERR_ACCESS_DENIED | _ => page end in
    let err := clientBuildError page scForbidden in
    removeClientStoreReference ;;
    HTTPMSGUNLOCK_reply ;;
    startError err
  else
    (* Ok, the reply is allowed, *)
    w <- get ;;
    emit (EvLoggingEntry (storeEntry (http w))) ;;
    rep <- deref (reply (me w)) ;;
    let body_size := reqofs (me w) - hdr_sz rep in
    when (body_size <? 0) (upd_me (set_reqofs (hdr_sz rep))) ;;
    let body_size := if body_size <? 0 then 0 else body_size in
    let head := MethodType_eqb (method (request (http w))) METHOD_HEAD in
    (* do not forward body for HEAD replies *)
    when head (upd_http (set_done_copying true) ;; upd_me (set_flags_complete true)) ;;
    let body_size := if head then 0 else body_size in
    xassert (negb (flags_headersSent (me w))) ;;
    upd_me (set_flags_headersSent true) ;;
    (* Server side may disable ranges under some circumstances. *)
    when (negb (isSome (range (request (http w)))))
         (modify (fun w' =>
            set_readBuffer (mkStoreIOBuffer (buf_error (readBuffer w')) (buf_length (readBuffer w'))
                              0 (buf_data (readBuffer w'))) w')) ;;
    w1 <- get ;;
    let off := buf_offset (readBuffer w1) in
    let localTempBuffer :=
      if negb (off =? 0) then
        if body_size <? off
        then StoreIOBuffer_make 0 0 buf_null
        else StoreIOBuffer_make (body_size - off) 0 (buf_data (readBuffer w1))
      else StoreIOBuffer_make body_size 0 (buf_data (readBuffer w1)) in
    clientStreamCallback (Some rep) localTempBuffer.

Definition sendBodyTooLargeError : M unit :=
  updateLoggingTags LOG_TCP_DENIED_REPLY ;;
  let err := clientBuildError ERR_TOO_BIG scForbidden in
  removeClientStoreReference ;;
  HTTPMSGUNLOCK_reply ;;
  startError err.

Definition processReplyAccess : M unit :=
  w <- get ;;
  rep <- deref (reply (me w)) ;;
  (* Don't block our own responses or HTTP status messages *)
  if LogTags_eqb (logType (http w)) LOG_TCP_DENIED ||
     LogTags_eqb (logType (http w)) LOG_TCP_DENIED_REPLY ||
     alwaysAllowResponse (sline_status rep)
  then
    upd_me (set_headers_sz (hdr_sz rep)) ;;
    processReplyAccessResult true
  else if expectedBodyTooLarge env rep (request (http w)) then
    (* Check for reply to big error *)
    sendBodyTooLargeError
  else
    upd_me (set_headers_sz (hdr_sz rep)) ;;
    (* check for absent access controls (permit by default) *)
    if negb (Config_accessList_reply env) then processReplyAccessResult true
    else
      (* Process http_reply_access lists *)
      emit EvNonBlockingCheck.

Definition errorInStream (result : StoreIOBuffer) (sizeToProcess : Z) : M bool :=
  w <- get ;;
  ret (match storeEntry (http w) with
       | Some e => EBIT_TEST (e_flags (entries env e)) ENTRY_ABORTED
       | None => false
       end
       || buf_error result
       || (sizeToProcess =? 0)).

Definition sendStreamError (result : StoreIOBuffer) : M unit :=
  upd_me (set_flags_complete true) ;;
  upd_flags (set_streamError true) ;;
  clientStreamCallback None (mkStoreIOBuffer (buf_error result) 0 0 buf_null).

Definition pushStreamData (result : StoreIOBuffer) (source : BufRef) : M unit :=
  when (buf_length result =? 0) (upd_me (set_flags_complete true)) ;;
  w <- get ;;
  xassert (buf_offset result - headers_sz (me w) =? buf_offset (readBuffer w)) ;;
  clientStreamCallback None
    (StoreIOBuffer_make (buf_length result) (buf_offset result - headers_sz (me w))
       (if buf_length result =? 0 then buf_null else source)).

Definition sendMoreData (result : StoreIOBuffer) : M unit :=
  w <- get ;;
  if deleting (me w) then ret tt else
  let stop := match getConn (http w) with
              | Some conn => negb (isOpen conn) || pinning_zeroReply conn
              | None => false
              end in
  if stop then ret tt else
  when (isSome (getConn (http w)) && (reqofs (me w) =? 0) &&
        negb (isTcpHit env (logType (http w))))
       (when (isHitTosActive env) (emit EvQosLocalMiss) ;;
        when (isHitNfmarkActive env) (emit EvQosLocalMiss)) ;;
  let buf := buf_data (readBuffer w) in
  when (negb (BufRef_eqb buf (buf_data result)))
       ((* we've got to copy some data *)
        xassert (buf_length result <=? buf_length (readBuffer w)) ;;
        emit (EvMemcpy (buf_length result))) ;;
  (* We've got the final data to start pushing... *)
  upd_me (set_flags_storelogiccomplete true) ;;
  upd_me (set_reqofs (reqofs (me w) + buf_length result)) ;;
  w1 <- get ;;
  xassert ((reqofs (me w1) <=? HTTP_REQBUF_SZ) || flags_headersSent (me w1)) ;;
  emit EvMakeThisHead ;;
  (* update size of the request *)
  upd_me (set_reqsize (reqofs (me w1))) ;;
  err <- errorInStream result (reqofs (me w1)) ;;
  if err then sendStreamError result
  else if flags_headersSent (me w1) then pushStreamData result buf
  else
    cloneReply ;;
    w2 <- get ;;
    match sc (me w2) with
    | Some s => setDelayId s
    | None => ret tt
    end ;;
    processReplyAccess.

(** *** Revalidation: the reply to the If-Modified-Since request *)

Definition sendClientUpstreamResponse : M unit :=
  w <- get ;;
  r <- removeStoreReference (old_sc (me w)) (old_entry (me w)) ;;
  upd_me (set_old_sc (fst r)) ;;
  upd_me (set_old_entry (snd r)) ;;
  e <- deref (storeEntry (http w)) ;;
  when (negb (is_crNone (collapsedRevalidation (me w)))) (emit (EvClearPublicKeyScope e)) ;;
  (* here the data to send is the data we just received *)
  upd_me (set_old_reqofs 0) ;;
  upd_me (set_old_reqsize 0) ;;
  (* sendMoreData tracks the offset as well.  Force it back to zero *)
  upd_me (set_reqofs 0) ;;
  xassert (negb (EBIT_TEST (e_flags (entries env e)) ENTRY_ABORTED)) ;;
  sendMoreData (StoreIOBuffer_make (reqsize (me w)) 0 buf_tempbuf).

Definition sendClientOldEntry : M unit :=
  (* Get the old request back *)
  restoreState ;;
  w <- get ;;
  e <- deref (storeEntry (http w)) ;;
  (* here the data to send is in the next nodes buffers already *)
  xassert (negb (EBIT_TEST (e_flags (entries env e)) ENTRY_ABORTED)) ;;
  upd_me (set_reqofs 0) ;;
  sendMoreData (StoreIOBuffer_make (reqsize (me w)) 0 (buf_data (readBuffer w))).

(** *** The miss path *)

Definition connMatches (w : World) : bool :=
  match clientConnectionManager (request (http w)), getConn (http w) with
  | Some a, Some c => Nat.eqb a (conn_addr c)
  | None, None => true
  | _, _ => false
  end.

Definition FwdState_Start : M unit :=
  w <- get ;;
  e <- deref (storeEntry (http w)) ;;
  emit (EvFwdStart e).

Definition processMiss : M unit :=
  w <- get ;;
  let r := request (http w) in
  (* We might have a left-over StoreEntry from a failed cache hit or IMS
     request. *)
  match storeEntry (http w) with
  | Some e =>
      when (EBIT_TEST (e_flags (entries env e)) ENTRY_SPECIAL) (emit (EvDump e)) ;;
      removeClientStoreReference
  | None => ret tt
  end ;;
  (* Check if its a PURGE request to be actioned. *)
  if MethodType_eqb (method r) METHOD_PURGE then purgeRequest else
  (* Check if its an 'OTHER' request. Purge all cached entries if so and
     continue. *)
  when (MethodType_eqb (method r) METHOD_OTHER) purgeAllCached ;;
  (* Check if 'only-if-cached' flag is set. Action if so. *)
  if onlyIfCached (http w) then processOnlyIfCachedMiss else
  (* Deny loops *)
  if loopDetected (flags r) then
    upd_http (set_al_http_code scForbidden) ;;
    let err := clientBuildError ERR_ACCESS_DENIED scForbidden in
    createStoreEntry (method r) RequestFlags_default ;;
    errorAppendEntry err ;;
    triggerInitialStoreRead
  else
    xassert (out_offset (http w) =? 0) ;;
    createStoreEntry (method r) (flags r) ;;
    triggerInitialStoreRead ;;
    if negb (redirect_status (http w) =? 0) then
      updateLoggingTags LOG_TCP_REDIRECT ;;
      w1 <- get ;;
      e <- deref (storeEntry (http w1)) ;;
      emit (EvReleaseRequest e) ;;
      emit (EvReplaceHttpReply e (redirect_status (http w))) ;;
      emit (EvComplete e)
    else
      xassert (connMatches w) ;;
      (* Start forwarding to get the new object from network *)
      FwdState_Start.

Definition handleIMSReply (result : StoreIOBuffer) : M unit :=
  w <- get ;;
  if deleting (me w) then ret tt else
  match storeEntry (http w) with
  | None => ret tt
  | Some e =>
      let entry := entries env e in
      if buf_error result && negb (EBIT_TEST (e_flags entry) ENTRY_ABORTED) then ret tt else
      if is_crSlave (collapsedRevalidation (me w)) && negb (mayStartHitting entry) then
        (* restore context to meet processMiss() expectations *)
        restoreState ;;
        updateLoggingTags LOG_TCP_MISS ;;
        processMiss
      else
      (* update size of the request *)
      upd_me (set_reqsize (buf_length result + reqofs (me w))) ;;
      (* request to origin was aborted *)
      if EBIT_TEST (e_flags entry) ENTRY_ABORTED then
        updateLoggingTags LOG_TCP_REFRESH_FAIL_OLD ;;
        sendClientOldEntry
      else
      old <- deref (old_entry (me w)) ;;
      let new_rep := freshestReply entry in
      let status := sline_status new_rep in
      (* origin replied 304 *)
      if status =? scNotModified then
        updateLoggingTags LOG_TCP_REFRESH_UNMODIFIED ;;
        upd_flags (set_staleIfHit false) ;;
        emit (EvUpdateOnNotModified old e) ;;
        (* if client sent IMS *)
        if flags_ims (flags (request (http w))) &&
           negb (modifiedSince env old (ims (request (http w))) (imslen (request (http w))))
        then (* forward the 304 from origin *) sendClientUpstreamResponse
        else (* send existing entry, it's still valid *) sendClientOldEntry
      else
      (* origin replied with a non-error code *)
      if (scNone <? status) && (status <? scInternalServerError) then
        if olderThan env new_rep (freshestReply (entries env old)) then
          upd_http (set_err_ignored true) ;;
          sendClientOldEntry
        else
          updateLoggingTags LOG_TCP_REFRESH_MODIFIED ;;
          sendClientUpstreamResponse
      else
      (* origin replied with an error *)
      if failOnValidationError (flags (request (http w))) then
        updateLoggingTags LOG_TCP_REFRESH_FAIL_ERR ;;
        sendClientUpstreamResponse
      else
        (* ignore and let client have old entry *)
        updateLoggingTags LOG_TCP_REFRESH_FAIL_OLD ;;
        sendClientOldEntry
  end.

(** *** Revalidation: an expired entry in the store *)

Definition processExpired : M unit :=
  w <- get ;;
  e0 <- deref (storeEntry (http w)) ;;
  let lastmod' := lastModified (entries env e0) in
  xassert (0 <=? lastmod') ;;
  (* check if we are allowed to contact other servers *)
  if onlyIfCached (http w) then processOnlyIfCachedMiss else
  updateLoggingTags LOG_TCP_REFRESH ;;
  upd_flags (set_refresh true) ;;
  (* Prepare to make a new temporary request *)
  saveState ;;
  w1 <- get ;;
  let r := request (http w1) in
  let collapsingAllowed :=
    Config_onoff_collapsed_forwarding env && negb (SmpAware env) &&
    String.eqb (vary_headers r) "" in
  (* the entry already being revalidated, if we may join it, and whether
     collapsing is still allowed *)
  found <- (if collapsingAllowed then
              emit (EvStoreGetPublicByRequest ksRevalidation) ;;
              match storeGetPublicByRequest env r ksRevalidation with
              | Some e =>
                  if hittingRequiresCollapsing (entries env e) &&
                     startCollapsingOn env e true
                  then emit (EvLock e) ;; ret (Some e, collapsingAllowed)
                  else emit (EvAbandon e) ;; ret (None, false)
              | None => ret (None, collapsingAllowed)
              end
            else ret (None, collapsingAllowed)) ;;
  entry <- match fst found with
           | Some e =>
               emit (EvEnsureMemObject e) ;;
               upd_me (set_collapsedRevalidation crSlave) ;;
               ret e
           | None =>
               e <- storeCreateEntry (flags r) (method r) ;;
               (if snd found && mayInitiateCollapsing env then
                  emit (EvAllowCollapsing e) ;;
                  if allowCollapsing env e
                  then upd_me (set_collapsedRevalidation crInitiator)
                  else upd_me (set_collapsedRevalidation crNone)
                else upd_me (set_collapsedRevalidation crNone)) ;;
               ret e
           end ;;
  s <- storeClientListAdd entry ;;
  upd_me (set_sc (Some s)) ;;
  setDelayId s ;;
  upd_request (set_lastmod lastmod') ;;
  w2 <- get ;;
  when (negb (has IF_NONE_MATCH (req_header r)))
       (old <- deref (old_entry (me w2)) ;;
        match hasEtag (entries env old) with
        | Some (str, weak) => when (negb weak) (upd_request (set_etag str))
        | None => ret tt
        end) ;;
  upd_http (set_storeEntry (Some entry)) ;;
  xassert (out_offset (http w) =? 0) ;;
  xassert (connMatches w) ;;
  w3 <- get ;;
  when (negb (is_crSlave (collapsedRevalidation (me w3)))) FwdState_Start ;;
  (* Register with storage manager to receive updates when data comes in. *)
  storeClientCopy (Some s) (Some entry) (StoreIOBuffer_make HTTP_REQBUF_SZ 0 buf_tempbuf)
    cb_HandleIMSReply.

(** *** Conditional requests on a hit *)

(** send 412 (Precondition Failed) to client *)
Definition sendPreconditionFailedError : M unit :=
  updateLoggingTags LOG_TCP_HIT ;;
  let err := clientBuildError ERR_PRECONDITION_FAILED scPreconditionFailed in
  removeClientStoreReference ;;
  HTTPMSGUNLOCK_reply ;;
  startError err.

(** send 304 (Not Modified) to client *)
Definition sendNotModified : M unit :=
  w <- get ;;
  e <- deref (storeEntry (http w)) ;;
  let timestamp' := timestamp (entries env e) in
  (* log as TCP_INM_HIT if code 304 generated for If-None-Match request *)
  (if negb (flags_ims (flags (request (http w))))
   then updateLoggingTags LOG_TCP_INM_HIT
   else updateLoggingTags LOG_TCP_IMS_HIT) ;;
  removeClientStoreReference ;;
  createStoreEntry (method (request (http w))) RequestFlags_default ;;
  w1 <- get ;;
  e' <- deref (storeEntry (http w1)) ;;
  (* Copy timestamp from the original entry so the 304 reply has a
     meaningful Age: header. *)
  emit (EvTimestampsSet e') ;;
  emit (EvSetTimestamp e' timestamp') ;;
  emit (EvReplaceHttpReply304 e' e) ;;
  emit (EvComplete e') ;;
  triggerInitialStoreRead.

(** send 304 (Not Modified) or 412 (Precondition Failed) to client
    depending on request method *)
Definition sendNotModifiedOrPreconditionFailedError : M unit :=
  w <- get ;;
  if MethodType_eqb (method (request (http w))) METHOD_GET ||
     MethodType_eqb (method (request (http w))) METHOD_HEAD
  then sendNotModified
  else sendPreconditionFailedError.

(** process conditional request from client *)
Definition processConditional : M bool :=
  w <- get ;;
  e <- deref (storeEntry (http w)) ;;
  let replyStatusCode := sline_status (baseReply (entries env e)) in
  if negb (replyStatusCode =? scOkay) then
    updateLoggingTags LOG_TCP_MISS ;;
    processMiss ;;
    ret true
  else
  let r := request (http w) in
  if has IF_MATCH (req_header r) && negb (hasIfMatchEtag env e r) then
    (* RFC 2616: reply with 412 Precondition Failed if If-Match did not match *)
    sendPreconditionFailedError ;;
    ret true
  else
  if has IF_NONE_MATCH (req_header r) then
    (* RFC 7232: If-None-Match recipient MUST ignore IMS *)
    upd_flags (set_flags_ims false) ;;
    upd_request (set_ims (-1)) ;;
    upd_request (set_imslen 0) ;;
    upd_request (fun r' => set_req_header (delById IF_MODIFIED_SINCE (req_header r')) r') ;;
    w1 <- get ;;
    if hasIfNoneMatchEtag env e (request (http w1)) then
      sendNotModifiedOrPreconditionFailedError ;;
      ret true
    else
      (* None-Match is true (no ETag matched); treat as an unconditional hit *)
      ret false
  else
  if flags_ims (flags r) then
    (* handle If-Modified-Since requests from the client *)
    if modifiedSince env e (ims r) (imslen r) then
      (* Modified-Since is true; treat as an unconditional hit *)
      ret false
    else
      (* otherwise reply with 304 Not Modified *)
      sendNotModified ;;
      ret true
  else ret false.

(** whether squid.conf send_hit prevents us from serving this hit *)
Definition blockedHit : M bool :=
  w <- get ;;
  if negb (Config_accessList_sendHit env) then ret false else
  if http_internal (http w) then ret false else
  e <- deref (storeEntry (http w)) ;;
  ret (negb (sendHit_allowed env (http w) (freshestReply (entries env e)))).

(** *** Lookup and classification *)

(** Safely disposes of an entry pointing to a cache hit that we do not
    want. *)
Definition forgetHit : M unit :=
  w <- get ;;
  e <- deref (storeEntry (http w)) ;;
  emit (EvLock e) ;;
  upd_http (set_storeEntry None) ;;
  emit (EvUnlock e).

Definition doGetMoreData : M unit :=
  w <- get ;;
  match storeEntry (http w) with
  | Some e =>
      (* someone found the object in the cache for us *)
      emit (EvLock e) ;;
      emit (EvEnsureMemObject e) ;;
      s <- storeClientListAdd e ;;
      upd_me (set_sc (Some s)) ;;
      setDelayId s ;;
      xassert (LogTags_eqb (logType (http w)) LOG_TCP_HIT) ;;
      upd_me (set_reqofs 0) ;;
      (* guarantee nothing has been sent yet! *)
      xassert (out_size (http w) =? 0) ;;
      xassert (out_offset (http w) =? 0) ;;
      when (isSome (getConn (http w)))
           (when (isHitTosActive env) (emit EvQosLocalHit) ;;
            when (isHitNfmarkActive env) (emit EvQosLocalHit)) ;;
      storeClientCopy (Some s) (Some e)
        (StoreIOBuffer_make (buf_length (readBuffer w)) 0 (buf_data (readBuffer w)))
        cb_CacheHit
  | None =>
      (* MISS CASE, http->loggingTags() are already set! *)
      processMiss
  end.

(** Check state of the current StoreEntry object to see if we can determine
    the final status of the request. *)
Definition identifyFoundObject (newEntry : option EntryId) (detail : string) : M unit :=
  detailStoreLookup detail ;;
  w <- get ;;
  let r := request (http w) in
  upd_http (set_storeEntry newEntry) ;;
  (* Release IP-cache entries on reload *)
  when (noCache (flags r) || noCacheHack (flags r)) (emit EvIpcacheInvalidateNegative) ;;
  match newEntry with
  | None =>
      updateLoggingTags LOG_TCP_MISS ;;
      doGetMoreData
  | Some e =>
      if Config_onoff_offline env then
        updateLoggingTags LOG_TCP_HIT ;;
        doGetMoreData
      else if negb (redirect_status (http w) =? 0) then
        forgetHit ;;
        updateLoggingTags LOG_TCP_REDIRECT ;;
        doGetMoreData
      else if negb (validToSend (entries env e)) then
        forgetHit ;;
        updateLoggingTags LOG_TCP_MISS ;;
        doGetMoreData
      else if EBIT_TEST (e_flags (entries env e)) ENTRY_SPECIAL then
        (* Special entries are always hits, no matter what the client says *)
        updateLoggingTags LOG_TCP_HIT ;;
        doGetMoreData
      else if noCache (flags r) then
        forgetHit ;;
        updateLoggingTags LOG_TCP_CLIENT_REFRESH_MISS ;;
        doGetMoreData
      else if hittingRequiresCollapsing (entries env e) &&
              negb (startCollapsingOn env e false) then
        forgetHit ;;
        updateLoggingTags LOG_TCP_MISS ;;
        doGetMoreData
      else
        updateLoggingTags LOG_TCP_HIT ;;
        doGetMoreData
  end.

Definition identifyStoreObject : M unit :=
  w <- get ;;
  let r := request (http w) in
  (* client sent CC:no-cache or some other condition has been encountered
     which prevents delivering a public/cached object. *)
  if negb (noCache (flags r)) || internal (flags r) then
    emit (EvStoreGetPublicByRequest ksDefault) ;;
    let e := storeGetPublicByRequest env r ksDefault in
    identifyFoundObject e (storeLookupString env (isSome e))
  else
    (* "external" no-cache requests skip Store lookups *)
    identifyFoundObject None "no-cache".

(** *** The entry point of the stream and the cache-hit callback *)

Definition traceReply : M unit :=
  w <- get ;;
  createStoreEntry (method (request (http w))) RequestFlags_default ;;
  w1 <- get ;;
  storeClientCopy (sc (me w1)) (storeEntry (http w1))
    (StoreIOBuffer_make (buf_length (readBuffer w1))
       (buf_offset (readBuffer w1) + headers_sz (me w1)) (buf_data (readBuffer w1)))
    cb_SendMoreData ;;
  e <- deref (storeEntry (http w1)) ;;
  emit (EvReleaseRequest e) ;;
  emit (EvReplaceHttpReply e scOkay) ;;
  emit (EvComplete e).

Definition clientGetMoreData : M unit :=
  upd_me (fun c => if ourNode c then c else set_ourNode true c) ;;
  w <- get ;;
  if flags_storelogiccomplete (me w) then
    storeClientCopy (sc (me w)) (storeEntry (http w))
      (StoreIOBuffer_make (buf_length (readBuffer w))
         (buf_offset (readBuffer w) + headers_sz (me w)) (buf_data (readBuffer w)))
      cb_SendMoreData
  else if MethodType_eqb (method (request (http w))) METHOD_PURGE then purgeRequest
  else if MethodType_eqb (method (request (http w))) METHOD_TRACE then
    if getInt64 MAX_FORWARDS (req_header (request (http w))) =? 0 then traceReply
    else
      (* continue forwarding, not finished yet. *)
      updateLoggingTags LOG_TCP_MISS ;;
      doGetMoreData
  else identifyStoreObject.

(** Process a possible cache HIT. *)
Definition cacheHit (result : StoreIOBuffer) : M unit :=
  w <- get ;;
  (* Ignore if the HIT object is being deleted. *)
  if deleting (me w) then ret tt else
  match storeEntry (http w) with
  | None => ret tt
  | Some e =>
      let r := request (http w) in
      if buf_error result then
        (* swap in failure *)
        updateLoggingTags LOG_TCP_SWAPFAIL_MISS ;;
        removeClientStoreReference ;;
        processMiss
      else
      (* The previously identified hit suddenly became unshareable! *)
      if negb (mayStartHitting (entries env e)) then
        updateLoggingTags LOG_TCP_MISS ;;
        processMiss
      else
      if buf_length result =? 0 then
        (* treat as a miss *)
        updateLoggingTags LOG_TCP_MISS ;;
        processMiss
      else
      xassert (negb (EBIT_TEST (e_flags (entries env e)) ENTRY_ABORTED)) ;;
      (* update size of the request *)
      upd_me (set_reqsize (buf_length result + reqofs (me w))) ;;
      (* Got the headers, now grok them *)
      xassert (LogTags_eqb (logType (http w)) LOG_TCP_HIT) ;;
      if negb (String.eqb (req_storeId r) (mem_storeId (entries env e))) then
        updateLoggingTags LOG_TCP_MISS ;;
        processMiss
      else
      let vary := varyEvaluateMatch env e r in
      upd_request (set_vary_headers (snd vary)) ;;
      match fst vary with
      | VARY_OTHER =>
          (* This is not the correct entity for this request. We need to
             requery the cache. *)
          removeClientStoreReference ;;
          clientGetMoreData
      | VARY_CANCEL =>
          (* varyEvaluateMatch found a object loop. Process as miss *)
          updateLoggingTags LOG_TCP_MISS ;;
          processMiss
      | _ =>
          if MethodType_eqb (method r) METHOD_PURGE then
            removeClientStoreReference ;;
            purgeRequest
          else
          if checkNegativeHit (entries env e) && negb (noCacheHack (flags r)) then
            updateLoggingTags LOG_TCP_NEGATIVE_HIT ;;
            sendMoreData result
          else
          blocked <- blockedHit ;;
          if blocked then
            updateLoggingTags LOG_TCP_MISS ;;
            processMiss
          else
          w1 <- get ;;
          if negb (http_internal (http w)) && refreshCheckHTTP env e (request (http w1)) then
            (* We hold a stale copy; it needs to be validated *)
            upd_flags (set_needValidation true) ;;
            if lastModified (entries env e) <? 0 then
              updateLoggingTags LOG_TCP_MISS ;;
              processMiss
            else if noCache (flags r) then
              updateLoggingTags LOG_TCP_CLIENT_REFRESH_MISS ;;
              processMiss
            else if is_PROTO_HTTP (url_scheme r) || is_PROTO_HTTPS (url_scheme r) then
              (* Object needs to be revalidated *)
              processExpired
            else
              (* We don't know how to re-validate other protocols. *)
              updateLoggingTags LOG_TCP_MISS ;;
              processMiss
          else
          handled <- (if conditional (request (http w1)) then processConditional
                      else ret false) ;;
          if handled then ret tt else
          (* plain ol' cache hit *)
          (if USE_DELAY_POOLS env &&
              match store_status (entries env e) with STORE_OK => false | _ => true end
           then updateLoggingTags LOG_TCP_MISS
           else if match mem_status (entries env e) with IN_MEMORY => true | _ => false end
           then updateLoggingTags LOG_TCP_MEM_HIT
           else if Config_onoff_offline env
           then updateLoggingTags LOG_TCP_OFFLINE_HIT
           else ret tt) ;;
          sendMoreData result
      end
  end.

(** *** Transfer done and the stream status *)

Definition storeOKTransferDone : M Z :=
  w <- get ;;
  e <- deref (storeEntry (http w)) ;;
  xassert (0 <=? objectLen (entries env e)) ;;
  xassert (headers_sz (me w) <=? objectLen (entries env e)) ;;
  if objectLen (entries env e) - headers_sz (me w) <=? out_offset (http w)
  then ret 1
  else ret 0.

Definition storeNotOKTransferDone : M Z :=
  w <- get ;;
  e <- deref (storeEntry (http w)) ;;
  (* Now, handle STORE_PENDING objects *)
  xassert (mem_obj (entries env e)) ;;
  if headers_sz (me w) =? 0 then
    (* haven't found end of headers yet *)
    ret 0
  else
  let expectedBodySize := content_length (baseReply (entries env e)) in
  (* If we are sending a body and we don't have a content-length, then we
     must wait for the object to become STORE_OK. *)
  if expectedBodySize <? 0 then ret 0 else
  let expectedLength := (expectedBodySize + out_headers_sz (http w)) mod 2 ^ 64 in
  if out_size (http w) <? expectedLength then ret 0 else ret 1.

Definition checkTransferDone : M Z :=
  w <- get ;;
  match storeEntry (http w) with
  | None => ret 0
  | Some e =>
      (* For now, 'done_copying' is used for special cases like Range and
         HEAD requests. *)
      if done_copying (http w) then ret 1 else
      if chunkedReply (flags (request (http w))) && negb (flags_complete (me w)) then
        (* last-chunk was not sent *)
        ret 0
      else
      match store_status (entries env e) with
      | STORE_OK => storeOKTransferDone
      | STORE_PENDING => storeNotOKTransferDone
      end
  end.

Definition replyStatus : M clientStream_status_t :=
  w <- get ;;
  match storeEntry (http w) with
  | None => ret STREAM_FAILED (* yuck, but what can we do? *)
  | Some e =>
      if EBIT_TEST (e_flags (entries env e)) ENTRY_ABORTED then ret STREAM_FAILED else
      done <- checkTransferDone ;;
      if negb (done =? 0) || flags_complete (me w) then
        (* Ok we're finished, but how? *)
        if EBIT_TEST (e_flags (entries env e)) ENTRY_BAD_LENGTH then
          ret STREAM_UNPLANNED_COMPLETE
        else if done =? 0 then ret STREAM_FAILED
        else
          let expectedBodySize :=
            bodySize env (baseReply (entries env e)) (method (request (http w))) in
          if (0 <=? expectedBodySize) && negb (gotEnough (http w) expectedBodySize)
          then ret STREAM_UNPLANNED_COMPLETE
          else ret STREAM_COMPLETE
      else
        rep <- deref (reply (me w)) ;;
        if receivedBodyTooLarge env rep (request (http w)) (out_offset (http w) - 4096)
        then ret STREAM_FAILED
        else ret STREAM_NONE
  end.

(** *** The destructor *)

Definition clientReplyContext_delete : M unit :=
  upd_me (set_deleting true) ;;
  (* This may trigger a callback back into SendMoreData as the cbdata is
     still valid *)
  removeClientStoreReference ;;
  (* old_entry might still be set if we didn't yet get the reply code in
     HandleIMSReply() *)
  w <- get ;;
  r <- removeStoreReference (old_sc (me w)) (old_entry (me w)) ;;
  upd_me (set_old_sc (fst r)) ;;
  upd_me (set_old_entry (snd r)) ;;
  HTTPMSGUNLOCK_reply.

End Engine.

(** ** Sample inputs *)

Definition sample_reply : HttpReply :=
  {| sline_status := scOkay; sline_protocol := PROTO_HTTP; sline_version := (1, 1);
     header := []; hdr_sz := 100; content_length := -1; keep_alive := true; date := 0 |}.

Definition sample_entry : StoreEntry :=
  {| e_flags := 0; store_status := STORE_OK; mem_status := NOT_IN_MEMORY;
     timestamp := 10; lastModified := 5; expires := -1; objectLen := 300;
     mem_obj := true; mem_storeId := "http://example.com/a";
     baseReply := sample_reply; freshestReply := sample_reply;
     validToSend := true; mayStartHitting := true;
     hittingRequiresCollapsing := false; checkNegativeHit := false;
     hasEtag := None |}.

Definition sample_env : Env :=
  {| Config_onoff_offline := false; Config_onoff_collapsed_forwarding := false;
     Config_onoff_error_pconns := true; Config_onoff_client_pconns := true;
     Config2_onoff_enable_purge := true; Config_accessList_reply := false;
     Config_accessList_sendHit := false;
     USE_HTCP := false; USE_AUTH := false; USE_DELAY_POOLS := false;
     USE_ADAPTATION := false;
     squid_curtime := 1000; shutting_down := false; fdUsageHigh := false;
     SmpAware := false; isHitTosActive := false; isHitNfmarkActive := false;
     entries := fun _ => sample_entry;
     storeGetPublicByRequest := fun _ _ => None;
     storeGetPublicByRequestMethod := fun _ _ => None;
     storeGetPublic := fun _ _ => None;
     allowCollapsing := fun _ => false;
     startCollapsingOn := fun _ _ => false;
     mayInitiateCollapsing := false;
     hasIfMatchEtag := fun _ _ => false;
     hasIfNoneMatchEtag := fun _ _ => false;
     modifiedSince := fun _ _ _ => true;
     refreshCheckHTTP := fun _ _ => false;
     varyEvaluateMatch := fun _ r => (VARY_NONE, vary_headers r);
     bodySize := fun rep _ => content_length rep;
     persistent := fun rep => keep_alive rep;
     olderThan := fun a b => date a <? date b;
     expectedBodyTooLarge := fun _ _ => false;
     receivedBodyTooLarge := fun _ _ _ => false;
     ProhibitsContentLength := fun st => (st =? 204) || ((100 <=? st) && (st <? 200));
     isTcpHit := fun t => LogTags_eqb t LOG_TCP_HIT;
     cacheStatusSource := fun _ => None;
     uniqueHostname := "proxy";
     respMaybeCacheable := fun m => MethodType_eqb m METHOD_GET || MethodType_eqb m METHOD_HEAD;
     storeLookupString := fun found => if found then "match" else "mismatch";
     sendHit_allowed := fun _ _ => true;
     aclGetDenyInfoPage := ERR_NONE;
     AddReplyAuthHeader := fun h _ _ _ => h;
     httpHdrMangleList := fun h _ => h |}.

Definition sample_request : HttpRequest :=
  {| method := METHOD_GET; flags := RequestFlags_default; lastmod := -1; etag := "";
     ims := -1; imslen := 0; req_header := []; vary_headers := "";
     http_ver := (1, 1); peer_login := None; range := None;
     pinnedConnection := false; auth_user_request := false; url_scheme := PROTO_HTTP;
     req_storeId := "http://example.com/a"; clientConnectionManager := None |}.

Definition sample_http : ClientHttpRequest :=
  {| storeEntry := None; request := sample_request; http_internal := false;
     done_copying := false; http_accel := false; out_offset := 0; out_size := 0;
     out_headers_sz := 0; redirect_status := 0; logType := LOG_TAG_NONE;
     err_ignored := false; al_http_code := 0; al_reply := false; getConn := None;
     onlyIfCached := false; requestSatisfactionMode := false |}.

(** A context as the constructor leaves it. *)
Definition fresh_world : World :=
  {| me := clientReplyContext_new; http := sample_http;
     readBuffer := StoreIOBuffer_make HTTP_REQBUF_SZ 0 buf_readBuffer;
     trace := []; fresh := 100 |}.

(** A context reading entry 1 through store client 2. *)
Definition hit_world : World :=
  set_http (set_logType LOG_TCP_HIT (set_storeEntry (Some 1%nat) sample_http))
    (set_me (set_sc (Some 2%nat) clientReplyContext_new) fresh_world).

(** ** Notions used in the statements *)

(** The shadow fields put back to what the constructor gives them. *)
Definition clearShadow (c : clientReplyContext) : clientReplyContext :=
  set_old_reqofs 0 (set_old_reqsize 0 (set_old_etag "" (set_old_lastmod (-1)
    (set_old_sc None (set_old_entry None c))))).


(** A reply-size limit of 50 bytes, and a hit whose 5000 body bytes have all
    been written: the object is complete in the store (5100 bytes, 100 of
    them headers) and its length was not announced. *)
Definition limit_env : Env :=
  {| Config_onoff_offline := false; Config_onoff_collapsed_forwarding := false;
     Config_onoff_error_pconns := true; Config_onoff_client_pconns := true;
     Config2_onoff_enable_purge := true; Config_accessList_reply := false;
     Config_accessList_sendHit := false;
     USE_HTCP := false; USE_AUTH := false; USE_DELAY_POOLS := false;
     USE_ADAPTATION := false;
     squid_curtime := 1000; shutting_down := false; fdUsageHigh := false;
     SmpAware := false; isHitTosActive := false; isHitNfmarkActive := false;
     entries := fun _ =>
       {| e_flags := 0; store_status := STORE_OK; mem_status := NOT_IN_MEMORY;
          timestamp := 10; lastModified := 5; expires := -1; objectLen := 5100;
          mem_obj := true; mem_storeId := "http://example.com/a";
          baseReply := sample_reply; freshestReply := sample_reply;
          validToSend := true; mayStartHitting := true;
          hittingRequiresCollapsing := false; checkNegativeHit := false;
          hasEtag := None |};
     storeGetPublicByRequest := fun _ _ => None;
     storeGetPublicByRequestMethod := fun _ _ => None;
     storeGetPublic := fun _ _ => None;
     allowCollapsing := fun _ => false;
     startCollapsingOn := fun _ _ => false;
     mayInitiateCollapsing := false;
     hasIfMatchEtag := fun _ _ => false;
     hasIfNoneMatchEtag := fun _ _ => false;
     modifiedSince := fun _ _ _ => true;
     refreshCheckHTTP := fun _ _ => false;
     varyEvaluateMatch := fun _ r => (VARY_NONE, vary_headers r);
     bodySize := fun rep _ => content_length rep;
     persistent := fun rep => keep_alive rep;
     olderThan := fun a b => date a <? date b;
     expectedBodyTooLarge := fun _ _ => false;
     receivedBodyTooLarge := fun _ _ received => 50 <? received;
     ProhibitsContentLength := fun st => (st =? 204) || ((100 <=? st) && (st <? 200));
     isTcpHit := fun t => LogTags_eqb t LOG_TCP_HIT;
     cacheStatusSource := fun _ => None;
     uniqueHostname := "proxy";
     respMaybeCacheable := fun m => MethodType_eqb m METHOD_GET || MethodType_eqb m METHOD_HEAD;
     storeLookupString := fun found => if found then "match" else "mismatch";
     sendHit_allowed := fun _ _ => true;
     aclGetDenyInfoPage := ERR_NONE;
     AddReplyAuthHeader := fun h _ _ _ => h;
     httpHdrMangleList := fun h _ => h |}.

Definition sent_world : World :=
  {| me := set_flags_headersSent true (set_headers_sz 100
             (set_reply (Some sample_reply) (me hit_world)));
     http := {| storeEntry := Some 1%nat; request := sample_request;
                http_internal := false; done_copying := false; http_accel := false;
                out_offset := 5000; out_size := 5100; out_headers_sz := 100;
                redirect_status := 0; logType := LOG_TCP_HIT; err_ignored := false;
                al_http_code := 200; al_reply := true; getConn := None;
                onlyIfCached := false; requestSatisfactionMode := false |};
     readBuffer := StoreIOBuffer_make HTTP_REQBUF_SZ 0 buf_readBuffer;
     trace := []; fresh := 100 |}.




Definition is_GET_or_HEAD (m : MethodType) : bool :=
  MethodType_eqb m METHOD_GET || MethodType_eqb m METHOD_HEAD.


(** *** Lookup and classification, in the words of the specification

    The ordered rules of the specification for a request whose lookup
    returned [found]: the tag, and the entry that stays attached (none when
    the hit is forgotten). *)
Definition classify (env : Env) (h : ClientHttpRequest) (found : option EntryId)
    : LogTags_ot * option EntryId :=
  match found with
  | None => (LOG_TCP_MISS, None)
  | Some e =>
      if Config_onoff_offline env then (LOG_TCP_HIT, Some e)
      else if negb (redirect_status h =? 0) then (LOG_TCP_REDIRECT, None)
      else if negb (validToSend (entries env e)) then (LOG_TCP_MISS, None)
      else if EBIT_TEST (e_flags (entries env e)) ENTRY_SPECIAL then (LOG_TCP_HIT, Some e)
      else if noCache (flags (request h)) then (LOG_TCP_CLIENT_REFRESH_MISS, None)
      else if hittingRequiresCollapsing (entries env e) &&
              negb (startCollapsingOn env e false)
      then (LOG_TCP_MISS, None)
      else (LOG_TCP_HIT, Some e)
  end.

(** The calls that forgetting a found entry makes. *)
Definition forget_calls (found kept : option EntryId) : list Event :=
  match found, kept with
  | Some e, None => [EvLock e; EvUnlock e]
  | _, _ => []
  end.

(** The world in which the classified request goes on to [doGetMoreData]:
    the detail is recorded if it is the first, the tag and the entry are
    those of the classification, and the calls made are [lookup] (the
    store lookup, if any), the invalidation of negative IP-cache entries
    for a no-cache request, and those of forgetting the hit. *)
Definition classified (env : Env) (w : World) (lookup : list Event)
    (found : option EntryId) (detail : string) : World :=
  let r := request (http w) in
  let c := classify env (http w) found in
  {| me := set_firstStoreLookup_
             (match firstStoreLookup_ (me w) with
              | None => Some detail
              | Some d => Some d
              end) (me w);
     http := set_logType (fst c) (set_storeEntry (snd c) (http w));
     readBuffer := readBuffer w;
     trace := trace w ++ lookup
              ++ (if noCache (flags r) || noCacheHack (flags r)
                  then [EvIpcacheInvalidateNegative] else [])
              ++ forget_calls found (snd c);
     fresh := fresh w |}.

(** An external no-cache request, and an environment whose store holds
    entry 1 for every request. *)
Definition nocache_world : World :=
  set_http
    (set_request
       (set_flags
          (mkRequestFlags true false false false false false false false false false
                          false false false false false false false false false)
          sample_request)
       sample_http)
    fresh_world.

(** *** Purging, in the words of the specification *)




(** The entries a sequence of calls evicts. *)
Definition releases (calls : list Event) : list EntryId :=
  flat_map (fun ev => match ev with EvRelease e => [e] | _ => [] end) calls.





(** *** Revalidation *)





(** A context waiting for the reply to its revalidation request: the stale
    hit (entry 1, store client 2) is saved in the shadow, entry 5 is
    attached through store client 6, and the request is marked stale-if-hit.
    [role] is the part the context plays in a collapsed revalidation. *)
Definition revalidating_world (role : crState) : World :=
  {| me := set_collapsedRevalidation role
             (set_old_lastmod (-1) (set_old_sc (Some 2%nat) (set_old_entry (Some 1%nat)
                (set_sc (Some 6%nat) clientReplyContext_new))));
     http := set_request
               (set_flags (set_staleIfHit true (set_refresh true RequestFlags_default))
                  sample_request)
               (set_logType LOG_TCP_REFRESH (set_storeEntry (Some 5%nat) sample_http));
     readBuffer := StoreIOBuffer_make HTTP_REQBUF_SZ 0 buf_readBuffer;
     trace := []; fresh := 100 |}.


(** *** Origin fetches *)

Definition isFwdStart (ev : Event) : bool :=
  match ev with EvFwdStart _ => true | _ => false end.

(** How many origin fetches a trace starts. *)
Definition fwdStarts (calls : list Event) : nat := List.length (filter isFwdStart calls).

(** A run from [w] starts no origin fetch; a computation never does. *)
Definition quiet_at {A : Type} (w : World) (m : M A) : Prop :=
  match m w with
  | Some (_, w') => fwdStarts (trace w') = fwdStarts (trace w)
  | None => True
  end.

Definition quiet {A : Type} (m : M A) : Prop := forall w, quiet_at w m.


(** *** The outgoing header *)

(** The entries of a header with a given id. *)
Definition entriesOf (i : HdrType) (h : HttpHeader) : HttpHeader :=
  filter (fun e => HdrType_eqb (id e) i) h.

(** An edit of the header list that leaves the entries with id [i] alone. *)
Definition keeps (i : HdrType) (f : HttpHeader -> HttpHeader) : Prop :=
  forall h, entriesOf i (f h) = entriesOf i h.





(** A miss for an HTTP/1.1 client that asked for keep-alive; the reply has
    been cloned, it is an HTTP reply whose length was not announced and
    which came with a Connection header of its own. *)
Definition cloned_world : World :=
  {| me := set_reply
             (Some (set_header [mkEntry CONNECTION "" (VStr "keep-alive");
                                mkEntry DATE "" (VTime 10)] sample_reply))
             (set_sc (Some 2%nat) clientReplyContext_new);
     http := set_request
               (set_flags (set_proxyKeepalive true RequestFlags_default) sample_request)
               (set_logType LOG_TCP_MISS (set_storeEntry (Some 1%nat) sample_http));
     readBuffer := StoreIOBuffer_make HTTP_REQBUF_SZ 0 buf_readBuffer;
     trace := []; fresh := 100 |}.
(** ** Notions used in the further statements *)

(** The calls that letting go of entry [e], read through store client [s],
    makes: none when there is no entry. *)
Definition release_calls (s : option ScId) (e : option EntryId) : list Event :=
  match e with
  | Some e' => [EvStoreUnregister s e'; EvUnlock e']
  | None => []
  end.

(** The calls [purgeEntriesByUrl] makes for the methods [ms]. *)
Definition evictions (env : Env) (ms : list MethodType) : list Event :=
  flat_map (fun m =>
              if respMaybeCacheable env m
              then (if USE_HTCP env then [EvHtcpClear None m HTCP_CLR_INVALIDATION] else [])
                   ++ [EvEvictIfFound m]
              else []) ms.


(** The calls that making a private entry [e] with store client [s] for
    method [m] makes, with the request to the store to deliver it from the
    start into buffer [b]. *)
Definition private_entry_calls (env : Env) (e : EntryId) (s : ScId) (m : MethodType)
    : list Event :=
  [EvStoreCreateEntry e RequestFlags_default m; EvStoreClientListAdd e s]
  ++ (if USE_DELAY_POOLS env then [EvSetDelayId s] else []).

Definition initial_read (w : World) (e : EntryId) (s : ScId) : Event :=
  EvStoreClientCopy (Some s) (Some e)
    (StoreIOBuffer_make (buf_length (readBuffer w)) 0 (buf_data (readBuffer w)))
    cb_SendMoreData.

(** The calls with which [processMiss] lets go of a left-over entry. *)
Definition leftover_calls (env : Env) (s : option ScId) (e : option EntryId)
    : list Event :=
  match e with
  | Some e' =>
      (if EBIT_TEST (e_flags (entries env e')) ENTRY_SPECIAL then [EvDump e'] else [])
      ++ release_calls s e
  | None => []
  end.

(** The evictions [processMiss] starts with for a method it does not know. *)
Definition other_calls (env : Env) (m : MethodType) : list Event :=
  if MethodType_eqb m METHOD_OTHER then evictions env all_methods else [].

(** The calls [createStoreEntry] makes for a new entry [e] with store
    client [s]. *)
Definition create_calls (env : Env) (e : EntryId) (s : ScId) (m : MethodType)
    (f : RequestFlags) : list Event :=
  [EvStoreCreateEntry e f m]
  ++ (if cachable f && negb (needValidation f) &&
         (MethodType_eqb m METHOD_GET || MethodType_eqb m METHOD_HEAD) &&
         mayInitiateCollapsing env
      then [EvAllowCollapsing e] else [])
  ++ [EvStoreClientListAdd e s]
  ++ (if USE_DELAY_POOLS env then [EvSetDelayId s] else []).



(** *** The pump *)

(** The client connection can still be written to: it is open and has not
    seen a pinned zero reply; a transaction without a connection passes. *)
Definition conn_usable (h : ClientHttpRequest) : bool :=
  match getConn h with
  | Some conn => isOpen conn && negb (pinning_zeroReply conn)
  | None => true
  end.





(** *** The header builder, step by step

    The header and the request as [buildReplyHeader] leaves them, for a
    context [w] whose cloned reply is [rep]. *)

(** After the stripping, the Age of a hit, and the Date added if missing. *)
Definition built_upto_age (env : Env) (w : World) (rep : HttpReply) : HttpHeader :=
  let is_hit := isTcpHit env (logType (http w)) in
  let hdr := buildReplyHeader_strip env is_hit (collapsedRevalidation (me w))
               (request (http w)) (requestSatisfactionMode (http w))
               (sline_status rep) (header rep) in
  if is_hit then
    match storeEntry (http w) with
    | Some e => buildReplyHeader_age env (entries env e) (getConn (http w)) hdr
    | None => hdr
    end
  else hdr.

(** The entry has no usable timestamp to make the missing Date from. *)
Definition undatable (env : Env) (w : World) (rep : HttpReply) : bool :=
  negb (has DATE (built_upto_age env w rep)) &&
  match storeEntry (http w) with
  | Some e => negb (0 <? timestamp (entries env e))
  | None => false
  end.

Definition built_upto_date (env : Env) (w : World) (rep : HttpReply) : HttpHeader :=
  let hdr := built_upto_age env w rep in
  if has DATE hdr then hdr
  else match storeEntry (http w) with
       | None => putTime DATE (squid_curtime env) hdr
       | Some e =>
           if 0 <? timestamp (entries env e)
           then putTime DATE (timestamp (entries env e)) hdr
           else hdr
       end.

(** The request once the authentication offers were looked at. *)
Definition built_request_auth (env : Env) (w : World) (rep : HttpReply) : HttpRequest :=
  let r := request (http w) in
  if snd (buildReplyHeader_wwwauth (logType (http w)) r (built_upto_date env w rep))
  then set_flags (set_mustKeepalive true (flags r)) r
  else r.

Definition built_keepalive (env : Env) (w : World) (rep : HttpReply) : bool :=
  buildReplyHeader_keepalive env (built_request_auth env w rep) rep (getConn (http w)).

Definition built_chunked (env : Env) (w : World) (rep : HttpReply) : bool :=
  let r := built_request_auth env w rep in
  maySendChunkedReply r rep && (bodySize env rep (method r) <? 0).

Definition built_request (env : Env) (w : World) (rep : HttpReply) : HttpRequest :=
  let r := built_request_auth env w rep in
  let r := set_flags (set_proxyKeepalive (built_keepalive env w rep) (flags r)) r in
  if built_chunked env w rep then set_flags (set_chunkedReply true (flags r)) r else r.

Definition built_header (env : Env) (w : World) (rep : HttpReply) : HttpHeader :=
  let r := built_request_auth env w rep in
  let hdr := fst (buildReplyHeader_wwwauth (logType (http w)) (request (http w))
                    (built_upto_date env w rep)) in
  let hdr := buildReplyHeader_auth env (logType (http w)) (sline_status rep) r
               (http_accel (http w)) hdr in
  let hdr := putStr CACHE_STATUS
               (buildReplyHeader_cacheStatus env (logType (http w))
                  (firstStoreLookup_ (me w))) hdr in
  let hdr := if built_chunked env w rep then putStr TRANSFER_ENCODING "chunked" hdr
             else hdr in
  let hdr := addVia (uniqueHostname env) hdr in
  let hdr := putStr CONNECTION (Connection_value (built_keepalive env w rep)) hdr in
  let hdr := buildReplyHeader_surrogate r hdr in
  httpHdrMangleList env hdr r.

Definition built (env : Env) (w : World) (rep : HttpReply) : World :=
  {| me := set_reply (Some (set_header (built_header env w rep) rep)) (me w);
     http := set_request (built_request env w rep) (http w);
     readBuffer := readBuffer w;
     trace := trace w ++ (if undatable env w rep
                          then match storeEntry (http w) with
                               | Some e => [EvBugNoDate; EvDump e]
                               | None => []
                               end
                          else []);
     fresh := fresh w |}.

(** The Date, Age and Set-Cookie entries the builder is to leave in the
    header of a reply [rep] cloned in context [w]. *)
Definition acts_as_origin (h : ClientHttpRequest) : bool :=
  match getConn h with Some c => port_actAsOrigin c | None => false end.


(** The Date entries after the stripping and the Age of a hit. *)
Definition kept_date (env : Env) (w : World) (rep : HttpReply) : HttpHeader :=
  if isTcpHit env (logType (http w)) then
    match storeEntry (http w) with
    | Some e =>
        if EBIT_TEST (e_flags (entries env e)) ENTRY_SPECIAL || acts_as_origin (http w)
        then [mkEntry DATE "" (VTime (squid_curtime env))]
        else entriesOf DATE (header rep)
    | None => entriesOf DATE (header rep)
    end
  else entriesOf DATE (header rep).

Definition expected_date (env : Env) (w : World) (rep : HttpReply) : HttpHeader :=
  match kept_date env w rep with
  | _ :: _ => kept_date env w rep
  | [] =>
      match storeEntry (http w) with
      | None => [mkEntry DATE "" (VTime (squid_curtime env))]
      | Some e =>
          if 0 <? timestamp (entries env e)
          then [mkEntry DATE "" (VTime (timestamp (entries env e)))]
          else []
      end
  end.

(** A WWW-Authenticate entry that offers a connection-oriented scheme
    (NTLM, Negotiate or Kerberos). *)
Definition offers_connection_auth (e : HttpHeaderEntry) : bool :=
  HdrType_eqb (id e) WWW_AUTHENTICATE && isConnectionAuthScheme (value e).


(** *** Cache hits *)





(** *** Further sample inputs *)






(** A hit whose client connection is closing. *)
Definition closing_world : World :=
  set_http
    {| storeEntry := Some 1%nat; request := sample_request; http_internal := false;
       done_copying := false; http_accel := false; out_offset := 0; out_size := 0;
       out_headers_sz := 0; redirect_status := 0; logType := LOG_TCP_HIT;
       err_ignored := false; al_http_code := 0; al_reply := false;
       getConn := Some {| conn_addr := 9; isOpen := false; pinning_zeroReply := false;
                          port_actAsOrigin := false; port_listenConn_open := true |};
       onlyIfCached := false; requestSatisfactionMode := false |}
    hit_world.

(** The next node asks for more of a reply whose headers were sent. *)
Definition reading_world : World :=
  set_me (set_ourNode true (set_flags_storelogiccomplete true (me sent_world))) sent_world.

(** A TRACE request with Max-Forwards: 0. *)
Definition trace_world : World :=
  set_http
    (set_request
       {| method := METHOD_TRACE; flags := RequestFlags_default; lastmod := -1;
          etag := ""; ims := -1; imslen := 0;
          req_header := [mkEntry MAX_FORWARDS "" (VInt 0)]; vary_headers := "";
          http_ver := (1, 1); peer_login := None; range := None;
          pinnedConnection := false; auth_user_request := false;
          url_scheme := PROTO_HTTP; req_storeId := "http://example.com/a";
          clientConnectionManager := None |}
       sample_http)
    fresh_world.


(** ** Proof tools *)

(** Reduction of the monad, the record projections and the setters, and
    nothing else: conditions on the environment stay as they are written.
    [mbase] is for a world opened down to its fields, [msimpl] for a world
    left abstract. *)
Ltac closed_tests :=
  repeat match goal with
         | |- context [Z.eqb ?a ?b] =>
             let v := eval vm_compute in (Z.eqb a b) in
             lazymatch v with
             | true => change (Z.eqb a b) with true
             | false => change (Z.eqb a b) with false
             end
         end.

Ltac mbase1 :=
  cbv beta iota zeta delta
    [noCache internal refresh needValidation chunkedReply accelerated intercepted
     loopDetected failOnValidationError flags_ims staleIfHit proxyKeepalive
     mustKeepalive connectionAuth connectionAuthDisabled sslBumped streamError
     cachable noCacheHack sline_status sline_protocol sline_version header hdr_sz
     content_length keep_alive date method flags lastmod etag ims imslen req_header
     vary_headers http_ver peer_login range pinnedConnection auth_user_request
     url_scheme req_storeId clientConnectionManager conn_addr isOpen
     pinning_zeroReply port_actAsOrigin port_listenConn_open storeEntry request
     http_internal done_copying http_accel out_offset out_size out_headers_sz
     redirect_status logType err_ignored al_http_code al_reply getConn onlyIfCached
     requestSatisfactionMode purgeStatus headers_sz sc reqsize reqofs ourNode reply
     old_entry old_sc old_lastmod old_etag old_reqofs old_reqsize deleting
     collapsedRevalidation flags_storelogiccomplete flags_complete flags_headersSent
     firstStoreLookup_ me http readBuffer trace fresh buf_error buf_length
     buf_offset buf_data page_id httpStatus set_refresh set_needValidation
     set_chunkedReply set_flags_ims set_staleIfHit set_proxyKeepalive
     set_mustKeepalive set_streamError set_sline_version set_header set_flags
     set_lastmod set_etag set_ims set_imslen set_req_header set_vary_headers
     set_range set_storeEntry set_request set_done_copying set_logType
     set_err_ignored set_al_http_code set_al_reply set_purgeStatus set_headers_sz
     set_sc set_reqsize set_reqofs set_ourNode set_reply set_old_entry set_old_sc
     set_old_lastmod set_old_etag set_old_reqofs set_old_reqsize set_deleting
     set_collapsedRevalidation set_flags_storelogiccomplete set_flags_complete
     set_flags_headersSent set_firstStoreLookup_ set_me set_http set_readBuffer
     set_trace set_fresh ret bind crash xassert get modify when emit upd_me upd_http
     upd_request upd_flags alloc deref isSome updateLoggingTags StoreIOBuffer_make StoreIOBuffer_empty clientBuildError HTTPMSGUNLOCK_reply
     storeClientListAdd setDelayId storeCreateEntry storeClientCopy
     clientStreamCallback errorAppendEntry
     RequestFlags_default];
  closed_tests;
  cbn [andb orb negb is_crSlave is_crNone fst snd].

Ltac mbase := mbase1; repeat (progress mbase1).

Ltac mbase_in H :=
  cbv beta iota zeta delta
    [noCache internal refresh needValidation chunkedReply accelerated intercepted
     loopDetected failOnValidationError flags_ims staleIfHit proxyKeepalive
     mustKeepalive connectionAuth connectionAuthDisabled sslBumped streamError
     cachable noCacheHack sline_status sline_protocol sline_version header hdr_sz
     content_length keep_alive date method flags lastmod etag ims imslen req_header
     vary_headers http_ver peer_login range pinnedConnection auth_user_request
     url_scheme req_storeId clientConnectionManager conn_addr isOpen
     pinning_zeroReply port_actAsOrigin port_listenConn_open storeEntry request
     http_internal done_copying http_accel out_offset out_size out_headers_sz
     redirect_status logType err_ignored al_http_code al_reply getConn onlyIfCached
     requestSatisfactionMode purgeStatus headers_sz sc reqsize reqofs ourNode reply
     old_entry old_sc old_lastmod old_etag old_reqofs old_reqsize deleting
     collapsedRevalidation flags_storelogiccomplete flags_complete flags_headersSent
     firstStoreLookup_ me http readBuffer trace fresh buf_error buf_length
     buf_offset buf_data page_id httpStatus set_refresh set_needValidation
     set_chunkedReply set_flags_ims set_staleIfHit set_proxyKeepalive
     set_mustKeepalive set_streamError set_sline_version set_header set_flags
     set_lastmod set_etag set_ims set_imslen set_req_header set_vary_headers
     set_range set_storeEntry set_request set_done_copying set_logType
     set_err_ignored set_al_http_code set_al_reply set_purgeStatus set_headers_sz
     set_sc set_reqsize set_reqofs set_ourNode set_reply set_old_entry set_old_sc
     set_old_lastmod set_old_etag set_old_reqofs set_old_reqsize set_deleting
     set_collapsedRevalidation set_flags_storelogiccomplete set_flags_complete
     set_flags_headersSent set_firstStoreLookup_ set_me set_http set_readBuffer
     set_trace set_fresh ret bind crash xassert get modify when emit upd_me upd_http
     upd_request upd_flags alloc deref isSome updateLoggingTags StoreIOBuffer_make StoreIOBuffer_empty clientBuildError HTTPMSGUNLOCK_reply
     storeClientListAdd setDelayId storeCreateEntry storeClientCopy
     clientStreamCallback errorAppendEntry
     RequestFlags_default] in H;
  cbn [andb orb negb is_crSlave is_crNone fst snd] in H.

(** Bring the equations among the hypotheses to the same reduced form. *)
Ltac mhyps :=
  repeat match goal with
         | H : _ = _ |- _ => progress (mbase_in H)
         end.


Ltac msimpl :=
  cbn beta iota zeta delta
    [noCache internal refresh needValidation chunkedReply accelerated intercepted
     loopDetected failOnValidationError flags_ims staleIfHit proxyKeepalive
     mustKeepalive connectionAuth connectionAuthDisabled sslBumped streamError
     cachable noCacheHack sline_status sline_protocol sline_version header hdr_sz
     content_length keep_alive date method flags lastmod etag ims imslen req_header
     vary_headers http_ver peer_login range pinnedConnection auth_user_request
     url_scheme req_storeId clientConnectionManager conn_addr isOpen
     pinning_zeroReply port_actAsOrigin port_listenConn_open storeEntry request
     http_internal done_copying http_accel out_offset out_size out_headers_sz
     redirect_status logType err_ignored al_http_code al_reply getConn onlyIfCached
     requestSatisfactionMode purgeStatus headers_sz sc reqsize reqofs ourNode reply
     old_entry old_sc old_lastmod old_etag old_reqofs old_reqsize deleting
     collapsedRevalidation flags_storelogiccomplete flags_complete flags_headersSent
     firstStoreLookup_ me http readBuffer trace fresh buf_error buf_length
     buf_offset buf_data page_id httpStatus set_refresh set_needValidation
     set_chunkedReply set_flags_ims set_staleIfHit set_proxyKeepalive
     set_mustKeepalive set_streamError set_sline_version set_header set_flags
     set_lastmod set_etag set_ims set_imslen set_req_header set_vary_headers
     set_range set_storeEntry set_request set_done_copying set_logType
     set_err_ignored set_al_http_code set_al_reply set_purgeStatus set_headers_sz
     set_sc set_reqsize set_reqofs set_ourNode set_reply set_old_entry set_old_sc
     set_old_lastmod set_old_etag set_old_reqofs set_old_reqsize set_deleting
     set_collapsedRevalidation set_flags_storelogiccomplete set_flags_complete
     set_flags_headersSent set_firstStoreLookup_ set_me set_http set_readBuffer
     set_trace set_fresh ret bind crash xassert get modify when emit upd_me upd_http
     upd_request upd_flags alloc deref isSome updateLoggingTags fst snd
     StoreIOBuffer_make StoreIOBuffer_empty clientBuildError HTTPMSGUNLOCK_reply
     storeClientListAdd setDelayId storeCreateEntry storeClientCopy
     clientStreamCallback errorAppendEntry andb orb negb is_crSlave is_crNone].

(** Open a world down to the request flags, so that projections compute. *)
Ltac open_world w :=
  let c := fresh "c" in
  let h := fresh "h" in
  let rq := fresh "rq" in
  let fl := fresh "fl" in
  destruct w as [c h ? ? ?];
  destruct c; destruct h as [? rq ? ? ? ? ? ? ? ? ? ? ? ? ? ?];
  destruct rq as [? fl ? ? ? ? ? ? ? ? ? ? ? ? ? ?]; destruct fl.

(** Case analysis on the tests a stuck computation is waiting for. *)
Ltac split_ifs :=
  repeat match goal with
         | |- context [if ?b then _ else _] => destruct b eqn:?
         | |- context [match ?b with STORE_OK => _ | STORE_PENDING => _ end] =>
             destruct b eqn:?
         | |- context [match ?b with Some _ => _ | None => _ end] => destruct b eqn:?
         end.

(** A run whose first action finishes goes on with the rest. *)
Lemma bind_Some {A B : Type} (m : M A) (k : A -> M B) (w w' : World) (a : A) :
  m w = Some (a, w') -> bind m k w = k a w'.
Proof. intros H. unfold bind. rewrite H. reflexivity. Qed.

(** The calls made since [tr], gathered in one list. *)
Ltac norm_trace := rewrite <- ?app_assoc; cbn [app].



(** The test a stuck run is waiting for: the scrutinee in evaluation
    position. *)
Ltac stuck t :=
  lazymatch t with
  | match ?c with Some _ => _ | None => _ end => stuck c
  | if ?c then _ else _ => stuck c
  | match ?c with STORE_OK => _ | STORE_PENDING => _ end => stuck c
  | (match ?c with Some _ => _ | None => _ end) _ => stuck c
  | (if ?c then _ else _) _ => stuck c
  | (match ?c with STORE_OK => _ | STORE_PENDING => _ end) _ => stuck c
  | (let (_, _) := ?c in _) => stuck c
  | (let (_, _) := ?c in _) _ => stuck c
  | _ => t
  end.

(** The first test of a compound condition. *)
Ltac atom c :=
  lazymatch c with
  | negb ?a => atom a
  | andb ?a _ => atom a
  | orb ?a _ => atom a
  | _ => c
  end.

Ltac run_side :=
  lazymatch goal with
  | |- ?l = _ => l
  | |- ex (fun _ => ?l = _ /\ _) => l
  | |- ex (fun _ => ?l = _) => l
  | |- ex (fun _ => ex (fun _ => ?l = _ /\ _)) => l
  | |- match ?l with Some _ => _ | None => True end => l
  end.

(** Case analysis on that test. *)
Ltac mcase :=
  let l := run_side in
  let c := stuck l in
  lazymatch c with
  | l => fail "the run is not waiting for a test"
  | _ => let a := atom c in destruct a eqn:?; mbase
  end.

(** Run: reduce, settle the test in evaluation position from a hypothesis
    that decides it, and go on. *)
Ltac mrun :=
  mhyps; subst; mbase;
  repeat (let l := run_side in
          let c := stuck l in
          let a := atom c in
          lazymatch c with
          | l => fail "the run is not waiting for a test"
          | _ => idtac
          end;
          match goal with
          | H : c = _ |- _ => rewrite H
          | H : a = _ |- _ => rewrite H
          end; mbase).

Lemma releases_app (a b : list Event) : releases (a ++ b) = releases a ++ releases b.
Proof. unfold releases. apply flat_map_app. Qed.

(** ** Saving and restoring the store context *)

(** C10, as amended: for a context with no saved shadow that holds a store
    client, [saveState] followed by [restoreState] runs to the end, makes no
    call on the store, and changes nothing but the shadow fields, which are
    left cleared; so the attached entry, the store client, [reqofs],
    [reqsize] and the request's [lastmod] and [etag] are what they were. *)
Theorem saveState_restoreState_identity (w : World) (s : ScId) :
  old_sc (me w) = None ->
  sc (me w) = Some s ->
  exists w',
    (saveState ;; restoreState) w = Some (tt, w') /\
    w' = set_me (clearShadow (me w)) w /\
    storeEntry (http w') = storeEntry (http w) /\
    sc (me w') = sc (me w) /\
    reqofs (me w') = reqofs (me w) /\
    reqsize (me w') = reqsize (me w) /\
    lastmod (request (http w')) = lastmod (request (http w)) /\
    etag (request (http w')) = etag (request (http w)) /\
    old_entry (me w') = None /\ old_sc (me w') = None /\
    old_lastmod (me w') = -1 /\ old_etag (me w') = "" /\
    old_reqofs (me w') = 0 /\ old_reqsize (me w') = 0 /\
    trace w' = trace w.
Proof.
  intros Hold Hsc.
  destruct w as [c h rb tr fr]. destruct c; destruct h as [se rq]; destruct rq.
  cbn in Hold, Hsc. subst.
  eexists. split; [vm_compute; reflexivity|]. vm_compute. repeat split; reflexivity.
Qed.

Lemma saveState_restoreState_identity_witness :
  exists w',
    (saveState ;; restoreState) hit_world = Some (tt, w') /\
    sc (me w') = Some 2%nat /\ storeEntry (http w') = Some 1%nat.
Proof.
  destruct (saveState_restoreState_identity hit_world 2%nat eq_refl eq_refl)
    as [w' [H [_ [H1 [H2 _]]]]].
  exists w'. repeat split; assumption.
Defined.

(** C10, as stated, fails on a context that holds no store client: the
    context the constructor makes has no saved shadow, and there
    [restoreState] stops on its first assertion. *)
Lemma saveState_restoreState_without_sc :
  old_sc (me fresh_world) = None /\
  (saveState ;; restoreState) fresh_world = None.
Proof. split; vm_compute; reflexivity. Qed.

(** ** The [deleting] flag *)




(** ** The stream status *)

(** The transfer-done check reads the state and answers 0 or 1. *)
Lemma checkTransferDone_pure (env : Env) (w w' : World) (d : Z) :
  checkTransferDone env w = Some (d, w') -> w' = w /\ (d = 0 \/ d = 1).
Proof.
  open_world w.
  unfold checkTransferDone, storeOKTransferDone, storeNotOKTransferDone.
  mbase.
  split_ifs; intros H; inversion H; auto.
Qed.

(** It runs to the end when the assertions of the two helpers hold: a
    complete object has a length that covers the headers, a pending one has
    its memory object. *)
Lemma checkTransferDone_total (env : Env) (w : World) (e : EntryId) :
  storeEntry (http w) = Some e ->
  (store_status (entries env e) = STORE_OK ->
   0 <= objectLen (entries env e) /\ headers_sz (me w) <= objectLen (entries env e)) ->
  (store_status (entries env e) = STORE_PENDING -> mem_obj (entries env e) = true) ->
  exists d, checkTransferDone env w = Some (d, w).
Proof.
  open_world w. cbn. intros He Hok Hpend. subst.
  unfold checkTransferDone, storeOKTransferDone, storeNotOKTransferDone.
  mbase.
  match goal with |- context [if ?b then _ else _] => destruct b end;
    [eexists; mbase; reflexivity|].
  match goal with |- context [if ?b then _ else _] => destruct b end;
    [eexists; mbase; reflexivity|].
  destruct (store_status (entries env e)).
  - destruct (Hok eq_refl) as [H1 H2].
    apply Z.leb_le in H1. apply Z.leb_le in H2. mbase. rewrite H1. mbase. rewrite H2.
    mbase. split_ifs; eexists; mbase; reflexivity.
  - rewrite (Hpend eq_refl). mbase.
    split_ifs; eexists; mbase; reflexivity.
Qed.

(** C4, as amended: [replyStatus] answers FAILED when no entry is attached
    and when the entry is aborted.  Otherwise, with [done] the answer of
    the transfer-done check: when the transfer is finished ([done] is not 0
    or the [complete] flag is set) it answers UNPLANNED_COMPLETE for an
    entry with BAD_LENGTH, else FAILED when [done] is 0, else
    UNPLANNED_COMPLETE when the expected body size is known and the client
    got less, else COMPLETE; the reply-size limit is looked at only when
    the transfer is not finished, where an oversized body gives FAILED and
    anything else NONE.  So NONE is the answer exactly when the transfer is
    not finished and the body is within the limit. *)
Theorem replyStatus_cases (env : Env) (w : World) :
  (storeEntry (http w) = None -> replyStatus env w = Some (STREAM_FAILED, w)) /\
  (forall e, storeEntry (http w) = Some e ->
     EBIT_TEST (e_flags (entries env e)) ENTRY_ABORTED = true ->
     replyStatus env w = Some (STREAM_FAILED, w)) /\
  (forall e done, storeEntry (http w) = Some e ->
     EBIT_TEST (e_flags (entries env e)) ENTRY_ABORTED = false ->
     checkTransferDone env w = Some (done, w) ->
     let finished := negb (done =? 0) || flags_complete (me w) in
     let bad_length := EBIT_TEST (e_flags (entries env e)) ENTRY_BAD_LENGTH in
     let expected :=
       bodySize env (baseReply (entries env e)) (method (request (http w))) in
     (finished = true -> bad_length = true ->
      replyStatus env w = Some (STREAM_UNPLANNED_COMPLETE, w)) /\
     (finished = true -> bad_length = false -> done = 0 ->
      replyStatus env w = Some (STREAM_FAILED, w)) /\
     (done <> 0 -> bad_length = false -> 0 <= expected -> out_offset (http w) < expected ->
      replyStatus env w = Some (STREAM_UNPLANNED_COMPLETE, w)) /\
     (done <> 0 -> bad_length = false -> expected < 0 \/ expected <= out_offset (http w) ->
      replyStatus env w = Some (STREAM_COMPLETE, w)) /\
     (forall rep, finished = false -> reply (me w) = Some rep ->
        let too_large :=
          receivedBodyTooLarge env rep (request (http w)) (out_offset (http w) - 4096) in
        replyStatus env w =
          Some (if too_large then STREAM_FAILED else STREAM_NONE, w)) /\
     (forall rep, reply (me w) = Some rep ->
        (replyStatus env w = Some (STREAM_NONE, w) <->
         finished = false /\
         receivedBodyTooLarge env rep (request (http w)) (out_offset (http w) - 4096)
           = false))).
Proof.
  split; [|split].
  - intros H. unfold replyStatus. msimpl. rewrite H. reflexivity.
  - intros e He Hab. unfold replyStatus. msimpl. rewrite He. msimpl. rewrite Hab.
    reflexivity.
  - intros e done He Hab Hdone finished bad_length expected.
    assert (Hrun : replyStatus env w =
      (if finished then
         if bad_length then ret STREAM_UNPLANNED_COMPLETE
         else if done =? 0 then ret STREAM_FAILED
         else if (0 <=? expected) && negb (gotEnough (http w) expected)
              then ret STREAM_UNPLANNED_COMPLETE
              else ret STREAM_COMPLETE
       else
         rep <- deref (reply (me w)) ;;
         if receivedBodyTooLarge env rep (request (http w)) (out_offset (http w) - 4096)
         then ret STREAM_FAILED
         else ret STREAM_NONE) w).
    { unfold replyStatus. unfold bind at 1. unfold get at 1. msimpl.
      rewrite He. msimpl. rewrite Hab.
      rewrite (bind_Some _ _ _ _ _ Hdone). reflexivity. }
    rewrite Hrun. clear Hrun.
    split; [|split; [|split; [|split; [|split]]]].
    + intros -> ->. reflexivity.
    + intros -> -> ->. reflexivity.
    + intros Hd -> H0 Hlt.
      assert (finished = true) as ->.
      { unfold finished. apply Z.eqb_neq in Hd. rewrite Hd. reflexivity. }
      apply Z.eqb_neq in Hd. rewrite Hd.
      unfold gotEnough.
      apply Z.leb_le in H0. rewrite H0.
      apply Z.leb_gt in Hlt. rewrite Hlt. reflexivity.
    + intros Hd -> Hexp.
      assert (finished = true) as ->.
      { unfold finished. apply Z.eqb_neq in Hd. rewrite Hd. reflexivity. }
      apply Z.eqb_neq in Hd. rewrite Hd.
      unfold gotEnough.
      destruct Hexp as [Hneg | Hge].
      * apply Z.leb_gt in Hneg. rewrite Hneg. reflexivity.
      * apply Z.leb_le in Hge. rewrite Hge. rewrite andb_false_r. reflexivity.
    + intros rep -> Hrep. msimpl. rewrite Hrep. msimpl.
      destruct (receivedBodyTooLarge _ _ _ _); reflexivity.
    + intros rep Hrep. split.
      * destruct finished.
        -- intros H. exfalso. revert H.
           destruct bad_length; [discriminate|].
           destruct (done =? 0); [discriminate|].
           destruct ((0 <=? expected) && _); discriminate.
        -- msimpl. rewrite Hrep. msimpl.
           destruct (receivedBodyTooLarge _ _ _ _); [discriminate|auto].
      * intros [-> Hl]. msimpl. rewrite Hrep. msimpl. rewrite Hl. reflexivity.
Qed.

Lemma replyStatus_cases_witness :
  replyStatus limit_env sent_world = Some (STREAM_COMPLETE, sent_world).
Proof.
  destruct (replyStatus_cases limit_env sent_world) as [_ [_ H]].
  assert (Hd : checkTransferDone limit_env sent_world = Some (1, sent_world))
    by (vm_compute; reflexivity).
  destruct (H 1%nat 1 eq_refl eq_refl Hd) as [_ [_ [_ [Hc _]]]].
  apply Hc; [discriminate | reflexivity | left; reflexivity].
Defined.

(** C4, as stated, fails for a body over the reply-size limit once the
    transfer is finished: with a limit of 50 bytes and 5000 body bytes
    written from a complete object, [replyStatus] answers COMPLETE, not
    FAILED. *)
Lemma replyStatus_too_large_but_complete :
  reply (me sent_world) = Some sample_reply /\
  receivedBodyTooLarge limit_env sample_reply (request (http sent_world))
    (out_offset (http sent_world) - 4096) = true /\
  replyStatus limit_env sent_world = Some (STREAM_COMPLETE, sent_world).
Proof. repeat split; vm_compute; reflexivity. Qed.

(** ** Conditional requests *)





(** ** Lookup and classification *)

(** C3: [identifyStoreObject] applies the rules in the order of the
    specification.  An external no-cache request makes no store lookup,
    records the detail "no-cache" (when it is the first) and goes on as a
    MISS with no entry.  Any other request queries the store, records the
    detail of the lookup, and goes on with the tag and the entry that the
    ordered rules [classify] give: no entry, MISS; offline, HIT; redirect,
    forgotten and REDIRECT; not valid to send, forgotten and MISS; SPECIAL,
    HIT; no-cache, forgotten and CLIENT_REFRESH_MISS; collapsing required
    and refused, forgotten and MISS; else HIT. *)
Theorem identifyStoreObject_classifies (env : Env) (w : World) :
  let r := request (http w) in
  (noCache (flags r) = true -> internal (flags r) = false ->
   identifyStoreObject env w = doGetMoreData env (classified env w [] None "no-cache") /\
   logType (http (classified env w [] None "no-cache")) = LOG_TCP_MISS /\
   storeEntry (http (classified env w [] None "no-cache")) = None /\
   ~ In (EvStoreGetPublicByRequest ksDefault)
        (skipn (List.length (trace w)) (trace (classified env w [] None "no-cache"))) /\
   (firstStoreLookup_ (me w) = None ->
    firstStoreLookup_ (me (classified env w [] None "no-cache")) = Some "no-cache")) /\
  (negb (noCache (flags r)) || internal (flags r) = true ->
   let found := storeGetPublicByRequest env r ksDefault in
   identifyStoreObject env w =
     doGetMoreData env
       (classified env w [EvStoreGetPublicByRequest ksDefault] found
          (storeLookupString env (isSome found)))).
Proof.
  intros r. subst r. open_world w. split.
  - intros Hnc Hint. mhyps. subst. split; [|split; [|split; [|split]]].
    + unfold identifyStoreObject, identifyFoundObject, detailStoreLookup, classified.
      mbase. mcase; reflexivity.
    + reflexivity.
    + reflexivity.
    + unfold classified. mbase. rewrite skipn_app, skipn_all, Nat.sub_diag.
      cbn. intros [H|[]]. discriminate.
    + intros Hf. mhyps. subst. reflexivity.
  - intros Hc found. subst found. mhyps.
    unfold identifyStoreObject, identifyFoundObject, detailStoreLookup, forgetHit,
      classified, classify, forget_calls.
    mrun.
    repeat mcase; cbn [app]; rewrite <- ?app_assoc; cbn [app]; reflexivity.
Qed.

Lemma identifyStoreObject_classifies_witness :
  identifyStoreObject sample_env nocache_world =
    doGetMoreData sample_env (classified sample_env nocache_world [] None "no-cache").
Proof.
  destruct (identifyStoreObject_classifies sample_env nocache_world) as [H _].
  destruct (H eq_refl eq_refl) as [Hrun _]. exact Hrun.
Defined.

(** ** Purging *)



(** ** The reply to the revalidation request *)




(** ** Origin fetches and the slave of a collapsed revalidation *)

Lemma fwdStarts_app (a b : list Event) : fwdStarts (a ++ b) = (fwdStarts a + fwdStarts b)%nat.
Proof. unfold fwdStarts. rewrite filter_app, length_app. reflexivity. Qed.

Lemma quiet_ret {A : Type} (a : A) : quiet (ret a).
Proof. intros w. reflexivity. Qed.

Lemma quiet_crash {A : Type} : quiet (@crash A).
Proof. intros w. exact I. Qed.

Lemma quiet_get : quiet get.
Proof. intros w. reflexivity. Qed.

Lemma quiet_at_bind {A B : Type} (m : M A) (k : A -> M B) (w : World) :
  quiet_at w m ->
  (forall a w1, m w = Some (a, w1) -> quiet_at w1 (k a)) ->
  quiet_at w (bind m k).
Proof.
  unfold quiet_at, bind. intros Hm Hk.
  destruct (m w) as [[a w1]|] eqn:E; [|exact I].
  specialize (Hk a w1 eq_refl).
  destruct (k a w1) as [[b w2]|]; [|exact I].
  congruence.
Qed.

Lemma quiet_bind {A B : Type} (m : M A) (k : A -> M B) :
  quiet m -> (forall a, quiet (k a)) -> quiet (bind m k).
Proof. intros Hm Hk w. apply quiet_at_bind; [apply Hm|]. intros a w1 _. apply Hk. Qed.


Lemma quiet_xassert (b : bool) : quiet (xassert b).
Proof. destruct b; [apply quiet_ret | apply quiet_crash]. Qed.

Lemma quiet_deref {A : Type} (p : option A) : quiet (deref p).
Proof. destruct p; [apply quiet_ret | apply quiet_crash]. Qed.

Lemma quiet_when (b : bool) (m : M unit) : quiet m -> quiet (when b m).
Proof. intros H. destruct b; [exact H | apply quiet_ret]. Qed.

Lemma quiet_emit (e : Event) : isFwdStart e = false -> quiet (emit e).
Proof.
  intros H w. unfold quiet_at, emit, modify, set_trace. cbn [trace].
  rewrite fwdStarts_app. unfold fwdStarts at 2. cbn [filter]. rewrite H.
  cbn [List.length]. lia.
Qed.

Lemma quiet_upd_me (f : clientReplyContext -> clientReplyContext) : quiet (upd_me f).
Proof. intros w. reflexivity. Qed.

Lemma quiet_upd_http (f : ClientHttpRequest -> ClientHttpRequest) : quiet (upd_http f).
Proof. intros w. reflexivity. Qed.

Lemma quiet_upd_request (f : HttpRequest -> HttpRequest) : quiet (upd_request f).
Proof. intros w. reflexivity. Qed.

Lemma quiet_upd_flags (f : RequestFlags -> RequestFlags) : quiet (upd_flags f).
Proof. intros w. reflexivity. Qed.

Lemma quiet_updateLoggingTags (t : LogTags_ot) : quiet (updateLoggingTags t).
Proof. intros w. reflexivity. Qed.

Lemma quiet_alloc : quiet alloc.
Proof. intros w. reflexivity. Qed.

Lemma quiet_modify_readBuffer (f : World -> StoreIOBuffer) :
  quiet (modify (fun w' => set_readBuffer (f w') w')).
Proof. intros w. reflexivity. Qed.

Create HintDb quiet.

#[local] Hint Resolve quiet_ret quiet_crash quiet_get quiet_bind quiet_xassert quiet_deref
  quiet_when quiet_upd_me quiet_upd_http quiet_upd_request quiet_upd_flags
  quiet_updateLoggingTags quiet_alloc quiet_modify_readBuffer : quiet.
#[local] Hint Extern 1 (quiet (emit _)) => apply quiet_emit; reflexivity : quiet.
#[local] Hint Extern 4 (quiet (if ?b then _ else _)) => destruct b : quiet.
#[local] Hint Extern 4 (quiet (match ?x with Some _ => _ | None => _ end)) =>
  destruct x : quiet.
#[local] Hint Extern 4 (quiet (match ?x with ERR_NONE => _ | _ => _ end)) =>
  destruct x : quiet.

Ltac quiet_auto := auto 200 with quiet.

Lemma quiet_removeStoreReference (scp : option ScId) (ep : option EntryId) :
  quiet (removeStoreReference scp ep).
Proof. unfold removeStoreReference. quiet_auto. Qed.
#[local] Hint Resolve quiet_removeStoreReference : quiet.

Lemma quiet_removeClientStoreReference : quiet removeClientStoreReference.
Proof. unfold removeClientStoreReference. quiet_auto. Qed.
#[local] Hint Resolve quiet_removeClientStoreReference : quiet.

Lemma quiet_restoreState : quiet restoreState.
Proof. unfold restoreState. quiet_auto. Qed.
#[local] Hint Resolve quiet_restoreState : quiet.

Lemma quiet_saveState : quiet saveState.
Proof. unfold saveState. quiet_auto. Qed.
#[local] Hint Resolve quiet_saveState : quiet.

Lemma quiet_startError (env : Env) (err : ErrorState) : quiet (startError env err).
Proof.
  unfold startError, createStoreEntry, triggerInitialStoreRead, errorAppendEntry,
    storeCreateEntry, storeClientListAdd, setDelayId, storeClientCopy.
  quiet_auto.
Qed.
#[local] Hint Resolve quiet_startError : quiet.

Lemma quiet_buildReplyHeader (env : Env) : quiet (buildReplyHeader env).
Proof. unfold buildReplyHeader. quiet_auto. Qed.
#[local] Hint Resolve quiet_buildReplyHeader : quiet.

Lemma quiet_processReplyAccess (env : Env) : quiet (processReplyAccess env).
Proof.
  unfold processReplyAccess, processReplyAccessResult, sendBodyTooLargeError,
    HTTPMSGUNLOCK_reply, clientStreamCallback.
  quiet_auto.
Qed.
#[local] Hint Resolve quiet_processReplyAccess : quiet.

Lemma quiet_sendMoreData (env : Env) (result : StoreIOBuffer) :
  quiet (sendMoreData env result).
Proof.
  unfold sendMoreData, errorInStream, sendStreamError, pushStreamData, cloneReply,
    clientStreamCallback, setDelayId.
  quiet_auto.
Qed.
#[local] Hint Resolve quiet_sendMoreData : quiet.

Lemma quiet_sendClientOldEntry (env : Env) : quiet (sendClientOldEntry env).
Proof. unfold sendClientOldEntry. quiet_auto. Qed.

Lemma quiet_sendClientUpstreamResponse (env : Env) :
  quiet (sendClientUpstreamResponse env).
Proof. unfold sendClientUpstreamResponse. quiet_auto. Qed.
#[local] Hint Resolve quiet_sendClientOldEntry quiet_sendClientUpstreamResponse : quiet.




(** ** The header builder *)

Lemma HdrType_eqb_eq (a b : HdrType) : HdrType_eqb a b = true <-> a = b.
Proof. destruct a, b; split; intros H; try reflexivity; discriminate H. Qed.

Lemma HdrType_eqb_neq (a b : HdrType) : a <> b -> HdrType_eqb a b = false.
Proof.
  intros H. destruct (HdrType_eqb a b) eqn:E; [|reflexivity].
  apply HdrType_eqb_eq in E. contradiction.
Qed.

(** What the steps of the builder do to the entries chosen by a test [p]
    that only entries with id [I] pass. *)
Section Selection.

Variable env : Env.
Variable p : HttpHeaderEntry -> bool.
Variable I : HdrType.
Hypothesis p_id : forall e, p e = true -> id e = I.

Lemma sel_other (e : HttpHeaderEntry) : id e <> I -> p e = false.
Proof.
  intros H. destruct (p e) eqn:E; [|reflexivity]. apply p_id in E. contradiction.
Qed.

Lemma sel_entriesOf (h : HttpHeader) : filter p (entriesOf I h) = filter p h.
Proof.
  unfold entriesOf. induction h as [|x h IH]; [reflexivity|].
  cbn [filter]. destruct (HdrType_eqb (id x) I) eqn:E.
  - cbn [filter]. rewrite IH. reflexivity.
  - rewrite IH. rewrite sel_other; [reflexivity|].
    intros Hx. apply HdrType_eqb_eq in Hx. congruence.
Qed.

Lemma sel_keeps (f : HttpHeader -> HttpHeader) (h : HttpHeader) :
  keeps I f -> filter p (f h) = filter p h.
Proof.
  intros H. rewrite <- (sel_entriesOf (f h)), H. apply sel_entriesOf.
Qed.

Lemma sel_delById (i : HdrType) (h : HttpHeader) :
  i <> I -> filter p (delById i h) = filter p h.
Proof.
  intros H. unfold delById. induction h as [|x h IH]; [reflexivity|].
  cbn [filter]. destruct (HdrType_eqb (id x) i) eqn:E; cbn [negb].
  - rewrite IH. rewrite sel_other; [reflexivity|].
    apply HdrType_eqb_eq in E. congruence.
  - cbn [filter]. rewrite IH. reflexivity.
Qed.

Lemma sel_put (h : HttpHeader) (e : HttpHeaderEntry) :
  filter p (h ++ [e]) = filter p h ++ (if p e then [e] else []).
Proof. rewrite filter_app. reflexivity. Qed.

Lemma sel_put_other (h : HttpHeader) (e : HttpHeaderEntry) :
  id e <> I -> filter p (h ++ [e]) = filter p h.
Proof. intros H. rewrite sel_put, sel_other by exact H. apply app_nil_r. Qed.


Lemma sel_scanWwwAuthenticate (d : bool) (h : HttpHeader) :
  I <> WWW_AUTHENTICATE ->
  filter p (fst (scanWwwAuthenticate d h)) = filter p h.
Proof.
  intros H. induction h as [|x h IH]; [reflexivity|].
  cbn [scanWwwAuthenticate].
  destruct (HdrType_eqb (id x) WWW_AUTHENTICATE && isConnectionAuthScheme (value x))
    eqn:E.
  - destruct d; [|reflexivity].
    rewrite IH. cbn [filter]. rewrite sel_other; [reflexivity|].
    apply andb_prop in E. destruct E as [E _]. apply HdrType_eqb_eq in E. congruence.
  - cbn [fst filter]. rewrite IH. reflexivity.
Qed.



Lemma sel_wwwauth (tag : LogTags_ot) (request : HttpRequest) (h : HttpHeader) :
  I <> WWW_AUTHENTICATE -> I <> PROXY_SUPPORT ->
  p (mkEntry CONNECTION "" (VStr "Proxy-support")) = false ->
  filter p (fst (buildReplyHeader_wwwauth tag request h)) = filter p h.
Proof.
  intros H1 H2 H3. unfold buildReplyHeader_wwwauth, putStr.
  destruct (negb (LogTags_eqb tag LOG_TCP_DENIED) && has WWW_AUTHENTICATE h);
    [|reflexivity].
  pose proof (sel_scanWwwAuthenticate (connectionAuthDisabled (flags request)) h H1)
    as Hs.
  destruct (snd (scanWwwAuthenticate _ h)); [|exact Hs].
  destruct (negb (accelerated (flags request)) && negb (intercepted (flags request)));
    [|exact Hs].
  cbn [fst]. rewrite sel_put, H3, app_nil_r.
  rewrite sel_put_other by (cbn; congruence). exact Hs.
Qed.

Lemma sel_auth (tag : LogTags_ot) (status : StatusCode) (request : HttpRequest)
    (accel : bool) (h : HttpHeader) :
  (forall r a b, keeps I (fun x => AddReplyAuthHeader env x r a b)) ->
  filter p (buildReplyHeader_auth env tag status request accel h) = filter p h.
Proof.
  intros H. unfold buildReplyHeader_auth.
  repeat match goal with |- context [if ?b then _ else _] => destruct b end;
    try reflexivity;
    apply (sel_keeps (fun x => AddReplyAuthHeader env x _ _ _)); apply H.
Qed.


End Selection.








(** ** Store references *)

(** X1: [removeClientStoreReference] always finishes.  With an entry
    attached it unregisters the store client from it, unlocks it, and
    clears both pointers; with none attached it changes nothing, the store
    client pointer included.  Doing it again changes nothing more. *)
Theorem removeClientStoreReference_releases (w : World) :
  exists w',
    removeClientStoreReference w = Some (tt, w') /\
    w' = set_trace (trace w ++ release_calls (sc (me w)) (storeEntry (http w)))
           (set_http (set_storeEntry None (http w))
              (set_me (set_sc (if isSome (storeEntry (http w)) then None else sc (me w))
                         (me w)) w)) /\
    removeClientStoreReference w' = Some (tt, w').
Proof.
  open_world w.
  unfold removeClientStoreReference, removeStoreReference.
  mbase. mcase; cbn [release_calls].
  - eexists. split; [reflexivity|]. split; [norm_trace; reflexivity | mbase; reflexivity].
  - eexists. split; [reflexivity|]. rewrite app_nil_r.
    split; [reflexivity | mbase; reflexivity].
Qed.

(** X2: the destructor always finishes.  It sets [deleting], lets go of
    the attached entry and then of the saved one (each is unregistered and
    unlocked, if there), and drops the reply; a callback the store delivers
    afterwards finds [deleting] set and changes nothing. *)
Theorem destructor_releases_everything (env : Env) (result : StoreIOBuffer) (w : World) :
  exists w',
    clientReplyContext_delete w = Some (tt, w') /\
    deleting (me w') = true /\
    storeEntry (http w') = None /\
    old_entry (me w') = None /\
    reply (me w') = None /\
    trace w' = trace w ++ release_calls (sc (me w)) (storeEntry (http w))
                       ++ release_calls (old_sc (me w)) (old_entry (me w)) /\
    sendMoreData env result w' = Some (tt, w') /\
    handleIMSReply env result w' = Some (tt, w') /\
    cacheHit env result w' = Some (tt, w').
Proof.
  open_world w.
  unfold clientReplyContext_delete, removeClientStoreReference, removeStoreReference.
  mbase. mcase; mcase; cbn [release_calls];
    (eexists; split; [reflexivity|]); mbase;
    unfold sendMoreData, handleIMSReply, cacheHit; mbase;
    rewrite ?app_nil_r; norm_trace; repeat split; reflexivity.
Qed.

(** ** Entries the engine makes itself *)

(** X3: [createStoreEntry] always finishes: it creates an entry for the
    given method and flags, registers a new store client with it, attaches
    both, and puts the read offsets back to zero with the store logic
    marked complete.  The entry is offered for collapsing exactly when the
    flags say cachable and not in need of validation, the method is GET or
    HEAD, and collapsing may be initiated.  The entry attached before is
    not let go of. *)
Theorem createStoreEntry_attaches_new_entry
    (env : Env) (m : MethodType) (f : RequestFlags) (w : World) :
  exists w' calls,
    createStoreEntry env m f w = Some (tt, w') /\
    storeEntry (http w') = Some (fresh w) /\
    sc (me w') = Some (S (fresh w)) /\
    reqofs (me w') = 0 /\
    reqsize (me w') = 0 /\
    flags_storelogiccomplete (me w') = true /\
    trace w' = trace w ++ EvStoreCreateEntry (fresh w) f m :: calls /\
    (In (EvAllowCollapsing (fresh w)) calls <->
     cachable f && negb (needValidation f) && is_GET_or_HEAD m &&
     mayInitiateCollapsing env = true) /\
    In (EvStoreClientListAdd (fresh w) (S (fresh w))) calls /\
    (forall s e, ~ In (EvStoreUnregister s e) calls) /\
    (forall e, ~ In (EvUnlock e) calls).
Proof.
  open_world w. destruct f.
  unfold createStoreEntry, is_GET_or_HEAD. mbase.
  destruct (_ && _ && _ && _) eqn:Hc; mbase;
    destruct (USE_DELAY_POOLS env); mbase;
    (eexists; eexists; split; [reflexivity|]); mbase;
    norm_trace; (repeat split; try reflexivity);
    cbn [In]; try tauto; try (intros; intuition discriminate).
Qed.


(** ** Purging by URL *)

Lemma purgeEntriesByUrl_from_run (env : Env) (ms : list MethodType) (w : World) :
  purgeEntriesByUrl_from env ms w = Some (tt, set_trace (trace w ++ evictions env ms) w).
Proof.
  revert w. induction ms as [|m ms IH]; intros w.
  - cbn. rewrite app_nil_r. destruct w. reflexivity.
  - cbn [purgeEntriesByUrl_from evictions flat_map]. fold (evictions env ms).
    unfold bind at 1.
    destruct (respMaybeCacheable env m); [destruct (USE_HTCP env)|];
      cbn -[evictions]; rewrite IH; destruct w; cbn -[evictions];
      rewrite <- ?app_assoc; reflexivity.
Qed.

Lemma fwdStarts_evictions (env : Env) (ms : list MethodType) :
  fwdStarts (evictions env ms) = 0%nat.
Proof.
  induction ms as [|m ms IH]; [reflexivity|].
  cbn [evictions flat_map]. rewrite fwdStarts_app. fold (evictions env ms). rewrite IH.
  destruct (respMaybeCacheable env m); [destruct (USE_HTCP env)|]; reflexivity.
Qed.

Lemma all_methods_complete (m : MethodType) : In m all_methods.
Proof. destruct m; cbn; tauto. Qed.

(** X5: [purgeAllCached] always finishes and changes nothing in the
    context.  It asks the store to evict the entry of the request's URL
    for every method whose responses may be cacheable and for no other
    method, announces each of these evictions to the HTCP neighbours
    when HTCP is built in, releases no entry itself and starts no fetch. *)
Theorem purgeAllCached_evicts_cacheable_methods (env : Env) (w : World) :
  exists calls,
    purgeAllCached env w = Some (tt, set_trace (trace w ++ calls) w) /\
    (forall m, In (EvEvictIfFound m) calls <-> respMaybeCacheable env m = true) /\
    (forall m, In (EvHtcpClear None m HTCP_CLR_INVALIDATION) calls <->
               USE_HTCP env = true /\ respMaybeCacheable env m = true) /\
    (forall e, ~ In (EvRelease e) calls) /\
    fwdStarts calls = 0%nat.
Proof.
  exists (evictions env all_methods).
  split; [apply purgeEntriesByUrl_from_run|].
  assert (Hin : forall ev, In ev (evictions env all_methods) <->
            exists m, respMaybeCacheable env m = true /\
              (ev = EvEvictIfFound m \/
               USE_HTCP env = true /\ ev = EvHtcpClear None m HTCP_CLR_INVALIDATION)).
  { intros ev. unfold evictions. rewrite in_flat_map. split.
    - intros [m [_ H]]. exists m.
      destruct (respMaybeCacheable env m); [|destruct H].
      split; [reflexivity|].
      destruct (USE_HTCP env); cbn in H; intuition auto.
    - intros [m [Hc H]]. exists m. split; [apply all_methods_complete|].
      rewrite Hc. destruct H as [H|[Hh H]]; subst ev.
      + apply in_or_app. right. left. reflexivity.
      + rewrite Hh. left. reflexivity. }
  split; [|split; [|split]].
  - intros m. split.
    + intros H. apply Hin in H.
      destruct H as [m' [Hc [H|[_ H]]]]; inversion H; subst; exact Hc.
    + intros H. apply Hin. exists m. auto.
  - intros m. split.
    + intros H. apply Hin in H.
      destruct H as [m' [Hc [H|[Hh H]]]]; inversion H; subst; split; assumption.
    + intros [Hh Hc]. apply Hin. exists m. auto.
  - intros e H. apply Hin in H. destruct H as [m' [Hc [H|[_ H]]]]; discriminate H.
  - apply fwdStarts_evictions.
Qed.

(** ** The miss path *)

Lemma fwdStarts_other_calls (env : Env) (m : MethodType) :
  fwdStarts (other_calls env m) = 0%nat.
Proof.
  unfold other_calls. destruct (MethodType_eqb m METHOD_OTHER);
    [apply fwdStarts_evictions | reflexivity].
Qed.

Lemma fwdStarts_leftover_calls (env : Env) (s : option ScId) (e : option EntryId) :
  fwdStarts (leftover_calls env s e) = 0%nat.
Proof.
  unfold leftover_calls. destruct e as [e|]; [|reflexivity].
  destruct (EBIT_TEST _ _); reflexivity.
Qed.

Lemma createStoreEntry_run (env : Env) (m : MethodType) (f : RequestFlags) (w : World) :
  createStoreEntry env m f w =
  Some (tt,
        {| me := set_flags_storelogiccomplete true
                   (set_reqsize 0 (set_reqofs 0 (set_sc (Some (S (fresh w))) (me w))));
           http := set_storeEntry (Some (fresh w)) (http w);
           readBuffer := readBuffer w;
           trace := trace w ++ create_calls env (fresh w) (S (fresh w)) m f;
           fresh := S (S (fresh w)) |}).
Proof.
  open_world w. destruct f.
  unfold createStoreEntry, create_calls. mbase.
  destruct (_ && _ && _ && _); mbase; destruct (USE_DELAY_POOLS env); mbase;
    norm_trace; reflexivity.
Qed.

Lemma fwdStarts_create_calls (env : Env) (e : EntryId) (s : ScId) (m : MethodType)
    (f : RequestFlags) :
  fwdStarts (create_calls env e s m f) = 0%nat.
Proof.
  unfold create_calls.
  destruct (_ && _ && _ && _); destruct (USE_DELAY_POOLS env); reflexivity.
Qed.


Lemma fwdStarts_private_entry_calls (env : Env) (e : EntryId) (s : ScId) (m : MethodType) :
  fwdStarts (private_entry_calls env e s m) = 0%nat.
Proof. unfold private_entry_calls. destruct (USE_DELAY_POOLS env); reflexivity. Qed.

Lemma create_calls_default (env : Env) (e : EntryId) (s : ScId) (m : MethodType) :
  create_calls env e s m RequestFlags_default = private_entry_calls env e s m.
Proof. reflexivity. Qed.


(** The fetches started by the calls of a run. *)
Ltac count_fetches :=
  rewrite ?fwdStarts_app, ?fwdStarts_leftover_calls, ?fwdStarts_other_calls,
    ?fwdStarts_create_calls, ?fwdStarts_private_entry_calls, ?fwdStarts_evictions;
  cbn [fwdStarts filter isFwdStart List.length]; lia.

(** Membership in the calls of a run, written as a concatenation. *)
Ltac in_calls :=
  solve [ unfold create_calls, private_entry_calls, initial_read;
          rewrite ?in_app_iff; cbn [In]; auto 12 ].

(** The calls of a run, as the calls made before plus the rest. *)
Ltac split_trace := rewrite <- ?app_assoc; cbn [app]; reflexivity.






(** ** Reply access *)





(** ** The pump *)

(** Case analysis on the test a run is waiting for, with the outcome
    carried into the hypotheses; the cases they exclude are closed. *)
Ltac mtest :=
  let l := run_side in
  let c := stuck l in
  let a := atom c in
  let T := type of a in
  lazymatch eval hnf in T with
  | option (_ * World)%type => fail "the run is waiting for a call"
  | _ => destruct a eqn:?; mbase
  end.

Ltac msplit :=
  mtest;
  repeat match goal with
         | H : ?a = ?v, H' : context [?a] |- _ =>
             lazymatch type of H' with
             | a = v => fail
             | _ => rewrite H in H'; cbn [orb andb negb] in H'
             end
         end;
  try discriminate; mrun.


(** X13: a delivery for a client connection that is closing, or that has
    seen a pinned zero reply, is ignored: [sendMoreData] returns with the
    state as it was and makes no call. *)
Theorem sendMoreData_ignores_unusable_connection
    (env : Env) (result : StoreIOBuffer) (w : World) :
  conn_usable (http w) = false ->
  sendMoreData env result w = Some (tt, w).
Proof.
  unfold conn_usable. intros Hconn.
  open_world w. mbase_in Hconn.
  unfold sendMoreData. mbase.
  match goal with |- context [if ?d then _ else _] => destruct d end; [reflexivity|].
  match goal with
  | H : match ?c with Some _ => _ | None => _ end = false |- _ =>
      destruct c as [[]|]; [|discriminate H]
  end.
  mbase_in Hconn. mbase.
  repeat match goal with
         | H : context [if ?b then _ else _] |- _ => destruct b
         | H : context [andb ?b _] |- _ => destruct b; cbn [andb negb] in H
         | H : context [negb ?b] |- _ => destruct b; cbn [andb negb] in H
         end; try discriminate; reflexivity.
Qed.



(** ** The transfer-done check *)

(** X16: [checkTransferDone] never changes the state.  It answers 0
    without an entry and 1 when [done_copying] is set.  Otherwise a
    chunked reply is not done before the context is marked complete; the
    transfer of an object that is complete in the store is done exactly
    when the bytes written reach the object's length less the headers; and
    that of an object still being received is not done before the end of
    the headers was found, never done while its body size is unknown, and
    else done exactly when the bytes written reach the announced body
    size plus the headers written (taken as an unsigned 64-bit number).
    The run stops on an assertion for a complete object whose length is
    negative or below the size of the headers, and for an incomplete one
    without memory object. *)
Theorem checkTransferDone_cases (env : Env) (w : World) :
  (storeEntry (http w) = None -> checkTransferDone env w = Some (0, w)) /\
  (forall e,
     storeEntry (http w) = Some e ->
     let entry := entries env e in
     let waiting := chunkedReply (flags (request (http w))) && negb (flags_complete (me w)) in
     (done_copying (http w) = true -> checkTransferDone env w = Some (1, w)) /\
     (done_copying (http w) = false -> waiting = true ->
      checkTransferDone env w = Some (0, w)) /\
     (done_copying (http w) = false -> waiting = false ->
      store_status entry = STORE_OK ->
      checkTransferDone env w =
        if (0 <=? objectLen entry) && (headers_sz (me w) <=? objectLen entry)
        then Some (if objectLen entry - headers_sz (me w) <=? out_offset (http w)
                   then 1 else 0, w)
        else None) /\
     (done_copying (http w) = false -> waiting = false ->
      store_status entry = STORE_PENDING ->
      let expected := content_length (baseReply entry) in
      checkTransferDone env w =
        if mem_obj entry
        then Some (if (headers_sz (me w) =? 0) || (expected <? 0) ||
                      (out_size (http w) <? (expected + out_headers_sz (http w)) mod 2 ^ 64)
                   then 0 else 1, w)
        else None)).
Proof.
  split.
  - intros He. open_world w. mhyps. subst. unfold checkTransferDone. mbase. reflexivity.
  - intros e He entry waiting. subst entry waiting.
    open_world w. mhyps. subst.
    unfold checkTransferDone, storeOKTransferDone, storeNotOKTransferDone. mbase.
    repeat split; intros; mhyps; subst; mbase;
      repeat match goal with
             | H : ?c = _ |- context [?c] => rewrite H; mbase
             end;
      split_ifs; mbase; try reflexivity; try discriminate.
Qed.

(** ** The header builder, step by step *)

(** The builder runs to the end on a cloned reply (for a hit, with the
    entry attached) and leaves the header and the request as the steps
    above make them. *)
Lemma buildReplyHeader_run (env : Env) (w : World) (rep : HttpReply) :
  reply (me w) = Some rep ->
  (isTcpHit env (logType (http w)) = true -> isSome (storeEntry (http w)) = true) ->
  buildReplyHeader env w = Some (tt, built env w rep).
Proof.
  intros Hrep Hhit.
  open_world w. mhyps. subst. mbase_in Hhit.
  unfold built, built_header, built_request, built_chunked, built_keepalive,
    built_request_auth, undatable, built_upto_date, built_upto_age, buildReplyHeader.
  mbase.
  repeat mtest;
    try (exfalso;
         match goal with H : true = true -> false = true |- _ =>
           discriminate (H eq_refl) end);
    rewrite ?app_nil_r, <- ?app_assoc; reflexivity.
Qed.

Lemma entriesOf_app (i : HdrType) (a b : HttpHeader) :
  entriesOf i (a ++ b) = entriesOf i a ++ entriesOf i b.
Proof. apply filter_app. Qed.

Lemma entriesOf_delById_same (i : HdrType) (h : HttpHeader) :
  entriesOf i (delById i h) = [].
Proof.
  unfold entriesOf, delById. induction h as [|x h IH]; [reflexivity|].
  cbn [filter]. destruct (HdrType_eqb (id x) i) eqn:E; cbn [negb filter]; [exact IH|].
  rewrite E. exact IH.
Qed.

Lemma entriesOf_delById_other (i j : HdrType) (h : HttpHeader) :
  i <> j -> entriesOf i (delById j h) = entriesOf i h.
Proof.
  intros H. unfold entriesOf.
  apply (sel_delById (fun e => HdrType_eqb (id e) i) i); [|congruence].
  intros e. apply HdrType_eqb_eq.
Qed.

Lemma entriesOf_removeHopByHopEntries (i : HdrType) (h : HttpHeader) :
  isHopByHop i = false -> entriesOf i (removeHopByHopEntries h) = entriesOf i h.
Proof.
  intros H. unfold entriesOf, removeHopByHopEntries.
  induction h as [|x h IH]; [reflexivity|].
  cbn [filter]. destruct (isHopByHop (id x)) eqn:E; cbn [negb filter].
  - rewrite IH. destruct (HdrType_eqb (id x) i) eqn:Ex; [|reflexivity].
    apply HdrType_eqb_eq in Ex. rewrite Ex, H in E. discriminate E.
  - rewrite IH. reflexivity.
Qed.

Lemma has_entriesOf (i : HdrType) (h : HttpHeader) :
  has i h = match entriesOf i h with [] => false | _ :: _ => true end.
Proof.
  unfold has, entriesOf. induction h as [|x h IH]; [reflexivity|].
  cbn [existsb filter]. destruct (HdrType_eqb (id x) i); [reflexivity | exact IH].
Qed.

(** Rewriting for the entries of one id through the edits of a header. *)
Ltac entries_of :=
  unfold putStr, putTime, putInt, putExt, addVia;
  repeat first
    [ rewrite entriesOf_app
    | rewrite entriesOf_delById_same
    | rewrite entriesOf_delById_other by discriminate
    | rewrite entriesOf_removeHopByHopEntries by reflexivity ];
  cbn [entriesOf filter id HdrType_eqb app]; rewrite ?app_nil_r.

(** The steps after the Date leave alone the entries of an id that is
    none of those they add or delete, as long as the edits of the other
    modules do. *)
Lemma built_header_after_date (env : Env) (w : World) (rep : HttpReply) (i : HdrType) :
  match i with
  | WWW_AUTHENTICATE | PROXY_SUPPORT | CONNECTION | CACHE_STATUS | TRANSFER_ENCODING
  | VIA | SURROGATE_CONTROL => False
  | _ => True
  end ->
  (forall r, keeps i (fun h => httpHdrMangleList env h r)) ->
  (forall r a b, keeps i (fun h => AddReplyAuthHeader env h r a b)) ->
  entriesOf i (built_header env w rep) = entriesOf i (built_upto_date env w rep).
Proof.
  intros Hi Hmangle Hauth.
  assert (p_id : forall e, HdrType_eqb (id e) i = true -> id e = i)
    by (intros e; apply HdrType_eqb_eq).
  assert (Ha : forall tag st r acc h,
            entriesOf i (buildReplyHeader_auth env tag st r acc h) = entriesOf i h)
    by (intros; unfold entriesOf; apply (sel_auth env _ i p_id); exact Hauth).
  assert (Hw : forall tag r h,
            entriesOf i (fst (buildReplyHeader_wwwauth tag r h)) = entriesOf i h).
  { intros. unfold entriesOf. apply (sel_wwwauth _ i p_id);
      destruct i; try discriminate; try reflexivity; destruct Hi. }
  unfold built_header, buildReplyHeader_surrogate, addVia, putStr. rewrite Hmangle.
  destruct (has SURROGATE_CONTROL _); [destruct (negb _)|];
    destruct (built_chunked env w rep);
    rewrite ?entriesOf_delById_other by (destruct i; try discriminate; destruct Hi);
    rewrite !entriesOf_app, Ha, Hw;
    destruct i; try destruct Hi; cbn [entriesOf filter id HdrType_eqb];
    rewrite ?app_nil_r; reflexivity.
Qed.

Ltac header_cases :=
  repeat match goal with
         | |- context [if ?b then _ else _] => destruct b eqn:?
         | |- context [match findEntry ?i ?x with Some _ => _ | None => _ end] =>
             destruct (findEntry i x)
         | |- context [match ?c with Some _ => _ | None => _ end] => destruct c eqn:?
         end.


Lemma age_entries_DATE (env : Env) (e : StoreEntry) (conn : option ConnStateData)
    (h : HttpHeader) :
  entriesOf DATE (buildReplyHeader_age env e conn h) =
  if EBIT_TEST (e_flags e) ENTRY_SPECIAL ||
     match conn with Some c => port_actAsOrigin c | None => false end
  then [mkEntry DATE "" (VTime (squid_curtime env))]
  else entriesOf DATE h.
Proof.
  unfold buildReplyHeader_age.
  destruct (EBIT_TEST (e_flags e) ENTRY_SPECIAL); cbn [orb]; [entries_of; reflexivity|].
  destruct conn as [c|]; [destruct (port_actAsOrigin c)|];
    header_cases; entries_of; reflexivity.
Qed.

Lemma age_entries_other (env : Env) (e : StoreEntry) (conn : option ConnStateData)
    (h : HttpHeader) (i : HdrType) :
  match i with AGE | DATE | EXPIRES | OTHER => False | _ => True end ->
  entriesOf i (buildReplyHeader_age env e conn h) = entriesOf i h.
Proof.
  intros Hi. unfold buildReplyHeader_age.
  destruct i; try destruct Hi; header_cases; entries_of; reflexivity.
Qed.

Lemma strip_entries (env : Env) (is_hit : bool) (role : crState) (request : HttpRequest)
    (satisfaction : bool) (status : StatusCode) (h : HttpHeader) (i : HdrType) :
  isHopByHop i = false ->
  match i with SET_COOKIE | PROXY_AUTHENTICATE | CONTENT_LENGTH => False | _ => True end ->
  entriesOf i (buildReplyHeader_strip env is_hit role request satisfaction status h)
  = entriesOf i h.
Proof.
  intros Hh Hi. unfold buildReplyHeader_strip.
  destruct i; try destruct Hi; try discriminate Hh; header_cases; entries_of; reflexivity.
Qed.

Lemma strip_entries_SET_COOKIE (env : Env) (is_hit : bool) (role : crState)
    (request : HttpRequest) (satisfaction : bool) (status : StatusCode) (h : HttpHeader) :
  entriesOf SET_COOKIE (buildReplyHeader_strip env is_hit role request satisfaction status h)
  = if is_hit || is_crSlave role then [] else entriesOf SET_COOKIE h.
Proof.
  unfold buildReplyHeader_strip. header_cases; entries_of; reflexivity.
Qed.

(** X17: Set-Cookie is not served from the cache.  When the edits of the
    other modules (authentication headers, configured mangling) leave
    Set-Cookie entries alone, the header built for a hit, or for the slave
    of a collapsed revalidation, holds no Set-Cookie entry; for any other
    transaction it holds those of the reply, in order. *)
Theorem buildReplyHeader_set_cookie (env : Env) (w : World) (rep : HttpReply) :
  reply (me w) = Some rep ->
  (isTcpHit env (logType (http w)) = true -> isSome (storeEntry (http w)) = true) ->
  (forall r, keeps SET_COOKIE (fun h => httpHdrMangleList env h r)) ->
  (forall r a b, keeps SET_COOKIE (fun h => AddReplyAuthHeader env h r a b)) ->
  exists w' rep',
    buildReplyHeader env w = Some (tt, w') /\
    reply (me w') = Some rep' /\
    entriesOf SET_COOKIE (header rep') =
      if isTcpHit env (logType (http w)) || is_crSlave (collapsedRevalidation (me w))
      then []
      else entriesOf SET_COOKIE (header rep).
Proof.
  intros Hrep Hhit Hmangle Hauth.
  exists (built env w rep), (set_header (built_header env w rep) rep).
  split; [apply buildReplyHeader_run; assumption|]. split; [reflexivity|].
  change (header (set_header (built_header env w rep) rep)) with (built_header env w rep).
  rewrite (built_header_after_date env w rep SET_COOKIE I Hmangle Hauth).
  unfold built_upto_date, built_upto_age.
  destruct (isTcpHit env (logType (http w))) eqn:Hh.
  - destruct (storeEntry (http w)) as [e|]; [|discriminate (Hhit eq_refl)].
    destruct (has DATE _); [|destruct (0 <? _)]; entries_of;
      rewrite age_entries_other by exact I; apply strip_entries_SET_COOKIE.
  - destruct (has DATE _); [|destruct (storeEntry (http w)); [destruct (0 <? _)|]];
      entries_of; apply strip_entries_SET_COOKIE.
Qed.


(** X19: the Date of a built header.  When the edits of the other modules
    leave Date entries alone: a hit on a special entry, or one served by a
    port that acts as origin, carries the current time as its only Date;
    otherwise the Date entries of the reply are kept; and when there is
    none then, one is added: the current time without an entry, the
    entry's timestamp when that is positive.  So the header lacks a Date
    only for an entry without a positive timestamp. *)
Theorem buildReplyHeader_date_entries (env : Env) (w : World) (rep : HttpReply) :
  reply (me w) = Some rep ->
  (isTcpHit env (logType (http w)) = true -> isSome (storeEntry (http w)) = true) ->
  (forall r, keeps DATE (fun h => httpHdrMangleList env h r)) ->
  (forall r a b, keeps DATE (fun h => AddReplyAuthHeader env h r a b)) ->
  exists w' rep',
    buildReplyHeader env w = Some (tt, w') /\
    reply (me w') = Some rep' /\
    entriesOf DATE (header rep') = expected_date env w rep /\
    ((forall e, storeEntry (http w) = Some e -> 0 < timestamp (entries env e)) ->
     has DATE (header rep') = true).
Proof.
  intros Hrep Hhit Hmangle Hauth.
  exists (built env w rep), (set_header (built_header env w rep) rep).
  split; [apply buildReplyHeader_run; assumption|]. split; [reflexivity|].
  change (header (set_header (built_header env w rep) rep)) with (built_header env w rep).
  rewrite has_entriesOf.
  rewrite (built_header_after_date env w rep DATE I Hmangle Hauth).
  assert (Hkept : entriesOf DATE (built_upto_age env w rep) = kept_date env w rep).
  { unfold built_upto_age, kept_date, acts_as_origin.
    destruct (isTcpHit env (logType (http w))).
    - destruct (storeEntry (http w)) as [e|].
      + rewrite age_entries_DATE.
        destruct (_ || _); [reflexivity|]. apply strip_entries; reflexivity || exact I.
      + apply strip_entries; reflexivity || exact I.
    - apply strip_entries; reflexivity || exact I. }
  assert (Hdate : entriesOf DATE (built_upto_date env w rep) = expected_date env w rep).
  { unfold built_upto_date, expected_date. rewrite has_entriesOf, <- Hkept.
    destruct (entriesOf DATE (built_upto_age env w rep)) eqn:Hk.
    - destruct (storeEntry (http w)) as [e|];
        [destruct (0 <? timestamp (entries env e))|];
        entries_of; rewrite ?Hk; reflexivity.
    - exact Hk. }
  split; [exact Hdate|].
  intros Hts. rewrite Hdate. unfold expected_date.
  destruct (kept_date env w rep); [|reflexivity].
  destruct (storeEntry (http w)) as [e|]; [|reflexivity].
  specialize (Hts e eq_refl). apply Z.ltb_lt in Hts. rewrite Hts. reflexivity.
Qed.

(** The scan for connection-oriented authentication offers: with such
    authentication disabled for the client every offer is deleted and
    nothing else is; otherwise the header is left as it is and the answer
    says whether there is an offer. *)
Lemma scanWwwAuthenticate_spec (disabled : bool) (h : HttpHeader) :
  scanWwwAuthenticate disabled h =
  if disabled then (filter (fun e => negb (offers_connection_auth e)) h, false)
  else (h, existsb offers_connection_auth h).
Proof.
  unfold offers_connection_auth.
  induction h as [|x h IH]; [destruct disabled; reflexivity|].
  cbn [scanWwwAuthenticate filter existsb].
  destruct (HdrType_eqb (id x) WWW_AUTHENTICATE && isConnectionAuthScheme (value x));
    destruct disabled; cbn [negb orb]; try reflexivity;
    rewrite IH; reflexivity.
Qed.

Lemma existsb_offers_entriesOf (h : HttpHeader) :
  existsb offers_connection_auth (entriesOf WWW_AUTHENTICATE h) =
  existsb offers_connection_auth h.
Proof.
  unfold entriesOf, offers_connection_auth. induction h as [|x h IH]; [reflexivity|].
  cbn [filter existsb]. destruct (HdrType_eqb (id x) WWW_AUTHENTICATE) eqn:E.
  - cbn [existsb]. rewrite E, IH. reflexivity.
  - rewrite IH. reflexivity.
Qed.

Lemma has_offers (h : HttpHeader) :
  existsb offers_connection_auth h = true -> has WWW_AUTHENTICATE h = true.
Proof.
  unfold has, offers_connection_auth. induction h as [|x h IH]; [intros H; exact H|].
  cbn [existsb]. destruct (HdrType_eqb (id x) WWW_AUTHENTICATE); [reflexivity|].
  exact IH.
Qed.

Lemma filter_offers_none (h : HttpHeader) :
  has WWW_AUTHENTICATE h = false ->
  filter (fun e => negb (offers_connection_auth e)) h = h.
Proof.
  unfold has, offers_connection_auth. induction h as [|x h IH]; [reflexivity|].
  cbn [existsb filter]. destruct (HdrType_eqb (id x) WWW_AUTHENTICATE); [discriminate|].
  cbn [andb negb orb]. intros H. rewrite (IH H). reflexivity.
Qed.

(** The filter for unproxyable authentication, in closed form. *)
Lemma buildReplyHeader_wwwauth_spec (tag : LogTags_ot) (r : HttpRequest) (h : HttpHeader) :
  buildReplyHeader_wwwauth tag r h =
  if LogTags_eqb tag LOG_TCP_DENIED then (h, false)
  else if connectionAuthDisabled (flags r)
       then (filter (fun e => negb (offers_connection_auth e)) h, false)
       else if existsb offers_connection_auth h
            then (if negb (accelerated (flags r)) && negb (intercepted (flags r))
                  then putStr CONNECTION "Proxy-support"
                         (putStr PROXY_SUPPORT "Session-Based-Authentication" h)
                  else h, true)
            else (h, false).
Proof.
  unfold buildReplyHeader_wwwauth. rewrite scanWwwAuthenticate_spec.
  destruct (LogTags_eqb tag LOG_TCP_DENIED); cbn [negb andb]; [reflexivity|].
  destruct (has WWW_AUTHENTICATE h) eqn:Hh.
  - destruct (connectionAuthDisabled (flags r)); cbn [fst snd]; [reflexivity|].
    destruct (existsb offers_connection_auth h); [|reflexivity].
    destruct (negb (accelerated (flags r)) && negb (intercepted (flags r))); reflexivity.
  - destruct (connectionAuthDisabled (flags r)).
    + rewrite filter_offers_none by exact Hh. reflexivity.
    + destruct (existsb offers_connection_auth h) eqn:Ho; [|reflexivity].
      apply has_offers in Ho. rewrite Ho in Hh. discriminate Hh.
Qed.


(** The steps up to the Date leave alone the entries of an id that is not
    hop-by-hop and none of those they add or delete. *)
Lemma built_upto_date_entries (env : Env) (w : World) (rep : HttpReply) (i : HdrType) :
  isHopByHop i = false ->
  match i with
  | SET_COOKIE | PROXY_AUTHENTICATE | CONTENT_LENGTH | AGE | DATE | EXPIRES | OTHER => False
  | _ => True
  end ->
  entriesOf i (built_upto_date env w rep) = entriesOf i (header rep).
Proof.
  intros Hh Hi.
  assert (Hs : forall a b c d e h,
            entriesOf i (buildReplyHeader_strip env a b c d e h) = entriesOf i h)
    by (intros; apply strip_entries; [exact Hh | destruct i; try exact I; destruct Hi]).
  assert (Ha : forall e c h, entriesOf i (buildReplyHeader_age env e c h) = entriesOf i h)
    by (intros; apply age_entries_other; destruct i; try exact I; destruct Hi).
  unfold built_upto_date, built_upto_age, putTime.
  destruct (isTcpHit env (logType (http w)));
    destruct (storeEntry (http w)); destruct (has DATE _);
    try destruct (0 <? _);
    rewrite ?entriesOf_app, ?Ha, ?Hs;
    destruct i; try destruct Hi; try discriminate Hh;
    cbn [entriesOf filter id HdrType_eqb]; rewrite ?app_nil_r; reflexivity.
Qed.

(** The steps after the authentication filter leave WWW-Authenticate
    entries alone, as long as the edits of the other modules do. *)
Lemma built_header_WWW_AUTHENTICATE (env : Env) (w : World) (rep : HttpReply) :
  (forall r, keeps WWW_AUTHENTICATE (fun h => httpHdrMangleList env h r)) ->
  (forall r a b, keeps WWW_AUTHENTICATE (fun h => AddReplyAuthHeader env h r a b)) ->
  entriesOf WWW_AUTHENTICATE (built_header env w rep) =
  entriesOf WWW_AUTHENTICATE
    (fst (buildReplyHeader_wwwauth (logType (http w)) (request (http w))
            (built_upto_date env w rep))).
Proof.
  intros Hmangle Hauth.
  assert (p_id : forall e, HdrType_eqb (id e) WWW_AUTHENTICATE = true ->
                           id e = WWW_AUTHENTICATE)
    by (intros e; apply HdrType_eqb_eq).
  assert (Ha : forall tag st r acc h,
            entriesOf WWW_AUTHENTICATE (buildReplyHeader_auth env tag st r acc h)
            = entriesOf WWW_AUTHENTICATE h)
    by (intros; unfold entriesOf; apply (sel_auth env _ WWW_AUTHENTICATE p_id);
        exact Hauth).
  unfold built_header, buildReplyHeader_surrogate, addVia, putStr. rewrite Hmangle.
  destruct (has SURROGATE_CONTROL _); [destruct (negb _)|];
    destruct (built_chunked env w rep);
    rewrite ?entriesOf_delById_other by discriminate;
    rewrite !entriesOf_app, Ha;
    cbn [entriesOf filter id HdrType_eqb]; rewrite ?app_nil_r; reflexivity.
Qed.

Lemma entriesOf_filter (i : HdrType) (q : HttpHeaderEntry -> bool) (h : HttpHeader) :
  entriesOf i (filter q h) = filter q (entriesOf i h).
Proof.
  unfold entriesOf. induction h as [|x h IH]; [reflexivity|].
  cbn [filter]. destruct (q x) eqn:Eq; destruct (HdrType_eqb (id x) i) eqn:Ei;
    cbn [filter]; rewrite ?Eq, ?Ei, IH; reflexivity.
Qed.


(** X21: connection-oriented authentication offers.  When the edits of
    the other modules leave WWW-Authenticate entries alone, and unless the
    transaction is tagged DENIED: for a client with connection
    authentication disabled the builder deletes every WWW-Authenticate
    entry that offers NTLM, Negotiate or Kerberos and keeps the others in
    order; for any other client it keeps them all, and an offer among them
    makes keep-alive a must for the request.  A reply tagged DENIED keeps
    its entries and does not touch that flag. *)
Theorem buildReplyHeader_connection_auth (env : Env) (w : World) (rep : HttpReply) :
  reply (me w) = Some rep ->
  (isTcpHit env (logType (http w)) = true -> isSome (storeEntry (http w)) = true) ->
  (forall r, keeps WWW_AUTHENTICATE (fun h => httpHdrMangleList env h r)) ->
  (forall r a b, keeps WWW_AUTHENTICATE (fun h => AddReplyAuthHeader env h r a b)) ->
  let denied := LogTags_eqb (logType (http w)) LOG_TCP_DENIED in
  let disabled := connectionAuthDisabled (flags (request (http w))) in
  let offered := existsb offers_connection_auth (header rep) in
  exists w' rep',
    buildReplyHeader env w = Some (tt, w') /\
    reply (me w') = Some rep' /\
    entriesOf WWW_AUTHENTICATE (header rep') =
      (if negb denied && disabled
       then filter (fun e => negb (offers_connection_auth e))
              (entriesOf WWW_AUTHENTICATE (header rep))
       else entriesOf WWW_AUTHENTICATE (header rep)) /\
    mustKeepalive (flags (request (http w'))) =
      mustKeepalive (flags (request (http w))) || (negb denied && negb disabled && offered).
Proof.
  intros Hrep Hhit Hmangle Hauth denied disabled offered. subst denied disabled offered.
  exists (built env w rep), (set_header (built_header env w rep) rep).
  split; [apply buildReplyHeader_run; assumption|]. split; [reflexivity|].
  change (header (set_header (built_header env w rep) rep)) with (built_header env w rep).
  assert (Hw : entriesOf WWW_AUTHENTICATE (built_upto_date env w rep) =
               entriesOf WWW_AUTHENTICATE (header rep))
    by (apply built_upto_date_entries; [reflexivity | exact I]).
  assert (Ho : existsb offers_connection_auth (built_upto_date env w rep) =
               existsb offers_connection_auth (header rep))
    by (rewrite <- existsb_offers_entriesOf, Hw; apply existsb_offers_entriesOf).
  split.
  - rewrite (built_header_WWW_AUTHENTICATE env w rep Hmangle Hauth).
    rewrite buildReplyHeader_wwwauth_spec.
    destruct (LogTags_eqb (logType (http w)) LOG_TCP_DENIED); cbn [negb andb fst];
      [exact Hw|].
    destruct (connectionAuthDisabled (flags (request (http w)))); cbn [fst].
    + rewrite entriesOf_filter, Hw. reflexivity.
    + destruct (existsb offers_connection_auth (built_upto_date env w rep)); cbn [fst];
        [|exact Hw].
      destruct (negb _ && negb _); [|exact Hw].
      unfold putStr. rewrite !entriesOf_app, Hw.
      cbn [entriesOf filter id HdrType_eqb]. rewrite !app_nil_r. reflexivity.
  - unfold built, built_request, built_request_auth.
    rewrite buildReplyHeader_wwwauth_spec, Ho.
    destruct (built_chunked env w rep);
      destruct (LogTags_eqb (logType (http w)) LOG_TCP_DENIED);
      destruct (connectionAuthDisabled (flags (request (http w))));
      destruct (existsb offers_connection_auth (header rep));
      open_world w; mbase; rewrite ?orb_true_r, ?orb_false_r; reflexivity.
Qed.

(** ** Cache hits *)




(** ** Revalidation *)

(** X24: [restoreState] puts the saved hit back.  For a context with a
    saved store client it always finishes: the entry attached in the
    meantime is let go of (unregistered and unlocked, if there), the saved
    entry, store client, offsets and the request's [lastmod] and [etag]
    are put back, and the shadow fields are cleared. *)
Theorem restoreState_puts_back (w : World) (s : ScId) :
  old_sc (me w) = Some s ->
  exists w',
    restoreState w = Some (tt, w') /\
    storeEntry (http w') = old_entry (me w) /\
    sc (me w') = Some s /\
    reqsize (me w') = old_reqsize (me w) /\
    reqofs (me w') = old_reqofs (me w) /\
    lastmod (request (http w')) = old_lastmod (me w) /\
    etag (request (http w')) = old_etag (me w) /\
    me w' = clearShadow (me w') /\
    trace w' = trace w ++ release_calls (sc (me w)) (storeEntry (http w)).
Proof.
  intros Hs. open_world w. mhyps. subst.
  unfold restoreState, removeClientStoreReference, removeStoreReference, release_calls,
    clearShadow.
  mbase. mtest; (eexists; split; [reflexivity|]); mbase;
    rewrite ?app_nil_r; repeat split; split_trace.
Qed.

(** X25: [processExpired] prepares the revalidation of a stale hit.  For
    a request that is not only-if-cached, with nothing saved and nothing
    written yet: the transaction is tagged REFRESH and the request marked
    as a refresh; the stale entry and its store client are saved, not let
    go of; a new entry (or the one another request is revalidating) is
    attached with a new store client; the request is given the stale
    entry's modification time, and its ETag when that is a strong one and
    the client sent no If-None-Match; the store is asked to deliver the
    new entry into the temporary buffer to [HandleIMSReply]; and, unless
    the context became the slave of a collapsed revalidation, one fetch is
    started, on the new entry. *)
Theorem processExpired_prepares_revalidation (env : Env) (w : World) (e0 : EntryId) :
  storeEntry (http w) = Some e0 ->
  0 <= lastModified (entries env e0) ->
  onlyIfCached (http w) = false ->
  old_sc (me w) = None ->
  out_offset (http w) = 0 ->
  connMatches w = true ->
  let r := request (http w) in
  exists w' e' s' calls,
    processExpired env w = Some (tt, w') /\
    trace w' = trace w ++ calls /\
    logType (http w') = LOG_TCP_REFRESH /\
    refresh (flags (request (http w'))) = true /\
    old_entry (me w') = Some e0 /\
    old_sc (me w') = sc (me w) /\
    storeEntry (http w') = Some e' /\
    sc (me w') = Some s' /\
    lastmod (request (http w')) = lastModified (entries env e0) /\
    etag (request (http w')) =
      (if has IF_NONE_MATCH (req_header r) then etag r
       else match hasEtag (entries env e0) with
            | Some (str, false) => str
            | _ => etag r
            end) /\
    In (EvStoreClientCopy (Some s') (Some e')
          (StoreIOBuffer_make HTTP_REQBUF_SZ 0 buf_tempbuf) cb_HandleIMSReply) calls /\
    fwdStarts calls =
      (if is_crSlave (collapsedRevalidation (me w')) then 0%nat else 1%nat) /\
    (is_crSlave (collapsedRevalidation (me w')) = false -> In (EvFwdStart e') calls) /\
    (forall e, ~ In (EvUnlock e) calls).
Proof.
  cbv zeta. intros He Hlm Honly Hold Hout Hconn. apply Z.leb_le in Hlm.
  match goal with
  | |- exists w' e' s' calls, ?run = Some (tt, w') /\ @?P w' e' s' calls =>
      cut (exists w', run = Some (tt, w') /\ exists e' s' calls, P w' e' s' calls);
      [ intros [w' [Hrun [e' [s' [calls H]]]]]; exists w', e', s', calls; split; assumption | ]
  end.
  open_world w. mhyps. subst.
  unfold processExpired, saveState, FwdState_Start. mrun.
  repeat msplit.
  all: (eexists; split; [reflexivity|]); mbase.
  all: (eexists; eexists; eexists; split; [split_trace|]).
  all: repeat split; try reflexivity; try (intros; discriminate);
       try (solve [cbn [In]; intuition discriminate]);
       try (intros; solve [cbn [In]; auto 12]);
       try (solve [cbn [In]; auto 12]).
Qed.


(** ** The entry point of the stream *)

(** X27: a read request of the next node, once the store logic is
    complete, is passed to the store as it is: the only call is a store
    copy for [SendMoreData] of the attached entry into the node's buffer,
    at the node's offset moved past the headers; nothing in the context
    changes, but that the stream node is noted. *)
Theorem clientGetMoreData_continues (env : Env) (w : World) :
  flags_storelogiccomplete (me w) = true ->
  clientGetMoreData env w =
    Some (tt,
          set_trace
            (trace w ++
             [EvStoreClientCopy (sc (me w)) (storeEntry (http w))
                (StoreIOBuffer_make (buf_length (readBuffer w))
                   (buf_offset (readBuffer w) + headers_sz (me w))
                   (buf_data (readBuffer w)))
                cb_SendMoreData])
            (set_me (set_ourNode true (me w)) w)).
Proof.
  intros Hdone. open_world w. mhyps. subst.
  unfold clientGetMoreData. mbase.
  match goal with |- context [if ?b then _ else _] => is_var b; destruct b end;
    mbase; reflexivity.
Qed.

(** X28: TRACE.  Before the store logic is complete, a TRACE request with
    Max-Forwards: 0 is answered by the engine itself: a private entry is
    made with all request flags clear, the store is asked to deliver it to
    [SendMoreData], and a 200 reply is written to it and the entry
    completed; no store lookup is made and no fetch is started.  Any other
    TRACE request, one without Max-Forwards included, is tagged MISS and
    goes on to [doGetMoreData]. *)
Theorem clientGetMoreData_trace (env : Env) (w : World) :
  flags_storelogiccomplete (me w) = false ->
  method (request (http w)) = METHOD_TRACE ->
  let hdr := req_header (request (http w)) in
  let noted := set_me (set_ourNode true (me w)) w in
  (getInt64 MAX_FORWARDS hdr = 0 ->
   exists w' calls,
     clientGetMoreData env w = Some (tt, w') /\
     trace w' = trace w ++ calls /\
     storeEntry (http w') = Some (fresh w) /\
     In (EvStoreCreateEntry (fresh w) RequestFlags_default METHOD_TRACE) calls /\
     In (EvStoreClientCopy (Some (S (fresh w))) (Some (fresh w))
           (StoreIOBuffer_make (buf_length (readBuffer w))
              (buf_offset (readBuffer w) + headers_sz (me w))
              (buf_data (readBuffer w)))
           cb_SendMoreData) calls /\
     In (EvReplaceHttpReply (fresh w) scOkay) calls /\
     In (EvComplete (fresh w)) calls /\
     (forall ks, ~ In (EvStoreGetPublicByRequest ks) calls) /\
     fwdStarts calls = 0%nat) /\
  (getInt64 MAX_FORWARDS hdr <> 0 ->
   clientGetMoreData env w = (updateLoggingTags LOG_TCP_MISS ;; doGetMoreData env) noted) /\
  (has MAX_FORWARDS hdr = false -> getInt64 MAX_FORWARDS hdr = -1).
Proof.
  intros Hdone Hm hdr noted. subst hdr noted.
  split; [|split].
  - intros Hmf. apply Z.eqb_eq in Hmf.
    open_world w. mhyps. subst.
    unfold clientGetMoreData, traceReply. mbase. cbn [MethodType_eqb]. mbase.
    match goal with |- context [if ?b then _ else _] => is_var b; destruct b end;
      mbase; rewrite Hmf; mbase; rewrite createStoreEntry_run; mbase;
      (eexists; eexists; split; [reflexivity|]); mbase; rewrite ?create_calls_default;
      (split; [split_trace|]);
      (repeat split; try in_calls; try count_fetches);
      intros ks Hin; unfold private_entry_calls in Hin;
      rewrite ?in_app_iff in Hin; cbn [In] in Hin;
      destruct (USE_DELAY_POOLS env); cbn [In] in Hin; intuition discriminate.
  - intros Hmf. apply Z.eqb_neq in Hmf.
    open_world w. mhyps. subst.
    unfold clientGetMoreData. mbase. cbn [MethodType_eqb]. mbase.
    match goal with |- context [if ?b then _ else _] => is_var b; destruct b end;
      mbase; rewrite Hmf; mbase; reflexivity.
  - unfold getInt64, findEntry, has.
    induction (req_header (request (http w))) as [|x h IH]; [reflexivity|].
    cbn [existsb find]. destruct (HdrType_eqb (id x) MAX_FORWARDS); [discriminate|].
    exact IH.
Qed.

(** ** Cloning the reply *)

(** X29: [cloneReply] makes the reply for the client from the freshest
    reply of the attached entry: it needs a context without a reply (it
    stops on an assertion otherwise) and an attached entry; the reply
    keeps the stored status and advertises the engine's own HTTP version
    when the stored reply is an HTTP one, the stored version otherwise;
    the log entry is pointed at it; and its header is the one
    [buildReplyHeader] makes of the stored header. *)
Theorem cloneReply_from_freshest (env : Env) (w : World) :
  (forall rep, reply (me w) = Some rep -> cloneReply env w = None) /\
  (reply (me w) = None -> storeEntry (http w) = None -> cloneReply env w = None) /\
  (forall e,
     reply (me w) = None ->
     storeEntry (http w) = Some e ->
     let stored := freshestReply (entries env e) in
     let advertised :=
       if is_PROTO_HTTP (sline_protocol stored)
       then set_sline_version ProtocolVersion_default stored
       else stored in
     let cloned := set_http (set_al_reply true (http w))
                     (set_me (set_reply (Some advertised) (me w)) w) in
     cloneReply env w = Some (tt, built env cloned advertised) /\
     exists w' rep',
       cloneReply env w = Some (tt, w') /\
       reply (me w') = Some rep' /\
       al_reply (http w') = true /\
       sline_status rep' = sline_status stored /\
       sline_protocol rep' = sline_protocol stored /\
       sline_version rep' =
         (if is_PROTO_HTTP (sline_protocol stored) then ProtocolVersion_default
          else sline_version stored)).
Proof.
  split; [|split].
  - intros rep Hrep. open_world w. mhyps. subst. unfold cloneReply. mbase. reflexivity.
  - intros Hrep He. open_world w. mhyps. subst. unfold cloneReply. mbase. reflexivity.
  - intros e Hrep He stored advertised cloned.
    assert (Hrun : cloneReply env w = Some (tt, built env cloned advertised)).
    { rewrite <- (buildReplyHeader_run env cloned advertised).
      - subst cloned advertised stored.
        open_world w. mhyps. subst. unfold cloneReply. mbase.
        destruct (is_PROTO_HTTP _); reflexivity.
      - reflexivity.
      - intros _. subst cloned. cbn. rewrite He. reflexivity. }
    split; [exact Hrun|].
    exists (built env cloned advertised), (set_header (built_header env cloned advertised) advertised).
    split; [exact Hrun|].
    subst cloned advertised stored. cbn.
    destruct (is_PROTO_HTTP _); repeat split; reflexivity.
Qed.

(** ** The lock on a hit *)


(** ** The further theorems at sample inputs *)







Lemma sendMoreData_ignores_unusable_connection_witness :
  sendMoreData sample_env StoreIOBuffer_empty closing_world = Some (tt, closing_world).
Proof.
  apply (sendMoreData_ignores_unusable_connection sample_env StoreIOBuffer_empty
           closing_world).
  reflexivity.
Defined.



Lemma checkTransferDone_cases_witness :
  checkTransferDone sample_env sent_world = Some (1, sent_world).
Proof.
  destruct (checkTransferDone_cases sample_env sent_world) as [_ H].
  destruct (H 1%nat eq_refl) as [_ [_ [Hok _]]].
  apply Hok; reflexivity.
Defined.

Lemma buildReplyHeader_set_cookie_witness :
  exists w' rep',
    buildReplyHeader sample_env cloned_world = Some (tt, w') /\
    reply (me w') = Some rep' /\
    entriesOf SET_COOKIE (header rep') = [].
Proof.
  destruct (buildReplyHeader_set_cookie sample_env cloned_world
              (set_header [mkEntry CONNECTION "" (VStr "keep-alive");
                           mkEntry DATE "" (VTime 10)] sample_reply)
              eq_refl (fun _ => eq_refl)
              (fun r h => eq_refl) (fun r a b h => eq_refl))
    as [w' [rep' [Hrun [Hrep Hc]]]].
  exists w', rep'. repeat split; assumption.
Defined.


Lemma buildReplyHeader_date_entries_witness :
  exists w' rep',
    buildReplyHeader sample_env cloned_world = Some (tt, w') /\
    reply (me w') = Some rep' /\
    entriesOf DATE (header rep') = [mkEntry DATE "" (VTime 10)].
Proof.
  destruct (buildReplyHeader_date_entries sample_env cloned_world
              (set_header [mkEntry CONNECTION "" (VStr "keep-alive");
                           mkEntry DATE "" (VTime 10)] sample_reply)
              eq_refl (fun _ => eq_refl)
              (fun r h => eq_refl) (fun r a b h => eq_refl))
    as [w' [rep' [Hrun [Hrep [Hc _]]]]].
  exists w', rep'. repeat split; assumption.
Defined.


Lemma buildReplyHeader_connection_auth_witness :
  exists w' rep',
    buildReplyHeader sample_env cloned_world = Some (tt, w') /\
    reply (me w') = Some rep' /\
    mustKeepalive (flags (request (http w'))) = false.
Proof.
  destruct (buildReplyHeader_connection_auth sample_env cloned_world
              (set_header [mkEntry CONNECTION "" (VStr "keep-alive");
                           mkEntry DATE "" (VTime 10)] sample_reply)
              eq_refl (fun _ => eq_refl)
              (fun r h => eq_refl) (fun r a b h => eq_refl))
    as [w' [rep' [Hrun [Hrep [_ Hm]]]]].
  exists w', rep'. repeat split; assumption.
Defined.



Lemma restoreState_puts_back_witness :
  exists w',
    restoreState (revalidating_world crNone) = Some (tt, w') /\
    storeEntry (http w') = Some 1%nat /\
    sc (me w') = Some 2%nat.
Proof.
  destruct (restoreState_puts_back (revalidating_world crNone) 2%nat eq_refl)
    as [w' [Hrun [He [Hs _]]]].
  exists w'. repeat split; assumption.
Defined.

Lemma processExpired_prepares_revalidation_witness :
  exists w' e',
    processExpired sample_env hit_world = Some (tt, w') /\
    old_entry (me w') = Some 1%nat /\
    storeEntry (http w') = Some e' /\
    lastmod (request (http w')) = 5.
Proof.
  destruct (processExpired_prepares_revalidation sample_env hit_world 1%nat
              eq_refl ltac:(discriminate) eq_refl eq_refl eq_refl eq_refl)
    as [w' [e' [s' [calls [Hrun [_ [_ [_ [Hold [_ [He [_ [Hlm _]]]]]]]]]]]]].
  exists w', e'. repeat split; assumption.
Defined.


Lemma clientGetMoreData_continues_witness :
  exists w',
    clientGetMoreData sample_env reading_world = Some (tt, w') /\
    me w' = me reading_world.
Proof.
  eexists. split.
  - apply (clientGetMoreData_continues sample_env reading_world); reflexivity.
  - reflexivity.
Defined.

Lemma clientGetMoreData_trace_witness :
  exists w',
    clientGetMoreData sample_env trace_world = Some (tt, w') /\
    storeEntry (http w') = Some 100%nat /\
    fwdStarts (trace w') = fwdStarts (trace trace_world).
Proof.
  destruct (clientGetMoreData_trace sample_env trace_world eq_refl eq_refl) as [H _].
  destruct (H eq_refl) as [w' [calls [Hrun [Htr [He [_ [_ [_ [_ [_ Hn]]]]]]]]]].
  exists w'. split; [exact Hrun|]. split; [exact He|].
  rewrite Htr, fwdStarts_app, Hn. apply Nat.add_0_r.
Defined.

Lemma cloneReply_from_freshest_witness :
  exists w' rep',
    cloneReply sample_env hit_world = Some (tt, w') /\
    reply (me w') = Some rep' /\
    sline_version rep' = (1, 1).
Proof.
  destruct (cloneReply_from_freshest sample_env hit_world) as [_ [_ H]].
  destruct (H 1%nat eq_refl eq_refl) as [_ [w' [rep' [Hrun [Hrep [_ [_ [_ Hv]]]]]]]].
  exists w', rep'. repeat split; assumption.
Defined.

